(** * philosopher-test: the tester and visualizer harness, embedded in Rocq

    The development follows the four Python sources:
    - [philosopher_tester.py]          (module [Tester])
    - [philosopher_tester_simple.py]   (module [TesterSimple])
    - [philosopher_visualizer.py] and [philosopher_visualizer_simple.py]
      (module [Visualizer]; the two files share [_parse_event] verbatim)
    - [run_command] / [_capture_output] of the testers (module [Supervisor]).

    Text is modelled as [string] (characters with code points below 256);
    Python [int] as [Z]; [dict] as stdpp's [gmap]; an exception as the
    [Raise] branch of [result]. *)

From Stdlib Require Import ZArith Lia Bool List Ascii String DecimalString QArith.
From stdpp Require Import gmap strings list fin_maps.

Close Scope Q_scope.
Local Open Scope Z_scope.

(** ** Exceptions and results *)

(** The exception classes the modelled code can meet.  The last two derive
    from [BaseException] only, so [except Exception] lets them through. *)
Inductive exn :=
| ValueError | IndexError | KeyError | TypeError | ZeroDivisionError
| StopIteration | RuntimeError | OSError | FileNotFoundError | PermissionError
| KeyboardInterrupt | SystemExit.

(** [isinstance(e, Exception)] *)
Definition is_Exception (e : exn) : bool :=
  match e with
  | KeyboardInterrupt | SystemExit => false
  | _ => true
  end.

Inductive result (A : Type) :=
| Ok (a : A)
| Raise (e : exn).
Arguments Ok {A} a.
Arguments Raise {A} e.

Definition rbind {A B} (r : result A) (k : A -> result B) : result B :=
  match r with
  | Ok a => k a
  | Raise e => Raise e
  end.

#[global] Instance result_ret : MRet result := fun _ a => Ok a.
#[global] Instance result_bind : MBind result := fun _ _ k r => rbind r k.

(** ** Python text primitives *)

Module Py.

(** [str.isspace] on one character, for code points below 256:
    TAB..CR, FS..US, SPACE, NEL (0x85) and NBSP (0xA0). *)
Definition isspace (c : ascii) : bool :=
  let n := N_of_ascii c in
  ((9 <=? n) && (n <=? 13) || (28 <=? n) && (n <=? 32)
   || (n =? 133) || (n =? 160))%N.

(** Decimal digits: below code point 256 the class [\d] and the digits
    accepted by [int()] are exactly ['0'..'9']. *)
Definition isdigit (c : ascii) : bool :=
  let n := N_of_ascii c in ((48 <=? n) && (n <=? 57))%N.

Definition digit_value (c : ascii) : Z := Z.of_N (N_of_ascii c) - 48.

Definition newline : ascii := ascii_of_N 10.

Fixpoint rev_onto (s acc : string) : string :=
  match s with
  | EmptyString => acc
  | String c s' => rev_onto s' (String c acc)
  end.

Definition rev (s : string) : string := rev_onto s "".

Fixpoint lstrip (s : string) : string :=
  match s with
  | String c s' => if isspace c then lstrip s' else s
  | EmptyString => EmptyString
  end.

Definition rstrip (s : string) : string := rev (lstrip (rev s)).

(** [s.strip()] *)
Definition strip (s : string) : string := rstrip (lstrip s).

(** [needle in hay] begins with a prefix test at every position. *)
Fixpoint startswith (needle hay : string) : bool :=
  match needle, hay with
  | EmptyString, _ => true
  | String a n', String b h' => if Ascii.eqb a b then startswith n' h' else false
  | String _ _, EmptyString => false
  end.

(** [needle in hay] *)
Fixpoint contains (needle hay : string) : bool :=
  startswith needle hay ||
  match hay with
  | EmptyString => false
  | String _ h' => contains needle h'
  end.

(** [s.split()]: the maximal runs of non-whitespace characters, in order.
    [tok] is the run being read. *)
Fixpoint split_from (tok : string) (s : string) : list string :=
  match s with
  | EmptyString => match tok with EmptyString => [] | _ => [tok] end
  | String c s' =>
      if isspace c
      then match tok with
           | EmptyString => split_from "" s'
           | _ => tok :: split_from "" s'
           end
      else split_from (tok +:+ String c "") s'
  end.

Definition split (s : string) : list string := split_from "" s.

(** [l[i]] on a list: [IndexError] when out of range (non-negative [i]). *)
Definition index {A} (l : list A) (i : nat) : result A :=
  match l !! i with
  | Some a => Ok a
  | None => Raise IndexError
  end.

(** The digit part of an [int()] literal: decimal digits, where a single
    underscore may stand between two digits. *)
Fixpoint int_digits (acc : Z) (after_digit : bool) (s : string) : option Z :=
  match s with
  | EmptyString => if after_digit then Some acc else None
  | String c s' =>
      if isdigit c then int_digits (acc * 10 + digit_value c) true s'
      else if Ascii.eqb c "_"
           then (if after_digit then int_digits acc false s' else None)
           else None
  end.

(** The whitespace [int()] skips around a literal, for code points below
    256: TAB..CR, SPACE, NEL and NBSP.  The separators FS..US, which
    [str.strip] and [str.split] treat as whitespace, are not skipped. *)
Definition int_space (c : ascii) : bool :=
  let n := N_of_ascii c in
  ((9 <=? n) && (n <=? 13) || (n =? 32) || (n =? 133) || (n =? 160))%N.

Fixpoint lstrip_by (p : ascii -> bool) (s : string) : string :=
  match s with
  | String c s' => if p c then lstrip_by p s' else s
  | EmptyString => EmptyString
  end.

Definition strip_by (p : ascii -> bool) (s : string) : string :=
  rev (lstrip_by p (rev (lstrip_by p s))).

(** The default of [sys.int_info.default_max_str_digits]. *)
Definition max_str_digits : Z := 4300.

Fixpoint count_digits (s : string) : Z :=
  match s with
  | EmptyString => 0
  | String c s' => (if isdigit c then 1 else 0) + count_digits s'
  end.

(** [int(s)]: surrounding whitespace is dropped, one optional sign, then the
    digits; anything else is a [ValueError], and so is a literal of more
    than [max_str_digits] digits (the interpreter's default limit). *)
Definition int (s : string) : result Z :=
  let body :=
    match strip_by int_space s with
    | String "+" s' => int_digits 0 false s'
    | String "-" s' => Z.opp <$> int_digits 0 false s'
    | s' => int_digits 0 false s'
    end in
  match body with
  | Some z => if count_digits s <=? max_str_digits then Ok z else Raise ValueError
  | None => Raise ValueError
  end.

(** [str(z)] *)
Definition str (z : Z) : string := NilZero.string_of_int (Z.to_int z).

(** [next(x for x in l if p(x))]: the first element satisfying [p]. *)
Definition next_where {A} (p : A -> bool) (l : list A) : result A :=
  match List.find p l with
  | Some a => Ok a
  | None => Raise StopIteration
  end.

(** [any(p(x) for x in l)] *)
Definition any {A} (p : A -> bool) (l : list A) : bool := existsb p l.

(** [all(p(x) for x in l)] *)
Definition all {A} (p : A -> bool) (l : list A) : bool := forallb p l.

(** [range(lo, hi)] *)
Definition range (lo hi : Z) : list Z :=
  (fun i => lo + Z.of_nat i) <$> seq 0 (Z.to_nat (hi - lo)).

(** The longest prefix of [s] whose characters satisfy [p], and the rest. *)
Fixpoint span (p : ascii -> bool) (s : string) : string * string :=
  match s with
  | String c s' =>
      if p c then let '(a, b) := span p s' in (String c a, b)
      else (EmptyString, s)
  | EmptyString => (EmptyString, EmptyString)
  end.

End Py.


(** ** Regular expressions, as far as the two patterns of the sources need *)

Module Re.

Inductive regex :=
| Void
| Eps
| Chr (c : ascii)
| Cls (p : ascii -> bool)
| Seq (r1 r2 : regex)
| Alt (r1 r2 : regex)
| Star (r : regex).

(** [r+] *)
Definition Plus (r : regex) : regex := Seq r (Star r).

(** a literal word *)
Fixpoint Lit (s : string) : regex :=
  match s with
  | EmptyString => Eps
  | String c s' => Seq (Chr c) (Lit s')
  end.

(** [\d] *)
Definition digit : regex := Cls Py.isdigit.

Definition not_newline (c : ascii) : bool := negb (Ascii.eqb c Py.newline).

(** [.] (without DOTALL: anything but a newline) *)
Definition dot : regex := Cls not_newline.

(** [$] closing a pattern: the end of the text, or just before a newline
    that is the last character of the text. *)
Definition Eol : regex := Alt Eps (Chr Py.newline).

Fixpoint nullable (r : regex) : bool :=
  match r with
  | Void => false
  | Eps => true
  | Chr _ => false
  | Cls _ => false
  | Seq r1 r2 => nullable r1 && nullable r2
  | Alt r1 r2 => nullable r1 || nullable r2
  | Star _ => true
  end.

(** Brzozowski derivative of [r] by the character [c]. *)
Fixpoint deriv (c : ascii) (r : regex) : regex :=
  match r with
  | Void => Void
  | Eps => Void
  | Chr c' => if Ascii.eqb c' c then Eps else Void
  | Cls p => if p c then Eps else Void
  | Seq r1 r2 =>
      if nullable r1
      then Alt (Seq (deriv c r1) r2) (deriv c r2)
      else Seq (deriv c r1) r2
  | Alt r1 r2 => Alt (deriv c r1) (deriv c r2)
  | Star r' => Seq (deriv c r') (Star r')
  end.

(** [bool(re.match(r, s))] for a pattern [r] that ends in [$]: the whole of
    [s] is in the language of [r]. *)
Fixpoint matches (r : regex) (s : string) : bool :=
  match s with
  | EmptyString => nullable r
  | String c s' => matches (deriv c r) s'
  end.

(** The language of a regular expression. *)
Inductive Lang : regex -> string -> Prop :=
| LEps : Lang Eps ""
| LChr c : Lang (Chr c) (String c "")
| LCls (p : ascii -> bool) c : p c = true -> Lang (Cls p) (String c "")
| LSeq r1 r2 s1 s2 : Lang r1 s1 -> Lang r2 s2 -> Lang (Seq r1 r2) (s1 +:+ s2)
| LAltL r1 r2 s : Lang r1 s -> Lang (Alt r1 r2) s
| LAltR r1 r2 s : Lang r2 s -> Lang (Alt r1 r2) s
| LStar0 r : Lang (Star r) ""
| LStarS r s1 s2 : Lang r s1 -> Lang (Star r) s2 -> Lang (Star r) (s1 +:+ s2).

End Re.

(** ** Computations that mutate an object and may raise

    A method of an object of type [S] is a function from the object's state
    to an outcome and the state it leaves behind; a raised exception keeps
    the mutations made before it. *)

Definition M (S A : Type) : Type := S -> result A * S.

#[global] Instance M_ret {S} : MRet (M S) := fun _ a s => (Ok a, s).
#[global] Instance M_bind {S} : MBind (M S) := fun _ _ k m s =>
  match m s with
  | (Ok a, s') => k a s'
  | (Raise e, s') => (Raise e, s')
  end.

Definition lift {S A} (r : result A) : M S A := fun s => (r, s).
Definition modify {S} (f : S -> S) : M S unit := fun s => (Ok tt, f s).

Definition get {S} : M S S := fun s => (Ok s, s).

(** [m] can end by raising [e]. *)
Definition may_raise {S A} (m : M S A) (e : exn) : Prop :=
  exists s, fst (m s) = Raise e.

(** [m] keeps [P]: from a state where [P] holds it leaves, raising or not,
    a state where [P] holds. *)
Definition preserves {S A} (P : S -> Prop) (m : M S A) : Prop :=
  forall s, P s -> P (snd (m s)).

(** ** philosopher_tester.py *)

Module Tester.

(** The counters of [PhilosopherTester], and the verdicts
    [print_test_result] has written so far (test name, passed). *)
Record tester := {
  tests_passed : Z;
  tests_failed : Z;
  total_tests : Z;
  printed : list (string * bool)
}.

Definition init : tester :=
  {| tests_passed := 0; tests_failed := 0; total_tests := 0; printed := [] |}.

(** What [run_command] hands back: the return code ([None] when the process
    was never reaped) and the captured lines. *)
Definition run_result : Type := option Z * list string.

Definition print_test_result (test_name : string) (passed : bool) : M tester unit :=
  modify (fun t =>
    {| tests_passed := if passed then tests_passed t + 1 else tests_passed t;
       tests_failed := if passed then tests_failed t else tests_failed t + 1;
       total_tests := total_tests t + 1;
       printed := printed t ++ [(test_name, passed)] |}).

Definition phrases : list string :=
  ["has taken a fork"; "is eating"; "is sleeping"; "is thinking"; "died"].

(** [^\d+ \d+ (has taken a fork|is eating|is sleeping|is thinking|died)$] *)
Definition pattern : Re.regex :=
  Re.Seq (Re.Plus Re.digit) (Re.Seq (Re.Chr " ")
  (Re.Seq (Re.Plus Re.digit) (Re.Seq (Re.Chr " ")
  (Re.Seq (Re.Alt (Re.Lit "has taken a fork") (Re.Alt (Re.Lit "is eating")
            (Re.Alt (Re.Lit "is sleeping") (Re.Alt (Re.Lit "is thinking")
            (Re.Lit "died")))))
          Re.Eol)))).

Definition check_format (line : string) : bool := Re.matches pattern line.

Definition quota_line : string := "All philosophers have eaten enough".

(** The [for i, line in enumerate(output)] loop of [run_basic_format_test],
    from index [i] on, with its [break]. *)
Fixpoint format_loop (i : nat) (output : list string)
    (valid_format : bool) (invalid_lines : list string) : bool * list string :=
  match output with
  | [] => (valid_format, invalid_lines)
  | line :: rest =>
      if negb (check_format line) && negb (Py.contains quota_line line)
      then
        let invalid_lines :=
          invalid_lines ++ ["Line " +:+ Py.str (Z.of_nat i + 1) +:+ ": " +:+ line] in
        if (5 <=? length invalid_lines)%nat
        then (false, invalid_lines)
        else format_loop (S i) rest false invalid_lines
      else format_loop (S i) rest valid_format invalid_lines
  end.

(** [run_basic_format_test], given what
    [run_command(["5","800","200","200"], timeout=3)] returned.  The second
    component is [invalid_lines], which the source joins into the details
    text of the verdict. *)
Definition run_basic_format_test (run : run_result) : M tester (bool * list string) :=
  let '(returncode, output) := run in
  let '(valid_format, invalid_lines) := format_loop 0 output true [] in
  _ ← print_test_result "Output format" valid_format;
  mret (valid_format, invalid_lines).

(** [run_death_detection_test], given what
    [run_command(["4","310","200","100"], timeout=None)] returned. *)
Definition run_death_detection_test (run : run_result) : M tester bool :=
  let '(returncode, output) := run in
  let death_reported := Py.any (Py.contains "died") output in
  _ ← print_test_result "Death detection" death_reported;
  _ ← (if death_reported
       then
         death_line ← lift (Py.next_where (Py.contains "died") output);
         death_time ← lift (Py.index (Py.split death_line) 0 ≫= Py.int);
         let time_to_die := 310 in
         let within_tolerance := Z.abs (death_time - time_to_die) <=? 10 in
         print_test_result "Death timing accuracy" within_tolerance
       else mret tt);
  mret death_reported.

(** [run_one_philosopher_test], given what
    [run_command(["1","800","200","200"], timeout=None)] returned. *)
Definition run_one_philosopher_test (run : run_result) : M tester bool :=
  let '(returncode, output) := run in
  let took_fork := Py.any (Py.contains "has taken a fork") output in
  let died := Py.any (Py.contains "died") output in
  within_tolerance ←
    (if died
     then
       death_line ← lift (Py.next_where (Py.contains "died") output);
       death_time ← lift (Py.index (Py.split death_line) 0 ≫= Py.int);
       let time_to_die := 800 in
       mret (Z.abs (death_time - time_to_die) <=? 30)
     else mret false);
  _ ← print_test_result "One philosopher takes fork" took_fork;
  _ ← print_test_result "One philosopher dies" died;
  _ ← print_test_result "Death timing for one philosopher" within_tolerance;
  mret (took_fork && died && within_tolerance).

(** The [for line in output] loop of [run_deadlock_test]. *)
Fixpoint eating_loop (output : list string) (philosopher_eating : gmap Z bool)
    : result (gmap Z bool) :=
  match output with
  | [] => Ok philosopher_eating
  | line :: rest =>
      if Py.contains "is eating" line
      then
        philosopher_id ← Py.index (Py.split line) 1 ≫= Py.int;
        eating_loop rest (<[philosopher_id := true]> philosopher_eating)
      else eating_loop rest philosopher_eating
  end.

(** [run_deadlock_test], given what
    [run_command(["5","800","200","200"], timeout=5)] returned. *)
Definition run_deadlock_test (run : run_result) : M tester bool :=
  let '(returncode, output) := run in
  philosopher_eating ← lift (eating_loop output ∅);
  let all_eating := bool_decide (size philosopher_eating = 5%nat) in
  _ ← print_test_result "No deadlocks" all_eating;
  mret all_eating.

(** [run_stop_after_meals_test], given what
    [run_command(["5","800","200","200","7"], timeout=None)] returned. *)
Definition run_stop_after_meals_test (run : run_result) : M tester bool :=
  let '(returncode, output) := run in
  let all_ate := Py.any (Py.contains quota_line) output in
  let no_death := negb (Py.any (Py.contains "died") output) in
  _ ← print_test_result "All philosophers ate required meals" all_ate;
  _ ← print_test_result "No philosopher died during meal test" no_death;
  mret (all_ate && no_death).

Definition test_cases : list (list string * string) :=
  [ ([], "Too few arguments");
    (["5"; "-800"; "200"; "200"], "Invalid argument (negative)");
    (["5"; "abc"; "200"; "200"], "Non-numeric argument");
    (["5"; "0"; "200"; "200"], "Zero value");
    (["5"; "800"; "200"; "200"; "7"; "extra"], "Too many arguments") ].

(** [returncode != n]: [None] differs from every integer. *)
Definition differs (returncode : option Z) (n : Z) : bool :=
  match returncode with
  | Some status => negb (status =? n)
  | None => true
  end.

(** The [for args, desc in test_cases] loop of [run_error_handling_test];
    [run_command args] is what [run_command(args, timeout=1)] returned (the
    five argument lists differ, so the calls are told apart by them). *)
Fixpoint error_loop (run_command : list string -> run_result)
    (cases : list (list string * string)) (results : list bool)
    : M tester (list bool) :=
  match cases with
  | [] => mret results
  | (args, desc) :: rest =>
      let '(returncode, output) := run_command args in
      let has_error := Py.any (Py.contains "Error") output in
      let error_exit := differs returncode 0 in
      let passed := has_error && error_exit in
      let results := results ++ [passed] in
      _ ← print_test_result ("Error handling: " +:+ desc) passed;
      error_loop run_command rest results
  end.

Definition run_error_handling_test (run_command : list string -> run_result)
    : M tester bool :=
  results ← error_loop run_command test_cases [];
  mret (Py.all (fun passed => passed) results).

(** [run_stress_test], given what
    [run_command(["100","800","200","200"], timeout=5)] returned. *)
Definition run_stress_test (run : run_result) : M tester bool :=
  let '(returncode, output) := run in
  let no_crash :=
    differs returncode (-1) && negb (Py.any (Py.contains "Segmentation fault") output) in
  _ ← print_test_result "Handle many philosophers" no_crash;
  mret no_crash.

(** What the calls of [run_command] made by [run_all_tests] return, test by
    test. *)
Record runs := {
  format_run : run_result;
  death_run : run_result;
  one_philosopher_run : run_result;
  meals_run : run_result;
  error_runs : list string -> run_result;
  deadlock_run : run_result;
  stress_run : run_result
}.

(** [run_all_tests]: the seven tests in order, their return values dropped;
    the result tells which of the two closing lines of the summary is
    printed ([tests_passed == total_tests]). *)
Definition run_all_tests (r : runs) : M tester bool :=
  _ ← run_basic_format_test (format_run r);
  _ ← run_death_detection_test (death_run r);
  _ ← run_one_philosopher_test (one_philosopher_run r);
  _ ← run_stop_after_meals_test (meals_run r);
  _ ← run_error_handling_test (error_runs r);
  _ ← run_deadlock_test (deadlock_run r);
  _ ← run_stress_test (stress_run r);
  t ← get;
  mret (tests_passed t =? total_tests t).

End Tester.

(** Exact arithmetic for the two float expressions of the fairness test,
    [total_meals / n] and [meals < avg_meals * 0.5].  Halving a double is
    exact, and for counts below 2^53 rounding the quotient moves it by less
    than [1 / n], the least distance between [total_meals / n] and an
    integer [2 * meals] it differs from; so the comparison has the same
    outcome as over the rationals. *)
Definition Qltb (x y : Q) : bool := if Qlt_le_dec x y then true else false.

Definition true_div (a b : Z) : Q := (inject_Z a / inject_Z b)%Q.

(** [sum(d.values())] *)
Definition sum_values (d : gmap Z Z) : Z := map_fold (fun _ v acc => acc + v) 0 d.

(** [d.get(k, 0)] *)
Definition get0 (d : gmap Z Z) (k : Z) : Z := default 0 (d !! k).

(** ** philosopher_tester_simple.py

    The class, its counters, [print_test_result] (colour apart),
    [check_format] and the tests are those of philosopher_tester.py, except
    [run_deadlock_test] and the timing verdict of
    [run_one_philosopher_test]. *)

Module TesterSimple.

Import Tester.

(** The first loop of [run_deadlock_test]: the (timestamp, id) pairs of the
    lines that mention eating. *)
Fixpoint collect_eating (output : list string) (eating_events : list (Z * Z))
    : result (list (Z * Z)) :=
  match output with
  | [] => Ok eating_events
  | line :: rest =>
      if Py.contains "is eating" line
      then
        timestamp ← Py.index (Py.split line) 0 ≫= Py.int;
        philo_id ← Py.index (Py.split line) 1 ≫= Py.int;
        collect_eating rest (eating_events ++ [(timestamp, philo_id)])
      else collect_eating rest eating_events
  end.

(** [for _, philo_id in eating_events:
       eating_counts[philo_id] = eating_counts.get(philo_id, 0) + 1] *)
Fixpoint count_loop (eating_events : list (Z * Z)) (eating_counts : gmap Z Z)
    : gmap Z Z :=
  match eating_events with
  | [] => eating_counts
  | (_, philo_id) :: rest =>
      count_loop rest (<[philo_id := get0 eating_counts philo_id + 1]> eating_counts)
  end.

(** [for philo_id in range(1, 6)] inside the fairness test *)
Fixpoint fair_loop (ids : list Z) (eating_counts : gmap Z Z) (avg_meals : Q)
    (fair_distribution : bool) : bool :=
  match ids with
  | [] => fair_distribution
  | philo_id :: rest =>
      let meals := get0 eating_counts philo_id in
      if Qltb (inject_Z meals) (avg_meals * (1 # 2))%Q
      then fair_loop rest eating_counts avg_meals false
      else fair_loop rest eating_counts avg_meals fair_distribution
  end.

(** The values [run_deadlock_test] computes from the counts:
    [(total_meals, all_ate, fair_distribution)]. *)
Definition diagnose (eating_counts : gmap Z Z) : Z * bool * bool :=
  let total_meals := sum_values eating_counts in
  let all_ate :=
    Py.all (fun philo_id => bool_decide (is_Some (eating_counts !! philo_id)))
           (Py.range 1 6) in
  let fair_distribution :=
    if all_ate && (10 <=? total_meals)
    then
      let avg_meals := true_div total_meals 5 in
      fair_loop (Py.range 1 6) eating_counts avg_meals true
    else true in
  (total_meals, all_ate, fair_distribution).

(** [run_deadlock_test], given what
    [run_command(["5","800","200","200"], timeout=15)] returned. *)
Definition run_deadlock_test (run : run_result) : M tester bool :=
  let '(returncode, output) := run in
  eating_events ← lift (collect_eating output []);
  let eating_counts := count_loop eating_events ∅ in
  let '(total_meals, all_ate, fair_distribution) := diagnose eating_counts in
  _ ← (if all_ate && negb fair_distribution
       then
         _ ← print_test_result "No deadlocks" true;
         print_test_result "No starvation" false
       else if all_ate
       then print_test_result "No deadlocks or starvation" true
       else print_test_result "No deadlocks" false);
  mret all_ate.

(** [run_one_philosopher_test] of this file writes the timing verdict only
    when a death was reported. *)
Definition run_one_philosopher_test (run : run_result) : M tester bool :=
  let '(returncode, output) := run in
  let took_fork := Py.any (Py.contains "has taken a fork") output in
  let died := Py.any (Py.contains "died") output in
  within_tolerance ←
    (if died
     then
       death_line ← lift (Py.next_where (Py.contains "died") output);
       death_time ← lift (Py.index (Py.split death_line) 0 ≫= Py.int);
       let time_to_die := 800 in
       mret (Z.abs (death_time - time_to_die) <=? 30)
     else mret false);
  _ ← print_test_result "One philosopher takes fork" took_fork;
  _ ← print_test_result "One philosopher dies" died;
  _ ← (if died
       then print_test_result "Death timing for one philosopher" within_tolerance
       else mret tt);
  mret (took_fork && died && (if died then within_tolerance else false)).

(** [run_all_tests] *)
Definition run_all_tests (r : runs) : M tester bool :=
  _ ← run_basic_format_test (format_run r);
  _ ← run_death_detection_test (death_run r);
  _ ← run_one_philosopher_test (one_philosopher_run r);
  _ ← run_stop_after_meals_test (meals_run r);
  _ ← run_error_handling_test (error_runs r);
  _ ← run_deadlock_test (deadlock_run r);
  _ ← run_stress_test (stress_run r);
  t ← get;
  mret (tests_passed t =? total_tests t).

End TesterSimple.

(** ** philosopher_visualizer.py and philosopher_visualizer_simple.py *)

Module Visualizer.

(** One value of [philosopher_states]: the dict with the keys
    "state", "forks", "meals" and "last_change". *)
Record pstate := {
  state : string;
  forks : Z;
  meals : Z;
  last_change : Z
}.

Record visualizer := {
  output_lines : list string;
  eating_events : list (Z * Z);
  fork_events : list (Z * Z);
  philosopher_states : gmap Z pstate;
  max_time : Z
}.

Definition set_state (x : string) (p : pstate) : pstate :=
  {| state := x; forks := forks p; meals := meals p; last_change := last_change p |}.
Definition set_forks (x : Z) (p : pstate) : pstate :=
  {| state := state p; forks := x; meals := meals p; last_change := last_change p |}.
Definition set_meals (x : Z) (p : pstate) : pstate :=
  {| state := state p; forks := forks p; meals := x; last_change := last_change p |}.
Definition set_last_change (x : Z) (p : pstate) : pstate :=
  {| state := state p; forks := forks p; meals := meals p; last_change := x |}.

(** [self.philosopher_states[philo_id][field] = ...]: the outer subscript
    raises [KeyError] on an id that has no entry; otherwise the inner dict
    is updated in place by [f]. *)
Definition set_philosopher_states (d : gmap Z pstate) (v : visualizer) : visualizer :=
  {| output_lines := output_lines v;
     eating_events := eating_events v;
     fork_events := fork_events v;
     philosopher_states := d;
     max_time := max_time v |}.

Definition update_entry (philo_id : Z) (f : pstate -> pstate) : M visualizer unit :=
  fun v =>
    match philosopher_states v !! philo_id with
    | Some p =>
        (Ok tt, set_philosopher_states (<[philo_id := f p]> (philosopher_states v)) v)
    | None => (Raise KeyError, v)
    end.

Definition append_eating (e : Z * Z) : M visualizer unit :=
  modify (fun v =>
    {| output_lines := output_lines v;
       eating_events := eating_events v ++ [e];
       fork_events := fork_events v;
       philosopher_states := philosopher_states v;
       max_time := max_time v |}).

Definition append_fork (e : Z * Z) : M visualizer unit :=
  modify (fun v =>
    {| output_lines := output_lines v;
       eating_events := eating_events v;
       fork_events := fork_events v ++ [e];
       philosopher_states := philosopher_states v;
       max_time := max_time v |}).

Definition append_line (line : string) : M visualizer unit :=
  modify (fun v =>
    {| output_lines := output_lines v ++ [line];
       eating_events := eating_events v;
       fork_events := fork_events v;
       philosopher_states := philosopher_states v;
       max_time := max_time v |}).

Definition raise_max_time (timestamp : Z) : M visualizer unit :=
  modify (fun v =>
    {| output_lines := output_lines v;
       eating_events := eating_events v;
       fork_events := fork_events v;
       philosopher_states := philosopher_states v;
       max_time := Z.max (max_time v) timestamp |}).

(** [^(\d+) (\d+) (.+)$] *)
Definition pattern : Re.regex :=
  Re.Seq (Re.Plus Re.digit) (Re.Seq (Re.Chr " ")
  (Re.Seq (Re.Plus Re.digit) (Re.Seq (Re.Chr " ")
  (Re.Seq (Re.Plus Re.dot) Re.Eol)))).

(** [re.match(pattern, line)] with its three groups.  Each [\d+] is followed
    by a space and [.+] by the end of the line, so the groups are the
    maximal runs: no other split of the line can match. *)
Definition re_match (line : string) : option (string * string * string) :=
  let '(g1, r1) := Py.span Py.isdigit line in
  match g1, r1 with
  | String _ _, String " " r2 =>
      let '(g2, r3) := Py.span Py.isdigit r2 in
      match g2, r3 with
      | String _ _, String " " r4 =>
          let '(g3, r5) := Py.span Re.not_newline r4 in
          match g3, r5 with
          | String _ _, EmptyString => Some (g1, g2, g3)
          | String _ _, String _ EmptyString => Some (g1, g2, g3)
          | _, _ => None
          end
      | _, _ => None
      end
  | _, _ => None
  end.

(** The block of [_parse_event] under "# Update philosopher state". *)
Definition update_state (timestamp philo_id : Z) (action : string) : M visualizer unit :=
  if String.eqb action "is eating" then
    _ ← append_eating (timestamp, philo_id);
    _ ← update_entry philo_id (set_state "eating");
    _ ← update_entry philo_id (fun p => set_meals (meals p + 1) p);
    update_entry philo_id (set_last_change timestamp)
  else if String.eqb action "is sleeping" then
    _ ← update_entry philo_id (set_state "sleeping");
    _ ← update_entry philo_id (set_forks 0);
    update_entry philo_id (set_last_change timestamp)
  else if String.eqb action "is thinking" then
    _ ← update_entry philo_id (set_state "thinking");
    update_entry philo_id (set_last_change timestamp)
  else if String.eqb action "has taken a fork" then
    _ ← append_fork (timestamp, philo_id);
    _ ← update_entry philo_id (fun p => set_forks (forks p + 1) p);
    update_entry philo_id (set_last_change timestamp)
  else if String.eqb action "died" then
    _ ← update_entry philo_id (set_state "died");
    update_entry philo_id (set_last_change timestamp)
  else mret tt.

(** [_parse_event] *)
Definition _parse_event (line : string) : M visualizer unit :=
  match re_match line with
  | None => mret tt
  | Some (g1, g2, g3) =>
      timestamp ← lift (Py.int g1);
      _ ← raise_max_time timestamp;
      philo_id ← lift (Py.int g2);
      let action := g3 in
      update_state timestamp philo_id action
  end.

(** The body of both loops of [_capture_output] for one line read. *)
Definition capture_line (line : string) : M visualizer unit :=
  let line := Py.strip line in
  _ ← append_line line;
  _parse_event line.

(** The lines read by [_capture_output], one after the other; an exception
    ends the thread. *)
Fixpoint capture (lines : list string) : M visualizer unit :=
  match lines with
  | [] => mret tt
  | line :: rest => _ ← capture_line line; capture rest
  end.

(** [__init__] *)
Definition new : visualizer :=
  {| output_lines := []; eating_events := []; fork_events := [];
     philosopher_states := ∅; max_time := 0 |}.

Definition fresh : pstate :=
  {| state := "thinking"; forks := 0; meals := 0; last_change := 0 |}.

(** [for i in range(1, num_philosophers + 1): self.philosopher_states[i] = {...}] *)
Definition init_states (num_philosophers : Z) : gmap Z pstate :=
  foldl (fun d i => <[i := fresh]> d) ∅ (Py.range 1 (num_philosophers + 1)).

(** The head of [run_simulation], up to the [try]: the object is reset and
    an entry is made for each of the ids [1..num_philosophers]. *)
Definition run_simulation_init (args : list string) (v : visualizer)
    : result Z * visualizer :=
  match (match args with a :: _ => Py.int a | [] => Ok 5 end) with
  | Ok num_philosophers =>
      (Ok num_philosophers,
       {| output_lines := []; eating_events := []; fork_events := [];
          philosopher_states := init_states num_philosophers;
          max_time := max_time v |})
  | Raise e =>
      (Raise e,
       {| output_lines := []; eating_events := []; fork_events := [];
          philosopher_states := ∅; max_time := max_time v |})
  end.

(** [for _, philo_id in self.eating_events: eating_counts[philo_id] += 1]
    on a [defaultdict(int)] *)
Fixpoint count_loop (eating_events : list (Z * Z)) (eating_counts : gmap Z Z)
    : gmap Z Z :=
  match eating_events with
  | [] => eating_counts
  | (_, philo_id) :: rest =>
      count_loop rest (<[philo_id := get0 eating_counts philo_id + 1]> eating_counts)
  end.

(** [for philo_id in range(1, num_philosophers + 1)] inside the diagnosis *)
Fixpoint fair_loop (ids : list Z) (eating_counts : gmap Z Z) (avg_meals : Q)
    (fair_distribution : bool) : bool :=
  match ids with
  | [] => fair_distribution
  | philo_id :: rest =>
      let meals := get0 eating_counts philo_id in
      if Qltb (inject_Z meals) (avg_meals * (1 # 2))%Q
      then fair_loop rest eating_counts avg_meals false
      else fair_loop rest eating_counts avg_meals fair_distribution
  end.

(** [print_statistics]: the values behind the "Diagnosis" lines,
    [(all_ate, fair_distribution)].  The average printed in the header
    divides by [num_philosophers] and raises when there is no entry. *)
Definition print_statistics (v : visualizer) : result (bool * bool) :=
  let eating_counts := count_loop (eating_events v) ∅ in
  let total_meals := sum_values eating_counts in
  let num_philosophers := Z.of_nat (size (philosopher_states v)) in
  if num_philosophers =? 0 then Raise ZeroDivisionError
  else
    let all_ate :=
      Py.all (fun philo_id => 0 <? get0 eating_counts philo_id)
             (Py.range 1 (num_philosophers + 1)) in
    let fair_distribution :=
      if all_ate && (num_philosophers <=? total_meals)
      then
        let avg_meals := true_div total_meals num_philosophers in
        fair_loop (Py.range 1 (num_philosophers + 1)) eating_counts avg_meals true
      else true in
    Ok (all_ate, fair_distribution).

(** [self.eating_events.sort(key=lambda x: x[0])]: ascending timestamps,
    events of equal timestamp in the order they had (the sort is stable).
    Each event is put before the first event that is not earlier. *)
Fixpoint insert_by_time (e : Z * Z) (sorted : list (Z * Z)) : list (Z * Z) :=
  match sorted with
  | [] => [e]
  | x :: rest =>
      if fst e <=? fst x then e :: sorted else x :: insert_by_time e rest
  end.

Definition sort_by_time (events : list (Z * Z)) : list (Z * Z) :=
  foldr insert_by_time [] events.

(** The loop of [_process_events]; [meal_intervals] is a
    [defaultdict(list)], so a key appears with its first interval. *)
Fixpoint interval_loop (eating_events : list (Z * Z))
    (meal_intervals : gmap Z (list Z)) (last_meal_time : gmap Z Z)
    : gmap Z (list Z) :=
  match eating_events with
  | [] => meal_intervals
  | (time, philo_id) :: rest =>
      let meal_intervals :=
        match last_meal_time !! philo_id with
        | Some last =>
            let interval := time - last in
            <[philo_id := default [] (meal_intervals !! philo_id) ++ [interval]]>
              meal_intervals
        | None => meal_intervals
        end in
      interval_loop rest meal_intervals (<[philo_id := time]> last_meal_time)
  end.

(** [_process_events]: the object with its eating events sorted, and the
    attribute [meal_intervals] the method makes. *)
Definition _process_events (v : visualizer) : visualizer * gmap Z (list Z) :=
  let sorted := sort_by_time (eating_events v) in
  ({| output_lines := output_lines v;
      eating_events := sorted;
      fork_events := fork_events v;
      philosopher_states := philosopher_states v;
      max_time := max_time v |},
   interval_loop sorted ∅ ∅).

(** [create_ascii_visualization], the timeline:
    [self.eating_events[-20:] if len(self.eating_events) > 20 else self.eating_events] *)
Definition recent_events (eating_events : list (Z * Z)) : list (Z * Z) :=
  if (20 <? length eating_events)%nat
  then drop (length eating_events - 20) eating_events
  else eating_events.

(** [for time, philo_id in recent_events:
       rounded_time = (time // 1000) * 1000
       timeline[rounded_time].append(philo_id)] on a [defaultdict(list)] *)
Fixpoint timeline_loop (recent_events : list (Z * Z)) (timeline : gmap Z (list Z))
    : gmap Z (list Z) :=
  match recent_events with
  | [] => timeline
  | (time, philo_id) :: rest =>
      let rounded_time := (time `div` 1000) * 1000 in
      timeline_loop rest
        (<[rounded_time := default [] (timeline !! rounded_time) ++ [philo_id]]> timeline)
  end.

(** The dict [timeline] of [create_ascii_visualization]. *)
Definition timeline (v : visualizer) : gmap Z (list Z) :=
  timeline_loop (recent_events (eating_events v)) ∅.

End Visualizer.

(** ** run_command and _capture_output (both testers)

    Two threads and the child process take turns; a run is a list of
    labels saying who moves.  Waiting that depends on the clock (the
    deadline of the polling loop, the one second of [join(1)]) is a move of
    its own, [Elapsed]; a statement of the [try] block that raises is the
    move [Fails].  A line in the pipe is a whole line of output, as
    [readline] hands it over. *)

Module Supervisor.

Inductive process :=
| NotSpawned
| Running
| Exited (status : Z).

(** Where the thread of [_capture_output] stands. *)
Inductive collector_pc :=
| CIdle     (* not started *)
| CTest     (* while not self.stop_thread *)
| CRead     (* line = self.process.stdout.readline() *)
| CDrain    (* remaining = self.process.stdout.readlines() *)
| CDone     (* the function has returned *)
| CDied.    (* a read has raised: the thread has ended on the exception *)

(** What the caller holds as the second component of the returned pair:
    the list object [self.output_lines] itself, or a list of its own. *)
Inductive log :=
| Live
| Fresh (lines : list string).

(** Where the thread of [run_command] stands. *)
Inductive main_pc :=
| AtPopen       (* self.process = subprocess.Popen(...) *)
| AtStart       (* self.output_thread = Thread(...); .start() *)
| AtIfTimeout   (* start_time = time.time(); if timeout: *)
| AtPoll        (* while self.process.poll() is None and ... < timeout: *)
| AtSleep       (* time.sleep(0.1) *)
| AtPollAfter   (* if self.process.poll() is None: *)
| AtTerminate   (* self.process.terminate() *)
| AtGrace       (* time.sleep(0.2) *)
| AtPollGrace   (* if self.process.poll() is None: *)
| AtKill        (* self.process.kill() *)
| AtWait        (* self.process.wait() *)
| AtStop        (* self.stop_thread = True *)
| AtJoin        (* self.output_thread.join(1) *)
| AtReturn      (* return self.process.returncode, self.output_lines *)
| Handler (e : exn)   (* an exception raised inside the try *)
| Returned (returncode : option Z) (output : log)
| Raised (e : exn).   (* the exception leaves run_command *)

Record sys := {
  proc : process;
  returncode : option Z;       (* self.process.returncode *)
  pipe : list string;          (* lines written to stdout and not yet read *)
  writers : bool;              (* the write end of the pipe is still open *)
  written : list string;       (* every line written so far *)
  output_lines : list string;  (* self.output_lines *)
  stop_thread : bool;          (* self.stop_thread *)
  collector : collector_pc;
  main : main_pc
}.

Inductive label :=
| Main                    (* run_command executes its statement *)
| Fails (e : exn)         (* run_command: the statement at hand raises e *)
| Elapsed                 (* run_command: the time it waits for is over *)
| Collector               (* _capture_output executes its statement *)
| CollectorFails (e : exn)
                          (* _capture_output: the read at hand raises e, as
                             the text-mode pipe does on bytes it cannot
                             decode; nothing catches it *)
| Writes (line : string)  (* a holder of the write end writes a line *)
| Exits (status : Z)      (* the child process ends *)
| Closes.                 (* the last holder closes the write end *)

(** The statements inside [try:]. *)
Definition in_try (pc : main_pc) : bool :=
  match pc with
  | Handler _ | Returned _ _ | Raised _ => false
  | _ => true
  end.

(** The statements that follow [self.stop_thread = True]. *)
Definition after_stop (pc : main_pc) : bool :=
  match pc with
  | AtJoin | AtReturn | Returned _ Live => true
  | _ => false
  end.

(** [not self.output_thread.is_alive()] for a thread that was started. *)
Definition ended (pc : collector_pc) : bool :=
  match pc with
  | CDone | CDied => true
  | _ => false
  end.

(** [run_command] after its first two assignments. *)
Definition init : sys :=
  {| proc := NotSpawned; returncode := None; pipe := []; writers := false;
     written := []; output_lines := []; stop_thread := false;
     collector := CIdle; main := AtPopen |}.

Definition goto (pc : main_pc) (s : sys) : sys :=
  {| proc := proc s; returncode := returncode s; pipe := pipe s;
     writers := writers s; written := written s;
     output_lines := output_lines s; stop_thread := stop_thread s;
     collector := collector s; main := pc |}.

Definition collector_goto (pc : collector_pc) (s : sys) : sys :=
  {| proc := proc s; returncode := returncode s; pipe := pipe s;
     writers := writers s; written := written s;
     output_lines := output_lines s; stop_thread := stop_thread s;
     collector := pc; main := main s |}.

Definition set_proc (p : process) (w : bool) (s : sys) : sys :=
  {| proc := p; returncode := returncode s; pipe := pipe s;
     writers := w; written := written s;
     output_lines := output_lines s; stop_thread := stop_thread s;
     collector := collector s; main := main s |}.

Definition set_returncode (rc : option Z) (s : sys) : sys :=
  {| proc := proc s; returncode := rc; pipe := pipe s;
     writers := writers s; written := written s;
     output_lines := output_lines s; stop_thread := stop_thread s;
     collector := collector s; main := main s |}.

Definition set_stop_thread (b : bool) (s : sys) : sys :=
  {| proc := proc s; returncode := returncode s; pipe := pipe s;
     writers := writers s; written := written s;
     output_lines := output_lines s; stop_thread := b;
     collector := collector s; main := main s |}.

(** The reader takes [taken] off the pipe, leaving [left], and appends the
    stripped lines to [self.output_lines]. *)
Definition read_lines (taken left : list string) (s : sys) : sys :=
  {| proc := proc s; returncode := returncode s; pipe := left;
     writers := writers s; written := written s;
     output_lines := output_lines s ++ (Py.strip <$> taken);
     stop_thread := stop_thread s;
     collector := collector s; main := main s |}.

Definition write_line (line : string) (s : sys) : sys :=
  {| proc := proc s; returncode := returncode s; pipe := pipe s ++ [line];
     writers := writers s; written := written s ++ [line];
     output_lines := output_lines s; stop_thread := stop_thread s;
     collector := collector s; main := main s |}.

(** [self.process.poll()]: a process that has ended is reaped and its status
    stored in [returncode]; the answer is [returncode]. *)
Definition poll (s : sys) : sys :=
  match proc s with
  | Exited status => set_returncode (Some status) s
  | _ => s
  end.

(** [self.process.returncode is not None] *)
Definition reaped (s : sys) : bool :=
  match returncode s with
  | Some _ => true
  | None => false
  end.

(** [bool(timeout)] *)
Definition truthy (timeout : option Z) : bool :=
  match timeout with
  | Some t => negb (t =? 0)
  | None => false
  end.

Section Run.

(** The program under test and what the operating system answers to
    [subprocess.Popen(argv, ...)]: [Some e] when the spawn raises [e]. *)
Variable philo_path : string.
Variable popen : list string -> option exn.

Variable args : list string.
Variable timeout : option Z.

(** [terminate()] and [kill()] poll first ([Popen.send_signal]): a child
    that has ended by then is reaped and no signal is sent. *)
Definition main_step (s : sys) : option sys :=
  match main s with
  | AtPopen =>
      match popen ([philo_path] ++ args) with
      | None => Some (goto AtStart (set_proc Running true s))
      | Some e => Some (goto (Handler e) s)
      end
  | AtStart => Some (goto AtIfTimeout (collector_goto CTest s))
  | AtIfTimeout => Some (goto (if truthy timeout then AtPoll else AtWait) s)
  | AtPoll =>
      let s := poll s in
      Some (goto (if reaped s then AtPollAfter else AtSleep) s)
  | AtSleep => Some (goto AtPoll s)
  | AtPollAfter =>
      let s := poll s in
      Some (goto (if reaped s then AtStop else AtTerminate) s)
  | AtTerminate => Some (goto AtGrace (poll s))
  | AtGrace => Some (goto AtPollGrace s)
  | AtPollGrace =>
      let s := poll s in
      Some (goto (if reaped s then AtStop else AtKill) s)
  | AtKill => Some (goto AtStop (poll s))
  | AtWait =>
      match proc s with
      | Exited _ => Some (goto AtStop (poll s))
      | _ => None
      end
  | AtStop => Some (goto AtJoin (set_stop_thread true s))
  | AtJoin => if ended (collector s) then Some (goto AtReturn s) else None
  | AtReturn => Some (goto (Returned (returncode s) Live) s)
  | Handler e =>
      if is_Exception e
      then Some (goto (Returned (Some (-1)) (Fresh [])) s)
      else Some (goto (Raised e) s)
  | Returned _ _ => None
  | Raised _ => None
  end.

(** The waits that end by the clock: the polling loop once [timeout]
    seconds have passed, and [join(1)] after one second with the thread
    still alive. *)
Definition elapsed_step (s : sys) : option sys :=
  match main s with
  | AtPoll => Some (goto AtPollAfter (poll s))
  | AtJoin => if ended (collector s) then None else Some (goto AtReturn s)
  | _ => None
  end.

Definition collector_step (s : sys) : option sys :=
  match collector s with
  | CIdle => None
  | CTest => Some (collector_goto (if stop_thread s then CDrain else CRead) s)
  | CRead =>
      match pipe s with
      | line :: rest => Some (collector_goto CTest (read_lines [line] rest s))
      | [] => if writers s then None else Some (collector_goto CDrain s)
      end
  | CDrain =>
      if writers s then None
      else Some (collector_goto CDone (read_lines (pipe s) [] s))
  | CDone => None
  | CDied => None
  end.

(** The two reads of [_capture_output] are the statements that can raise;
    the exception ends the thread and does not reach [run_command]. *)
Definition collector_fails (s : sys) : option sys :=
  match collector s with
  | CRead | CDrain => Some (collector_goto CDied s)
  | _ => None
  end.

Definition step (l : label) (s : sys) : option sys :=
  match l with
  | Main => main_step s
  | Fails e => if in_try (main s) then Some (goto (Handler e) s) else None
  | Elapsed => elapsed_step s
  | Collector => collector_step s
  | CollectorFails _ => collector_fails s
  | Writes line =>
      if writers s && negb (String.eqb line "")
      then Some (write_line line s) else None
  | Exits status =>
      match proc s with
      | Running => Some (set_proc (Exited status) (writers s) s)
      | _ => None
      end
  | Closes =>
      if writers s then Some (set_proc (proc s) false s) else None
  end.

Fixpoint run (trace : list label) (s : sys) : option sys :=
  match trace with
  | [] => Some s
  | l :: rest =>
      match step l s with
      | Some s' => run rest s'
      | None => None
      end
  end.

End Run.

(** What the caller of [run_command] sees of the list it was handed. *)
Definition view (s : sys) : option (option Z * list string) :=
  match main s with
  | Returned rc Live => Some (rc, output_lines s)
  | Returned rc (Fresh lines) => Some (rc, lines)
  | _ => None
  end.

(** An exception raised by a statement derives from [Exception]. *)
Definition ordinary (l : label) : Prop :=
  match l with
  | Fails e => is_Exception e = true
  | _ => True
  end.

(** No exception is pending that [except Exception] lets through, and none
    has left [run_command]. *)
Definition guarded (s : sys) : Prop :=
  match main s with
  | Handler e => is_Exception e = true
  | Raised _ => False
  | _ => True
  end.

(** Where [run_command] can stand when the spawn has not succeeded. *)
Definition unspawned (s : sys) : Prop :=
  match main s with
  | AtPopen | Handler _ | Returned (Some (-1)) (Fresh []) => True
  | _ => False
  end.



(** Between the spawn and the return of [self.process.wait()]. *)
Definition before_exit (pc : main_pc) : bool :=
  match pc with
  | AtPopen | AtStart | AtIfTimeout | AtWait => true
  | _ => false
  end.

(** The polling loop and the two-step termination: the branch taken when
    [timeout] is truthy. *)
Definition on_deadline_path (pc : main_pc) : bool :=
  match pc with
  | AtPoll | AtSleep | AtPollAfter | AtTerminate | AtGrace | AtPollGrace
  | AtKill => true
  | _ => false
  end.

(** About to call [terminate()] or [kill()]: the poll just before has found
    the child alive. *)
Definition terminating (pc : main_pc) : bool :=
  match pc with
  | AtTerminate | AtKill => true
  | _ => false
  end.

(** After a [self.process.kill()] that found the child alive: nothing sets
    [returncode] any more. *)
Definition after_kill (s : sys) : Prop :=
  match main s with
  | AtStop | AtJoin | AtReturn => returncode s = None
  | Returned None Live => True
  | Returned (Some (-1)) (Fresh []) => True
  | Handler _ | Raised _ => True
  | _ => False
  end.

(** Neither the child ends nor a statement raises. *)
Definition uneventful (l : label) : Prop :=
  match l with
  | Exits _ | Fails _ => False
  | _ => True
  end.

(** What [self.process.returncode] can hold, and where [run_command] can
    stand, given the child's state. *)
Definition code_is_status (timeout : option Z) (s : sys) : Prop :=
  (main s = AtPopen -> proc s = NotSpawned) /\
  (forall status, returncode s = Some status -> proc s = Exited status) /\
  (forall status, main s = Returned (Some status) Live -> proc s = Exited status) /\
  (forall rc lines, main s = Returned rc (Fresh lines) -> rc = Some (-1) /\ lines = []) /\
  (terminating (main s) = true -> returncode s = None) /\
  (truthy timeout = false ->
   on_deadline_path (main s) = false /\
   (after_stop (main s) = true \/ main s = AtStop -> reaped s = true) /\
   main s <> Returned None Live).

End Supervisor.


(** ** Vocabulary of the statements *)

Module Spec.

(** A line the format test lets pass: an event line of the grammar, or a
    line with the quota sentence somewhere in it. *)
Definition well_formed (line : string) : Prop :=
  Re.Lang Tester.pattern line \/
  exists a b, line = a +:+ Tester.quota_line +:+ b.

(** The test of the loop of the format test, negated. *)
Definition accepts (line : string) : bool :=
  Tester.check_format line || Py.contains Tester.quota_line line.

(** The verdicts written under [test_name], oldest first. *)
Definition verdicts (test_name : string) (t : Tester.tester) : list bool :=
  snd <$> List.filter (fun e => String.eqb (fst e) test_name) (Tester.printed t).

(** The actor of an eating line: the second word of a line that mentions
    eating, read as an integer. *)
Definition eating_id (line : string) : option Z :=
  if Py.contains "is eating" line
  then match Py.index (Py.split line) 1 ≫= Py.int with
       | Ok id => Some id
       | Raise _ => None
       end
  else None.

Definition eating_ids (output : list string) : list Z := omap eating_id output.

(** The distinct actors with at least one eating line. *)
Definition eaters (output : list string) : gset Z := list_to_set (eating_ids output).

(** Every character of [s] satisfies [p]. *)
Fixpoint all_chars (p : ascii -> bool) (s : string) : bool :=
  match s with
  | EmptyString => true
  | String c s' => p c && all_chars p s'
  end.

(** The event a line stands for: timestamp, actor id and message, when the
    line has the shape [_parse_event] looks for. *)
Definition event (line : string) : option (Z * Z * string) :=
  match Visualizer.re_match line with
  | Some (g1, g2, g3) =>
      match Py.int g1, Py.int g2 with
      | Ok timestamp, Ok philo_id => Some (timestamp, philo_id, g3)
      | _, _ => None
      end
  | None => None
  end.

(** What the update block of [_parse_event] makes of an entry [p]. *)
Definition transition (action : string) (timestamp : Z) (p : Visualizer.pstate)
    : Visualizer.pstate :=
  if String.eqb action "is eating" then
    {| Visualizer.state := "eating"; Visualizer.forks := Visualizer.forks p;
       Visualizer.meals := Visualizer.meals p + 1;
       Visualizer.last_change := timestamp |}
  else if String.eqb action "is sleeping" then
    {| Visualizer.state := "sleeping"; Visualizer.forks := 0;
       Visualizer.meals := Visualizer.meals p;
       Visualizer.last_change := timestamp |}
  else if String.eqb action "is thinking" then
    {| Visualizer.state := "thinking"; Visualizer.forks := Visualizer.forks p;
       Visualizer.meals := Visualizer.meals p;
       Visualizer.last_change := timestamp |}
  else if String.eqb action "has taken a fork" then
    {| Visualizer.state := Visualizer.state p;
       Visualizer.forks := Visualizer.forks p + 1;
       Visualizer.meals := Visualizer.meals p;
       Visualizer.last_change := timestamp |}
  else if String.eqb action "died" then
    {| Visualizer.state := "died"; Visualizer.forks := Visualizer.forks p;
       Visualizer.meals := Visualizer.meals p;
       Visualizer.last_change := timestamp |}
  else p.

(** The visualizer of a run with five philosophers, before any output. *)
Definition table_of_five : Visualizer.visualizer :=
  snd (Visualizer.run_simulation_init ["5"; "800"; "200"; "200"] Visualizer.new).

(** A table of two actors after six meals, five of them by actor 1. *)
Definition uneven_table : Visualizer.visualizer :=
  {| Visualizer.output_lines := [];
     Visualizer.eating_events :=
       [(0, 1); (0, 2); (400, 1); (800, 1); (1200, 1); (1600, 1)];
     Visualizer.fork_events := [];
     Visualizer.philosopher_states := Visualizer.init_states 2;
     Visualizer.max_time := 1600 |}.

(** A captured output in which actors 1 and 3 eat. *)
Definition two_eaters : list string :=
  ["10 1 is eating"; "12 3 is eating"; "210 1 is sleeping"].

(** The actor ids of the five-philosopher scenario. *)
Definition five : gset Z := list_to_set [1; 2; 3; 4; 5].

(** The number of eating events of [id]. *)
Definition meal_count (id : Z) (eating_events : list (Z * Z)) : Z :=
  Z.of_nat (length (List.filter (fun e => Z.eqb (snd e) id) eating_events)).

(** Half the mean number of meals over [n] actors. *)
Definition half_mean (eating_events : list (Z * Z)) (n : Z) : Q :=
  (inject_Z (Z.of_nat (length eating_events)) / inject_Z n * (1 # 2))%Q.

(** The eating event a raw output line stands for, if any. *)
Definition eating_event (line : string) : option (Z * Z) :=
  match event (Py.strip line) with
  | Some (timestamp, philo_id, action) =>
      if String.eqb action "is eating" then Some (timestamp, philo_id) else None
  | None => None
  end.

(** The fork event a raw output line stands for, if any. *)
Definition fork_event (line : string) : option (Z * Z) :=
  match event (Py.strip line) with
  | Some (timestamp, philo_id, action) =>
      if String.eqb action "has taken a fork" then Some (timestamp, philo_id) else None
  | None => None
  end.

(** A supervised run of the death scenario in which every spawn succeeds:
    one line is written and read, then the child ends, the pipe closes and
    [run_command] returns. *)
Definition spawns : list string -> option exn := fun _ => None.

Definition first_moves : list Supervisor.label :=
  [Supervisor.Main; Supervisor.Main; Supervisor.Writes "312 3 died ";
   Supervisor.Collector; Supervisor.Collector].

Definition last_moves : list Supervisor.label :=
  [Supervisor.Main; Supervisor.Exits 0; Supervisor.Closes; Supervisor.Main;
   Supervisor.Main; Supervisor.Collector; Supervisor.Collector;
   Supervisor.Main; Supervisor.Main].

(** A run with a timeout in which the child outlives the deadline and the
    grace period, up to [kill()], and from there to the return. *)
Definition moves_to_kill : list Supervisor.label :=
  [Supervisor.Main; Supervisor.Main; Supervisor.Main; Supervisor.Elapsed;
   Supervisor.Main; Supervisor.Main; Supervisor.Main; Supervisor.Main].

Definition moves_after_kill : list Supervisor.label :=
  [Supervisor.Main; Supervisor.Main; Supervisor.Elapsed; Supervisor.Main].

(** A child that is started, writes nothing and is ended by signal 1,
    run without timeout. *)
Definition moves_of_a_hangup : list Supervisor.label :=
  [Supervisor.Main; Supervisor.Main; Supervisor.Main; Supervisor.Exits (-1);
   Supervisor.Closes; Supervisor.Main; Supervisor.Main; Supervisor.Collector;
   Supervisor.Collector; Supervisor.Main; Supervisor.Main].

(** A child writes a line and ends; the read of the collector raises. *)
Definition moves_of_a_broken_read : list Supervisor.label :=
  [Supervisor.Main; Supervisor.Main; Supervisor.Collector;
   Supervisor.Writes "312 3 died"; Supervisor.CollectorFails ValueError;
   Supervisor.Main; Supervisor.Exits 0; Supervisor.Main; Supervisor.Main;
   Supervisor.Main; Supervisor.Main].

(** The counters say what the written verdicts say. *)
Definition tallied (t : Tester.tester) : Prop :=
  Tester.total_tests t = Z.of_nat (length (Tester.printed t)) /\
  Tester.tests_passed t = Z.of_nat (length (List.filter snd (Tester.printed t))) /\
  Tester.tests_failed t =
    Z.of_nat (length (List.filter (fun e => negb (snd e)) (Tester.printed t))).

(** No run of the suite produced a line of output. *)
Definition silent (r : Tester.runs) : Prop :=
  snd (Tester.format_run r) = [] /\
  snd (Tester.death_run r) = [] /\
  snd (Tester.one_philosopher_run r) = [] /\
  snd (Tester.meals_run r) = [] /\
  (forall args, snd (Tester.error_runs r args) = []) /\
  snd (Tester.deadlock_run r) = [] /\
  snd (Tester.stress_run r) = [].

(** One case of the error handling test is passed: some line of the run
    has the word "Error", and the return code is not 0. *)
Definition error_case_passed (run_command : list string -> Tester.run_result)
    (c : list string * string) : bool :=
  Py.any (Py.contains "Error") (snd (run_command (fst c))) &&
  negb (bool_decide (fst (run_command (fst c)) = Some 0)).

(** The verdicts of the five error handling cases, all failed. *)
Definition error_cases_failed : list (string * bool) :=
  (fun c => ("Error handling: " +:+ snd c, false)) <$> Tester.test_cases.

(** Runs that all failed to start: [run_command] returns [(-1, [])]. *)
Definition never_started : Tester.runs :=
  {| Tester.format_run := (Some (-1), []);
     Tester.death_run := (Some (-1), []);
     Tester.one_philosopher_run := (Some (-1), []);
     Tester.meals_run := (Some (-1), []);
     Tester.error_runs := fun _ => (Some (-1), []);
     Tester.deadlock_run := (Some (-1), []);
     Tester.stress_run := (Some (-1), []) |}.

(** Runs whose death test output has the line [death_line]. *)
Definition with_death_line (death_line : string) : Tester.runs :=
  {| Tester.format_run := (Some 0, []);
     Tester.death_run := (Some 0, ["0 1 is thinking"; death_line]);
     Tester.one_philosopher_run := (Some 0, []);
     Tester.meals_run := (Some 0, []);
     Tester.error_runs := fun _ => (Some 1, ["Error: bad arguments"]);
     Tester.deadlock_run := (Some 0, []);
     Tester.stress_run := (Some 0, []) |}.

(** The meal times of [id], in the order of the list. *)
Definition meal_times (id : Z) (eating_events : list (Z * Z)) : list Z :=
  fst <$> List.filter (fun e => Z.eqb (snd e) id) eating_events.

(** The differences between neighbours. *)
Fixpoint gaps (times : list Z) : list Z :=
  match times with
  | a :: (b :: _) as rest => (b - a) :: gaps rest
  | _ => []
  end.

(** The value a [defaultdict(list)] has under a key: absent when nothing
    was appended. *)
Definition unless_empty {A} (l : list A) : option (list A) :=
  match l with
  | [] => None
  | _ => Some l
  end.

(** Times in ascending order. *)
Fixpoint ascending (times : list Z) : Prop :=
  match times with
  | [] => True
  | a :: rest => Forall (Z.le a) rest /\ ascending rest
  end.

(** Events in ascending order of time. *)
Definition by_time (events : list (Z * Z)) : Prop := ascending (fst <$> events).

End Spec.

(** * Properties *)

(** ** Text primitives *)

Section PyFacts.

Lemma app_cons c s t : String c s +:+ t = String c (s +:+ t).
Proof. reflexivity. Qed.

Lemma app_empty_l s : "" +:+ s = s.
Proof. reflexivity. Qed.

Lemma app_empty_r s : s +:+ "" = s.
Proof. induction s as [|c s IH]; [done|]. by rewrite app_cons, IH. Qed.

Lemma app_assoc' s t u : (s +:+ t) +:+ u = s +:+ t +:+ u.
Proof. induction s as [|c s IH]; [done|]. by rewrite !app_cons, IH. Qed.

Lemma app_eq_empty s t : s +:+ t = "" -> s = "" /\ t = "".
Proof. destruct s; [done|]. rewrite app_cons. discriminate. Qed.

Lemma startswith_spec needle hay :
  Py.startswith needle hay = true <-> exists b, hay = needle +:+ b.
Proof.
  revert hay. induction needle as [|a n IH]; intros hay; simpl.
  - split; [intros _; by exists hay | done].
  - destruct hay as [|b h].
    + split; [done | intros [x Hx]; rewrite app_cons in Hx; discriminate].
    + destruct (Ascii.eqb_spec a b) as [->|Hne].
      * rewrite IH. split; intros [x Hx]; exists x.
        -- by rewrite app_cons, Hx.
        -- rewrite app_cons in Hx. by injection Hx.
      * split; [done|]. intros [x Hx]. rewrite app_cons in Hx.
        injection Hx as Hab _. congruence.
Qed.

(** [needle in hay] holds exactly when [hay] is some text, then [needle],
    then some text. *)
Lemma contains_spec needle hay :
  Py.contains needle hay = true <-> exists a b, hay = a +:+ needle +:+ b.
Proof.
  induction hay as [|c h IH]; simpl.
  - rewrite orb_false_r, startswith_spec. split.
    + intros [b Hb]. by exists "", b.
    + intros (a & b & Hab). symmetry in Hab.
      apply app_eq_empty in Hab as [-> Hab]. exists b. by rewrite Hab.
  - rewrite orb_true_iff, startswith_spec, IH. split.
    + intros [[b Hb] | (a & b & Hab)].
      * by exists "", b.
      * exists (String c a), b. by rewrite app_cons, Hab.
    + intros (a & b & Hab). destruct a as [|c' a].
      * left. by exists b.
      * right. rewrite app_cons in Hab. injection Hab as _ Hab. by exists a, b.
Qed.

End PyFacts.

(** ** The matcher decides the language of the pattern *)

Section ReFacts.

Import Re.

Lemma lang_void s : Lang Void s <-> False.
Proof. split; [inversion 1 | done]. Qed.

Lemma lang_eps s : Lang Eps s <-> s = "".
Proof. split; [by inversion 1 | intros ->; constructor]. Qed.

Lemma lang_chr c s : Lang (Chr c) s <-> s = String c "".
Proof. split; [by inversion 1 | intros ->; constructor]. Qed.

Lemma lang_cls p s : Lang (Cls p) s <-> exists c, s = String c "" /\ p c = true.
Proof.
  split.
  - inversion 1; subst. eauto.
  - intros (c & -> & Hc). by constructor.
Qed.

Lemma lang_seq r1 r2 s :
  Lang (Seq r1 r2) s <-> exists s1 s2, s = s1 +:+ s2 /\ Lang r1 s1 /\ Lang r2 s2.
Proof.
  split.
  - inversion 1; subst. eauto.
  - intros (s1 & s2 & -> & H1 & H2). by constructor.
Qed.

Lemma lang_alt r1 r2 s : Lang (Alt r1 r2) s <-> Lang r1 s \/ Lang r2 s.
Proof.
  split.
  - inversion 1; subst; auto.
  - intros [H|H]; [by apply LAltL | by apply LAltR].
Qed.

(** A non-empty word of [r*] begins with a non-empty word of [r]. *)
Lemma lang_star_cons r c s :
  Lang (Star r) (String c s) <->
  exists s1 s2, s = s1 +:+ s2 /\ Lang r (String c s1) /\ Lang (Star r) s2.
Proof.
  split.
  - intros H. remember (Star r) as r' eqn:Hr. remember (String c s) as w eqn:Hw.
    revert s Hw. induction H as [| | | | | | |r0 s1 s2 H1 _ H2 IH2];
      try discriminate; intros s Hw.
    injection Hr as ->. destruct s1 as [|c1 s1].
    + rewrite app_empty_l in Hw. by apply IH2.
    + rewrite app_cons in Hw. injection Hw as Hc Hs. subst. eauto.
  - intros (s1 & s2 & -> & H1 & H2). rewrite <- app_cons. by constructor.
Qed.

Lemma nullable_spec r : nullable r = true <-> Lang r "".
Proof.
  induction r as [| | | |r1 IH1 r2 IH2|r1 IH1 r2 IH2|r IH]; simpl.
  - by rewrite lang_void.
  - by rewrite lang_eps.
  - by rewrite lang_chr.
  - rewrite lang_cls. split; [done | by intros (c & ? & _)].
  - rewrite andb_true_iff, IH1, IH2, lang_seq. split.
    + intros [H1 H2]. by exists "", "".
    + intros (s1 & s2 & Hs & H1 & H2). symmetry in Hs.
      apply app_eq_empty in Hs as [-> ->]. done.
  - by rewrite orb_true_iff, IH1, IH2, lang_alt.
  - split; [intros _; constructor | done].
Qed.

Lemma deriv_spec c r s : Lang (deriv c r) s <-> Lang r (String c s).
Proof.
  revert s.
  induction r as [| |c'|p|r1 IH1 r2 IH2|r1 IH1 r2 IH2|r IH]; intros s; simpl.
  - by rewrite !lang_void.
  - rewrite lang_void, lang_eps. done.
  - rewrite lang_chr. destruct (Ascii.eqb_spec c' c) as [->|Hne].
    + rewrite lang_eps. split; [by intros -> | by intros [= ->]].
    + rewrite lang_void. split; [done | intros [= ? ?]; congruence].
  - rewrite lang_cls. destruct (p c) eqn:Hp.
    + rewrite lang_eps. split; [intros ->; eauto | by intros (c0 & [= -> ->] & _)].
    + rewrite lang_void. split; [done | intros (c0 & [= -> ->] & ?); congruence].
  - assert (Lang (Seq (deriv c r1) r2) s <->
            exists s1 s2, s = s1 +:+ s2 /\ Lang r1 (String c s1) /\ Lang r2 s2) as Hd.
    { rewrite lang_seq. by setoid_rewrite IH1. }
    rewrite (lang_seq r1 r2).
    destruct (nullable r1) eqn:Hn.
    + rewrite lang_alt, Hd, IH2. split.
      * intros [(s1 & s2 & -> & H1 & H2) | H2].
        -- exists (String c s1), s2. by rewrite app_cons.
        -- exists "", (String c s). split_and!; [done | by apply nullable_spec | done].
      * intros (s1 & s2 & Hs & H1 & H2). destruct s1 as [|c1 s1].
        -- right. rewrite app_empty_l in Hs. by subst.
        -- left. rewrite app_cons in Hs. injection Hs as -> ->. eauto.
    + rewrite Hd. split.
      * intros (s1 & s2 & -> & H1 & H2). exists (String c s1), s2. by rewrite app_cons.
      * intros (s1 & s2 & Hs & H1 & H2). destruct s1 as [|c1 s1].
        -- apply nullable_spec in H1. congruence.
        -- rewrite app_cons in Hs. injection Hs as -> ->. eauto.
  - by rewrite !lang_alt, IH1, IH2.
  - rewrite lang_star_cons, lang_seq. by setoid_rewrite IH.
Qed.

(** [Re.matches] is membership in the language. *)
Lemma matches_spec r s : matches r s = true <-> Lang r s.
Proof.
  revert r. induction s as [|c s IH]; intros r; simpl.
  - apply nullable_spec.
  - by rewrite IH, deriv_spec.
Qed.

End ReFacts.

(** ** Format validity *)

Section FormatTest.

Import Tester.

Lemma accepts_iff line : Spec.accepts line = true <-> Spec.well_formed line.
Proof.
  unfold Spec.accepts, Spec.well_formed, check_format.
  by rewrite orb_true_iff, matches_spec, contains_spec.
Qed.

Lemma format_loop_valid output : forall i valid_format invalid_lines,
  (length invalid_lines < 5)%nat ->
  fst (format_loop i output valid_format invalid_lines)
  = valid_format && forallb Spec.accepts output.
Proof.
  induction output as [|line rest IH]; intros i v inv Hlen;
    cbn [format_loop forallb].
  - by rewrite andb_true_r.
  - unfold Spec.accepts at 1.
    destruct (check_format line); cbn [negb andb orb].
    + by apply IH.
    + destruct (Py.contains quota_line line); cbn [negb andb orb].
      * by apply IH.
      * rewrite andb_false_r.
        destruct (Nat.leb_spec 5 (length (inv ++ ["Line " +:+ Py.str (Z.of_nat i + 1) +:+ ": " +:+ line])))
          as [Hfull|Hfull]; [done|].
        by rewrite IH.
Qed.

Lemma format_loop_length output : forall i valid_format invalid_lines,
  (length invalid_lines < 5)%nat ->
  (length (snd (format_loop i output valid_format invalid_lines)) <= 5)%nat.
Proof.
  induction output as [|line rest IH]; intros i v inv Hlen; cbn [format_loop].
  - simpl. lia.
  - destruct (negb (check_format line) && negb (Py.contains quota_line line)).
    + destruct (Nat.leb_spec 5 (length (inv ++ ["Line " +:+ Py.str (Z.of_nat i + 1) +:+ ": " +:+ line])))
        as [Hfull|Hfull].
      * cbn [snd]. rewrite length_app in *. simpl in *. lia.
      * by apply IH.
    + by apply IH.
Qed.

(** Nothing is collected while the verdict is still "valid". *)
Lemma format_loop_clean output : forall i invalid_lines,
  (length invalid_lines < 5)%nat ->
  fst (format_loop i output true invalid_lines) = true ->
  snd (format_loop i output true invalid_lines) = invalid_lines.
Proof.
  induction output as [|line rest IH]; intros i inv Hlen; cbn [format_loop];
    [done|].
  destruct (negb (check_format line) && negb (Py.contains quota_line line)).
  - destruct (Nat.leb_spec 5 (length (inv ++ ["Line " +:+ Py.str (Z.of_nat i + 1) +:+ ": " +:+ line])))
      as [Hfull|Hfull]; [done|].
    rewrite format_loop_valid by done. done.
  - by apply IH.
Qed.

(** C1. The format test passes exactly when every captured line matches
    the event pattern or contains the quota sentence; the verdict is what
    is written under "Output format"; at most five offending lines are
    collected, and none when the test passes. *)
Theorem format_test_passes_iff_all_lines_well_formed
    (returncode : option Z) (output : list string) (t : tester) :
  exists valid_format invalid_lines t',
    run_basic_format_test (returncode, output) t
      = (Ok (valid_format, invalid_lines), t') /\
    printed t' = printed t ++ [("Output format", valid_format)] /\
    (valid_format = true <-> Forall Spec.well_formed output) /\
    (length invalid_lines <= 5)%nat /\
    (valid_format = true -> invalid_lines = []).
Proof.
  unfold run_basic_format_test.
  pose proof (format_loop_valid output 0 true [] ltac:(simpl; lia)) as Hv.
  pose proof (format_loop_length output 0 true [] ltac:(simpl; lia)) as Hl.
  pose proof (format_loop_clean output 0 [] ltac:(simpl; lia)) as Hc.
  destruct (format_loop 0 output true []) as [valid_format invalid_lines].
  simpl in *. eexists _, _, _. split_and!; try done.
  rewrite Hv, forallb_forall, Forall_forall.
  split; intros H line Hin.
  - apply accepts_iff, H. by apply list_elem_of_In.
  - apply accepts_iff, H. by apply list_elem_of_In.
Qed.

End FormatTest.

(** ** Death timing *)

Section DeathTiming.

Import Tester.

Lemma find_any {A} (p : A -> bool) l a : List.find p l = Some a -> Py.any p l = true.
Proof.
  intros H. apply existsb_exists. exists a.
  by apply find_some in H.
Qed.

Lemma find_none_any {A} (p : A -> bool) l : List.find p l = None -> Py.any p l = false.
Proof.
  intros H. apply not_true_is_false. intros Hany.
  apply existsb_exists in Hany as (a & Hin & Hp).
  by rewrite (find_none _ _ H a Hin) in Hp.
Qed.

(** The first line satisfying [p] ends the search. *)
Lemma find_first {A} (p : A -> bool) pre d post :
  Forall (fun a => p a = false) pre -> p d = true ->
  List.find p (pre ++ d :: post) = Some d.
Proof.
  induction 1 as [|a pre Ha _ IH]; intros Hd; simpl.
  - by rewrite Hd.
  - rewrite Ha. by apply IH.
Qed.

(** C2. With a death line in the output whose first word reads as the
    integer [death_time]: the four-actor test writes "Death timing accuracy"
    as passed exactly when [death_time] is at most 10 away from 310, and the
    single-actor test writes "Death timing for one philosopher" as passed
    exactly when it is at most 30 away from 800. *)
Theorem death_timing_within_tolerance
    (returncode : option Z) (output : list string) (t : tester)
    (death_line : string) (death_time : Z) :
  List.find (Py.contains "died") output = Some death_line ->
  Py.index (Py.split death_line) 0 ≫= Py.int = Ok death_time ->
  (exists within_tolerance t',
     run_death_detection_test (returncode, output) t = (Ok true, t') /\
     printed t' = printed t ++ [("Death detection", true);
                                ("Death timing accuracy", within_tolerance)] /\
     (within_tolerance = true <-> Z.abs (death_time - 310) <= 10)) /\
  (exists within_tolerance t',
     let took_fork := Py.any (Py.contains "has taken a fork") output in
     run_one_philosopher_test (returncode, output) t
       = (Ok (took_fork && true && within_tolerance), t') /\
     printed t' = printed t ++ [("One philosopher takes fork", took_fork);
                                ("One philosopher dies", true);
                                ("Death timing for one philosopher", within_tolerance)] /\
     (within_tolerance = true <-> Z.abs (death_time - 800) <= 30)).
Proof.
  intros Hfind Htime. unfold mbind in Htime.
  pose proof (find_any _ _ _ Hfind) as Hany.
  split.
  - exists (Z.abs (death_time - 310) <=? 10). eexists.
    unfold run_death_detection_test. rewrite Hany.
    unfold mbind, M_bind, lift, Py.next_where. simpl.
    rewrite Hfind. rewrite Htime. simpl.
    split_and!; [reflexivity | by rewrite <- app_assoc | apply Z.leb_le].
  - exists (Z.abs (death_time - 800) <=? 30). eexists.
    unfold run_one_philosopher_test. rewrite Hany.
    unfold mbind, M_bind, lift, Py.next_where. simpl.
    rewrite Hfind. rewrite Htime. simpl.
    split_and!; [reflexivity | by rewrite <- !app_assoc | apply Z.leb_le].
Qed.

Lemma death_timing_within_tolerance_witness :
  exists within_tolerance t',
    run_death_detection_test (Some 0, ["0 1 is thinking"; "312 3 died"]) init
      = (Ok true, t') /\
    printed t' = printed init ++ [("Death detection", true);
                                  ("Death timing accuracy", within_tolerance)] /\
    (within_tolerance = true <-> Z.abs (312 - 310) <= 10).
Proof.
  exact (proj1 (death_timing_within_tolerance
                  (Some 0) ["0 1 is thinking"; "312 3 died"] init
                  "312 3 died" 312 eq_refl eq_refl)).
Defined.

(** Without a death line the single-actor timing verdict is a failure and
    the four-actor test writes no timing verdict at all. *)
Lemma no_death_no_timing returncode output t :
  List.find (Py.contains "died") output = None ->
  Spec.verdicts "Death timing accuracy"
    (snd (run_death_detection_test (returncode, output) t))
  = Spec.verdicts "Death timing accuracy" t /\
  Spec.verdicts "Death timing for one philosopher"
    (snd (run_one_philosopher_test (returncode, output) t))
  = Spec.verdicts "Death timing for one philosopher" t ++ [false].
Proof.
  intros Hfind. pose proof (find_none_any _ _ Hfind) as Hany.
  unfold run_death_detection_test, run_one_philosopher_test. rewrite Hany.
  unfold Spec.verdicts, mbind, M_bind. simpl.
  rewrite !List.filter_app, !fmap_app. simpl. by rewrite !app_nil_r.
Qed.

(** C9. With several death lines in the output, the timing verdict comes
    from the first of them alone: whatever follows it, and whatever
    death-free lines stand before it, the verdict is the one of the output
    made of that line only. *)
Theorem first_death_line_decides_timing
    (returncode returncode' : option Z) (pre post : list string)
    (death_line : string) (t : tester) :
  Forall (fun line => Py.contains "died" line = false) pre ->
  Py.contains "died" death_line = true ->
  run_death_detection_test (returncode, pre ++ death_line :: post) t
  = run_death_detection_test (returncode', [death_line]) t /\
  Spec.verdicts "Death timing for one philosopher"
    (snd (run_one_philosopher_test (returncode, pre ++ death_line :: post) t))
  = Spec.verdicts "Death timing for one philosopher"
      (snd (run_one_philosopher_test (returncode', [death_line]) t)).
Proof.
  intros Hpre Hd.
  pose proof (find_first _ pre death_line post Hpre Hd) as Hfind.
  pose proof (find_first _ [] death_line [] (List.Forall_nil _) Hd) as Hfind1.
  simpl app in Hfind1.
  pose proof (find_any _ _ _ Hfind) as Hany.
  pose proof (find_any _ _ _ Hfind1) as Hany1.
  split.
  - unfold run_death_detection_test. rewrite Hany, Hany1.
    unfold mbind, M_bind, lift, Py.next_where. cbn [print_test_result modify].
    by rewrite Hfind, Hfind1.
  - unfold run_one_philosopher_test. rewrite Hany, Hany1.
    unfold mbind, M_bind, lift, Py.next_where.
    rewrite Hfind, Hfind1.
    destruct (result_bind _ _ Py.int (Py.index (Py.split death_line) 0))
      as [death_time|e];
      [|done].
    unfold Spec.verdicts. simpl.
    rewrite !List.filter_app, !fmap_app. simpl. by rewrite !app_nil_r.
Qed.

Lemma first_death_line_decides_timing_witness :
  run_death_detection_test
    (Some 0, ["0 1 is thinking"] ++ "312 3 died" :: ["900 2 died"]) init
  = run_death_detection_test (None, ["312 3 died"]) init.
Proof.
  refine (proj1 (first_death_line_decides_timing
                   (Some 0) None ["0 1 is thinking"] ["900 2 died"]
                   "312 3 died" init _ eq_refl)).
  repeat constructor.
Defined.

End DeathTiming.

(** ** Deadlock detection *)

Section Deadlock.

Lemma eating_ids_cons line output :
  Spec.eating_ids (line :: output)
  = match Spec.eating_id line with
    | Some id => id :: Spec.eating_ids output
    | None => Spec.eating_ids output
    end.
Proof. reflexivity. Qed.

(** The dict of the tester's loop ends up with the eaters as its keys. *)
Lemma eating_loop_dom output : forall d d',
  Tester.eating_loop output d = Ok d' ->
  dom d' = dom d ∪ Spec.eaters output.
Proof.
  unfold Spec.eaters.
  induction output as [|line rest IH]; intros d d'; cbn [Tester.eating_loop].
  - intros [= <-]. set_solver.
  - rewrite eating_ids_cons. unfold Spec.eating_id.
    destruct (Py.contains "is eating" line).
    + unfold mbind at 1. unfold result_bind at 1.
      destruct (Py.index (Py.split line) 1 ≫= Py.int) as [id|e]; [|done].
      cbn [rbind]. intros H. apply IH in H. rewrite H, dom_insert_L.
      cbn [list_to_set]. set_solver.
    + apply IH.
Qed.

Lemma tester_deadlock_verdict returncode output t b t' :
  Tester.run_deadlock_test (returncode, output) t = (Ok b, t') ->
  b = bool_decide (size (Spec.eaters output) = 5%nat) /\
  Tester.printed t' = Tester.printed t ++ [("No deadlocks", b)].
Proof.
  unfold Tester.run_deadlock_test, mbind, M_bind, lift.
  destruct (Tester.eating_loop output ∅) as [d|e] eqn:Hloop; [|done].
  apply eating_loop_dom in Hloop. rewrite dom_empty_L, (left_id_L ∅ (∪)) in Hloop.
  rewrite <- Hloop, size_dom. simpl. intros [= <- <-]. by split.
Qed.

(** The pairs of the simple tester's first loop carry the eaters. *)
Lemma collect_eating_ids output : forall acc events,
  TesterSimple.collect_eating output acc = Ok events ->
  events.*2 = acc.*2 ++ Spec.eating_ids output.
Proof.
  induction output as [|line rest IH]; intros acc events;
    cbn [TesterSimple.collect_eating].
  - intros [= <-]. by rewrite app_nil_r.
  - rewrite eating_ids_cons. unfold Spec.eating_id.
    destruct (Py.contains "is eating" line).
    + unfold mbind at 1. unfold result_bind at 1.
      destruct (Py.index (Py.split line) 0 ≫= Py.int) as [ts|e]; [|done].
      cbn [rbind]. unfold mbind at 1. unfold result_bind at 1.
      destruct (Py.index (Py.split line) 1 ≫= Py.int) as [id|e]; [|done].
      cbn [rbind]. intros H. apply IH in H.
      rewrite H, fmap_app, <- app_assoc. done.
    + apply IH.
Qed.

Lemma simple_count_loop_dom events : forall d,
  dom (TesterSimple.count_loop events d) = dom d ∪ list_to_set events.*2.
Proof.
  induction events as [|[ts id] rest IH]; intros d; cbn [TesterSimple.count_loop].
  - set_solver.
  - rewrite IH, dom_insert_L. cbn. set_solver.
Qed.

Lemma range_1_6 : Py.range 1 6 = [1; 2; 3; 4; 5].
Proof. reflexivity. Qed.

Lemma simple_all_ate (d : gmap Z Z) :
  Py.all (fun philo_id => bool_decide (is_Some (d !! philo_id))) (Py.range 1 6) = true
  <-> forall id, 1 <= id <= 5 -> id ∈ dom d.
Proof.
  rewrite range_1_6. unfold Py.all. rewrite forallb_forall. split.
  - intros H id Hid. apply elem_of_dom.
    eapply bool_decide_eq_true_1, H.
    assert (id = 1 \/ id = 2 \/ id = 3 \/ id = 4 \/ id = 5) as Hcases by lia.
    simpl. intuition.
  - intros H id Hin. apply bool_decide_eq_true_2, elem_of_dom, H.
    simpl in Hin. lia.
Qed.

Lemma simple_deadlock_verdict returncode output t b t' :
  TesterSimple.run_deadlock_test (returncode, output) t = (Ok b, t') ->
  (b = true <-> forall id, 1 <= id <= 5 -> id ∈ Spec.eaters output).
Proof.
  unfold TesterSimple.run_deadlock_test, mbind, M_bind, lift.
  destruct (TesterSimple.collect_eating output []) as [events|e] eqn:Hcollect;
    [|done].
  apply collect_eating_ids in Hcollect. simpl in Hcollect.
  unfold TesterSimple.diagnose.
  set (all_ate := Py.all _ (Py.range 1 6)).
  assert (all_ate = true <-> forall id, 1 <= id <= 5 -> id ∈ Spec.eaters output)
    as Hall.
  { subst all_ate. rewrite simple_all_ate, simple_count_loop_dom.
    rewrite dom_empty_L, (left_id_L ∅ (∪)), Hcollect. done. }
  intros Hrun. assert (b = all_ate) as ->; [|done].
  clearbody all_ate. clear Hall.
  match type of Hrun with context [negb ?fair] => destruct fair end;
    destruct all_ate; simpl in Hrun; by injection Hrun.
Qed.


Lemma size_five : size Spec.five = 5%nat.
Proof. reflexivity. Qed.

Lemma elem_of_five id : id ∈ Spec.five <-> 1 <= id <= 5.
Proof.
  unfold Spec.five. rewrite elem_of_list_to_set, list_elem_of_In. simpl. lia.
Qed.

(** Among sets of ids between 1 and 5, having five members is the same as
    having all of them. *)
Lemma count_five (X : gset Z) :
  (forall id, id ∈ X -> 1 <= id <= 5) ->
  (size X <= 5)%nat /\
  (size X = 5%nat <-> forall id, 1 <= id <= 5 -> id ∈ X).
Proof.
  intros Hrange.
  assert (X ⊆ Spec.five) as Hsub.
  { intros id Hid. by apply elem_of_five, Hrange. }
  pose proof (subseteq_size _ _ Hsub) as Hle. rewrite size_five in Hle.
  split; [done|]. split.
  - intros Hsize id Hid.
    rewrite (set_subseteq_size_eq X Spec.five Hsub); [by apply elem_of_five|].
    rewrite size_five. lia.
  - intros Hall. apply Nat.le_antisymm; [done|].
    rewrite <- size_five. apply subseteq_size.
    intros id Hid. by apply Hall, elem_of_five.
Qed.

(** The ids of the actors are 1..5; the testers do not check it, and on
    other ids they part ways.  With ids 0..4 eating, the tester counts five
    distinct eaters and passes; the simple tester looks for 1..5 and
    fails. *)
Lemma deadlock_check_zero_based_ids :
  let output := ["10 0 is eating"; "10 1 is eating"; "10 2 is eating";
                 "10 3 is eating"; "10 4 is eating"] in
  fst (Tester.run_deadlock_test (None, output) Tester.init) = Ok true /\
  (5 ∉ Spec.eaters output) /\
  fst (TesterSimple.run_deadlock_test (None, output) Tester.init) = Ok false /\
  ~ (size (Spec.eaters output) < 5)%nat.
Proof.
  split_and!.
  - vm_compute. reflexivity.
  - unfold Spec.eaters. rewrite elem_of_list_to_set, list_elem_of_In.
    replace (Spec.eating_ids _) with [0; 1; 2; 3; 4] by (vm_compute; reflexivity).
    simpl. lia.
  - vm_compute. reflexivity.
  - vm_compute. lia.
Qed.

(** C3.  In the scenario of five actors, whose ids are 1..5, both testers
    fail the deadlock check exactly when fewer than five distinct actors
    have an eating line, and pass exactly when each of 1..5 has one. *)
Theorem deadlock_check_counts_eaters
    (returncode : option Z) (output : list string) (t : Tester.tester) :
  (forall id, id ∈ Spec.eaters output -> 1 <= id <= 5) ->
  (forall b t',
     Tester.run_deadlock_test (returncode, output) t = (Ok b, t') ->
     (b = false <-> (size (Spec.eaters output) < 5)%nat) /\
     (b = true <-> forall id, 1 <= id <= 5 -> id ∈ Spec.eaters output)) /\
  (forall b t',
     TesterSimple.run_deadlock_test (returncode, output) t = (Ok b, t') ->
     (b = false <-> (size (Spec.eaters output) < 5)%nat) /\
     (b = true <-> forall id, 1 <= id <= 5 -> id ∈ Spec.eaters output)).
Proof.
  intros Hrange. destruct (count_five _ Hrange) as [Hle Hfive].
  split; intros b t' Hrun.
  - apply tester_deadlock_verdict in Hrun as [-> _].
    rewrite bool_decide_eq_false, bool_decide_eq_true, <- Hfive.
    split; [lia | done].
  - apply simple_deadlock_verdict in Hrun.
    split; [|done]. rewrite <- Hfive in Hrun. destruct b.
    + assert (size (Spec.eaters output) = 5%nat) by by apply Hrun.
      split; [done | lia].
    + assert (size (Spec.eaters output) <> 5%nat)
        by (intros Heq; by apply Hrun in Heq).
      split; [lia | done].
Qed.

Lemma deadlock_check_counts_eaters_witness :
  (false = false <-> (size (Spec.eaters Spec.two_eaters) < 5)%nat) /\
  (false = true <-> forall id, 1 <= id <= 5 -> id ∈ Spec.eaters Spec.two_eaters).
Proof.
  refine (proj1 (deadlock_check_counts_eaters (Some 0) Spec.two_eaters Tester.init _)
            false (snd (Tester.run_deadlock_test (Some 0, Spec.two_eaters) Tester.init))
            _).
  - intros id. unfold Spec.eaters. rewrite elem_of_list_to_set, list_elem_of_In.
    replace (Spec.eating_ids _) with [1; 3] by (vm_compute; reflexivity).
    simpl. lia.
  - vm_compute. reflexivity.
Defined.

End Deadlock.

(** ** Fairness *)

Section Fairness.

Lemma Qltb_lt x y : Qltb x y = true <-> (x < y)%Q.
Proof.
  unfold Qltb. destruct (Qlt_le_dec x y) as [H|H]; split; try done.
  intros H'. by apply Qle_not_lt in H.
Qed.

(** Below half the mean, in integers. *)
Lemma below_half_mean (m total n : Z) :
  0 < n ->
  (inject_Z m < inject_Z total / inject_Z n * (1 # 2))%Q <-> 2 * n * m < total.
Proof.
  intros Hn. destruct n as [|p|p]; try lia.
  unfold Qlt, Qdiv, Qmult, Qinv, inject_Z. simpl. lia.
Qed.

Lemma elem_of_range lo hi id : In id (Py.range lo hi) <-> lo <= id < hi.
Proof.
  unfold Py.range. rewrite <- list_elem_of_In, list_elem_of_fmap.
  setoid_rewrite list_elem_of_In. setoid_rewrite in_seq. split.
  - intros (i & -> & Hi). lia.
  - intros Hid. exists (Z.to_nat (id - lo)). lia.
Qed.

Lemma get0_insert (d : gmap Z Z) k v id :
  get0 (<[k := v]> d) id = if decide (k = id) then v else get0 d id.
Proof. unfold get0. rewrite lookup_insert. by case_decide. Qed.

Lemma sum_values_insert (d : gmap Z Z) k :
  sum_values (<[k := get0 d k + 1]> d) = sum_values d + 1.
Proof.
  unfold sum_values, get0.
  assert (forall (m : gmap Z Z) i x, m !! i = None ->
            map_fold (fun _ v acc => acc + v) 0 (<[i := x]> m)
            = map_fold (fun _ v acc => acc + v) 0 m + x) as Hins.
  { intros m i x Hi. rewrite map_fold_insert_L; [done | intros; lia | done]. }
  destruct (d !! k) as [v|] eqn:Hk; simpl.
  - rewrite <- (insert_delete_id d k v Hk) at 2.
    rewrite <- (insert_delete_eq d k (v + 1)).
    rewrite !Hins by apply lookup_delete_eq. lia.
  - by rewrite Hins.
Qed.

Lemma meal_count_cons id ts id' rest :
  Spec.meal_count id ((ts, id') :: rest)
  = (if decide (id' = id) then 1 else 0) + Spec.meal_count id rest.
Proof.
  unfold Spec.meal_count. simpl. case_decide as Hd.
  - subst. rewrite Z.eqb_refl. simpl. lia.
  - apply Z.eqb_neq in Hd. rewrite Hd. lia.
Qed.

Lemma meal_count_nonneg id events : 0 <= Spec.meal_count id events.
Proof. unfold Spec.meal_count. lia. Qed.

(** The counting loop leaves each actor's number of eating events. *)
Lemma count_loop_get0 events : forall d id,
  get0 (TesterSimple.count_loop events d) id = get0 d id + Spec.meal_count id events.
Proof.
  induction events as [|[ts id'] rest IH]; intros d id;
    cbn [TesterSimple.count_loop].
  - unfold Spec.meal_count. simpl. lia.
  - rewrite IH, get0_insert, meal_count_cons. case_decide; subst; lia.
Qed.

(** [total_meals] is the number of eating events. *)
Lemma count_loop_sum events : forall d,
  sum_values (TesterSimple.count_loop events d)
  = sum_values d + Z.of_nat (length events).
Proof.
  induction events as [|[ts id'] rest IH]; intros d;
    cbn [TesterSimple.count_loop].
  - simpl. lia.
  - rewrite IH, sum_values_insert. simpl length. lia.
Qed.

Lemma count_loop_lookup events id :
  is_Some (TesterSimple.count_loop events ∅ !! id) <-> 1 <= Spec.meal_count id events.
Proof.
  rewrite <- elem_of_dom, simple_count_loop_dom, dom_empty_L, (left_id_L ∅ (∪)).
  rewrite elem_of_list_to_set, list_elem_of_fmap.
  induction events as [|[ts id'] rest IH].
  - unfold Spec.meal_count. simpl. split; [|lia].
    intros (e & _ & He). by apply elem_of_nil in He.
  - rewrite meal_count_cons. pose proof (meal_count_nonneg id rest).
    split.
    + intros (e & -> & He). apply elem_of_cons in He as [->|He].
      * simpl in *. case_decide; [lia|done].
      * assert (1 <= Spec.meal_count e.2 rest) by (apply IH; eauto).
        case_decide; lia.
    + intros Hc. case_decide as Hd.
      * exists (ts, id'). split; [done | apply elem_of_cons; by left].
      * destruct IH as [_ IH]. destruct IH as (e & -> & He); [lia|].
        exists e. split; [done | apply elem_of_cons; by right].
Qed.

Lemma fair_loop_spec ids counts avg : forall fair,
  TesterSimple.fair_loop ids counts avg fair
  = fair && forallb (fun id => negb (Qltb (inject_Z (get0 counts id)) (avg * (1 # 2))%Q)) ids.
Proof.
  induction ids as [|id rest IH]; intros fair; cbn [TesterSimple.fair_loop forallb].
  - by rewrite andb_true_r.
  - destruct (Qltb _ _); rewrite IH; simpl; [by rewrite andb_false_r | done].
Qed.

Lemma fair_loop_false ids counts avg :
  TesterSimple.fair_loop ids counts avg true = false <->
  exists id, In id ids /\ (inject_Z (get0 counts id) < avg * (1 # 2))%Q.
Proof.
  rewrite fair_loop_spec. simpl. rewrite <- not_true_iff_false, forallb_forall.
  split.
  - intros Hnot. induction ids as [|id rest IH].
    + exfalso. apply Hnot. by intros ? [].
    + destruct (Qltb (inject_Z (get0 counts id)) (avg * (1 # 2))%Q) eqn:Hlt.
      * exists id. split; [by left | by apply Qltb_lt].
      * destruct IH as (id' & Hin & Hlt').
        { intros Hall. apply Hnot. intros x [<-|Hx]; [by rewrite Hlt | by apply Hall]. }
        exists id'. split; [by right | done].
  - intros (id & Hin & Hlt) Hall. apply Qltb_lt in Hlt.
    specialize (Hall id Hin). by rewrite Hlt in Hall.
Qed.

Lemma sum_values_empty : sum_values ∅ = 0.
Proof. reflexivity. Qed.

Lemma get0_empty id : get0 ∅ id = 0.
Proof. reflexivity. Qed.

(** The fairness loop over the ids [1..n], on the counts of [events]. *)
Lemma fair_loop_events events n :
  TesterSimple.fair_loop (Py.range 1 (n + 1)) (TesterSimple.count_loop events ∅)
    (true_div (Z.of_nat (length events)) n) true = false <->
  exists id, 1 <= id <= n /\
    (inject_Z (Spec.meal_count id events) < Spec.half_mean events n)%Q.
Proof.
  rewrite fair_loop_false. unfold Spec.half_mean, true_div.
  split; intros (id & Hid & Hlt); exists id.
  - apply elem_of_range in Hid.
    rewrite count_loop_get0, get0_empty, Z.add_0_l in Hlt. split; [lia | done].
  - rewrite elem_of_range, count_loop_get0, get0_empty, Z.add_0_l.
    split; [lia | done].
Qed.

(** C4. The fairness flag of the simple tester is lowered exactly when all
    five actors have eaten, at least 10 meals were seen, and some actor's
    count is strictly below half the mean; the visualizer's flag obeys the
    same rule for its [n] actors, with [2 * n] meals as the threshold. *)
Theorem fairness_flag_iff_below_half_mean :
  (forall events : list (Z * Z),
     exists all_ate fair_distribution,
       TesterSimple.diagnose (TesterSimple.count_loop events ∅)
         = (Z.of_nat (length events), all_ate, fair_distribution) /\
       (all_ate = true <->
          forall id, 1 <= id <= 5 -> 1 <= Spec.meal_count id events) /\
       (fair_distribution = false <->
          all_ate = true /\ 10 <= Z.of_nat (length events) /\
          exists id, 1 <= id <= 5 /\
            (inject_Z (Spec.meal_count id events) < Spec.half_mean events 5)%Q)) /\
  (forall (v : Visualizer.visualizer) all_ate fair_distribution,
     Visualizer.print_statistics v = Ok (all_ate, fair_distribution) ->
     let n := Z.of_nat (size (Visualizer.philosopher_states v)) in
     let events := Visualizer.eating_events v in
     (all_ate = true <->
        forall id, 1 <= id <= n -> 1 <= Spec.meal_count id events) /\
     (fair_distribution = false <->
        all_ate = true /\ n * 2 <= Z.of_nat (length events) /\
        exists id, 1 <= id <= n /\
          (inject_Z (Spec.meal_count id events) < Spec.half_mean events n)%Q)).
Proof.
  split.
  - intros events. unfold TesterSimple.diagnose.
    rewrite count_loop_sum, sum_values_empty, Z.add_0_l.
    set (all_ate := Py.all _ _).
    assert (all_ate = true <->
            forall id, 1 <= id <= 5 -> 1 <= Spec.meal_count id events) as Hall.
    { subst all_ate. rewrite simple_all_ate.
      split; intros H id Hid.
      - by apply count_loop_lookup, elem_of_dom, H.
      - by apply elem_of_dom, count_loop_lookup, H. }
    eexists _, _. split; [reflexivity|]. split; [done|].
    clearbody all_ate.
    destruct all_ate; cbn [andb].
    + destruct (Z.leb_spec 10 (Z.of_nat (length events))) as [Hge|Hlt].
      * change (Py.range 1 6) with (Py.range 1 (5 + 1)).
        rewrite fair_loop_events. tauto.
      * split; [done|]. lia.
    + split; [done|]. by intros [? _].
  - intros v all_ate fair. unfold Visualizer.print_statistics.
    change Visualizer.count_loop with TesterSimple.count_loop.
    change Visualizer.fair_loop with TesterSimple.fair_loop.
    rewrite count_loop_sum, sum_values_empty, Z.add_0_l.
    set (n := Z.of_nat (size (Visualizer.philosopher_states v))).
    set (events := Visualizer.eating_events v).
    destruct (Z.eqb_spec n 0) as [Hn0|Hn0]; [done|].
    assert (0 < n) as Hn by lia.
    set (ate := Py.all _ _).
    assert (ate = true <->
            forall id, 1 <= id <= n -> 1 <= Spec.meal_count id events) as Hall.
    { subst ate. unfold Py.all. rewrite forallb_forall.
      split; intros H id Hid.
      - specialize (H id). rewrite elem_of_range in H.
        specialize (H ltac:(lia)). apply Z.ltb_lt in H.
        rewrite count_loop_get0, get0_empty in H. lia.
      - apply elem_of_range in Hid. apply Z.ltb_lt.
        rewrite count_loop_get0, get0_empty. specialize (H id). lia. }
    intros [= <- <-]. cbn zeta. split; [done|].
    clearbody ate. destruct ate; cbn [andb].
    + assert ((exists id, 1 <= id <= n /\
                (inject_Z (Spec.meal_count id events) < Spec.half_mean events n)%Q)
              -> n * 2 <= Z.of_nat (length events)) as Hmany.
      { intros (id & Hid & Hlt). unfold Spec.half_mean in Hlt.
        apply below_half_mean in Hlt; [|done].
        destruct Hall as [Hall _]. specialize (Hall eq_refl id Hid). nia. }
      destruct (Z.leb_spec n (Z.of_nat (length events))) as [Hge|Hlt].
      * rewrite fair_loop_events. tauto.
      * split; [done|]. intros (_ & H2n & _). lia.
    + split; [done|]. by intros [? _].
Qed.

Lemma fairness_flag_iff_below_half_mean_witness :
  false = false <->
    true = true /\
    Z.of_nat (size (Visualizer.philosopher_states Spec.uneven_table)) * 2
    <= Z.of_nat (length (Visualizer.eating_events Spec.uneven_table)) /\
    exists id,
      1 <= id <= Z.of_nat (size (Visualizer.philosopher_states Spec.uneven_table)) /\
      (inject_Z (Spec.meal_count id (Visualizer.eating_events Spec.uneven_table))
       < Spec.half_mean (Visualizer.eating_events Spec.uneven_table)
           (Z.of_nat (size (Visualizer.philosopher_states Spec.uneven_table))))%Q.
Proof.
  exact (proj2 (proj2 fairness_flag_iff_below_half_mean
                  Spec.uneven_table true false eq_refl)).
Defined.

End Fairness.

(** ** The state tracker *)

Section ParsedEvents.

Import Visualizer.

Lemma digit_not_space c : Py.isdigit c = true -> Py.isspace c = false.
Proof. destruct c as [[] [] [] [] [] [] [] []]; by vm_compute. Qed.

Lemma span_all p s : Spec.all_chars p (fst (Py.span p s)) = true.
Proof.
  induction s as [|c s IH]; simpl; [done|].
  destruct (p c) eqn:Hc; [|done].
  destruct (Py.span p s) as [a b]. simpl in *. by rewrite Hc.
Qed.

Lemma rev_onto_all p s : forall acc,
  Spec.all_chars p s = true -> Spec.all_chars p acc = true ->
  Spec.all_chars p (Py.rev_onto s acc) = true.
Proof.
  induction s as [|c s IH]; intros acc Hs Hacc; simpl in *; [done|].
  apply andb_true_iff in Hs as [Hc Hs]. apply IH; [done|].
  simpl. by rewrite Hc.
Qed.

Lemma rev_onto_rev_onto s : forall a b,
  Py.rev_onto (Py.rev_onto s a) b = Py.rev_onto a (s +:+ b).
Proof.
  induction s as [|c s IH]; intros a b; simpl; [done|].
  by rewrite IH.
Qed.

Lemma rev_rev s : Py.rev (Py.rev s) = s.
Proof.
  unfold Py.rev. rewrite rev_onto_rev_onto. simpl. apply app_empty_r.
Qed.

Lemma digit_not_int_space c : Py.isdigit c = true -> Py.int_space c = false.
Proof. destruct c as [[] [] [] [] [] [] [] []]; by vm_compute. Qed.

Lemma lstrip_by_digits s :
  Spec.all_chars Py.isdigit s = true -> Py.lstrip_by Py.int_space s = s.
Proof.
  destruct s as [|c s]; simpl; [done|].
  intros [Hc _]%andb_true_iff. by rewrite (digit_not_int_space c Hc).
Qed.

Lemma strip_by_digits s :
  Spec.all_chars Py.isdigit s = true -> Py.strip_by Py.int_space s = s.
Proof.
  intros Hs. unfold Py.strip_by. rewrite (lstrip_by_digits s Hs).
  rewrite lstrip_by_digits; [apply rev_rev|].
  by apply rev_onto_all.
Qed.

Lemma count_digits_length s : Py.count_digits s <= Z.of_nat (String.length s).
Proof. induction s as [|c s IH]; simpl; [done|]. destruct (Py.isdigit c); lia. Qed.

Lemma length_app_string s t :
  String.length (s +:+ t) = (String.length s + String.length t)%nat.
Proof. induction s as [|c s IH]; [done|]. rewrite app_cons. simpl. by rewrite IH. Qed.

Lemma int_digits_all s : forall acc after_digit,
  Spec.all_chars Py.isdigit s = true -> 0 <= acc ->
  after_digit = true \/ s <> "" ->
  exists z, Py.int_digits acc after_digit s = Some z /\ 0 <= z.
Proof.
  induction s as [|c s IH]; intros acc b Hs Hacc Hne; simpl in *.
  - destruct Hne as [->|?]; [eauto | done].
  - apply andb_true_iff in Hs as [Hc Hs]. rewrite Hc.
    apply IH; [done| |by left].
    assert (0 <= Py.digit_value c); [|lia].
    revert Hc. unfold Py.isdigit, Py.digit_value.
    intros [H1 _]%andb_true_iff. apply N.leb_le in H1. lia.
Qed.

(** A non-empty run of digits reads as an integer, unless it is longer
    than the interpreter lets a literal be. *)
Lemma int_of_digits s :
  Spec.all_chars Py.isdigit s = true -> s <> "" ->
  Py.count_digits s <= Py.max_str_digits ->
  exists z, Py.int s = Ok z /\ 0 <= z.
Proof.
  intros Hs Hne Hmax. unfold Py.int. rewrite (strip_by_digits s Hs).
  destruct (int_digits_all s 0 false Hs ltac:(lia) ltac:(by right)) as (z & Hz & Hz0).
  exists z. split; [|done].
  apply Z.leb_le in Hmax. rewrite Hmax.
  destruct s as [|c s]; [done|].
  simpl in Hs. apply andb_true_iff in Hs as [Hc _].
  destruct c as [[] [] [] [] [] [] [] []]; try discriminate Hc; by rewrite Hz.
Qed.

(** Whatever [int()] is given, it can only fail with [ValueError]. *)
Lemma int_raises s e : Py.int s = Raise e -> e = ValueError.
Proof.
  unfold Py.int.
  destruct (match Py.strip_by Py.int_space s with
            | String "+" s' => Py.int_digits 0 false s'
            | String "-" s' => Z.opp <$> Py.int_digits 0 false s'
            | s' => Py.int_digits 0 false s'
            end); [|by intros [= <-]].
  destruct (Py.count_digits s <=? Py.max_str_digits); [done | by intros [= <-]].
Qed.

(** The two numeric groups of a matching line read as integers when they
    are within the limit on digits; [Spec.event] is then defined. *)
Lemma re_match_event line g1 g2 g3 :
  re_match line = Some (g1, g2, g3) ->
  Py.count_digits g1 <= Py.max_str_digits ->
  Py.count_digits g2 <= Py.max_str_digits ->
  exists timestamp philo_id,
    Py.int g1 = Ok timestamp /\ Py.int g2 = Ok philo_id /\
    Spec.event line = Some (timestamp, philo_id, g3).
Proof.
  intros Hm Hmax1 Hmax2. unfold Spec.event. rewrite Hm.
  unfold re_match in Hm.
  pose proof (span_all Py.isdigit line) as H1.
  destruct (Py.span Py.isdigit line) as [a1 r1].
  destruct a1 as [|c1 a1]; [done|]. destruct r1 as [|sp1 r2]; [done|].
  destruct (Ascii.eqb_spec sp1 " ") as [->|Hsp1].
  2:{ destruct sp1 as [[] [] [] [] [] [] [] []]; done. }
  pose proof (span_all Py.isdigit r2) as H2.
  destruct (Py.span Py.isdigit r2) as [a2 r3].
  destruct a2 as [|c2 a2]; [done|]. destruct r3 as [|sp2 r4]; [done|].
  destruct (Ascii.eqb_spec sp2 " ") as [->|Hsp2].
  2:{ destruct sp2 as [[] [] [] [] [] [] [] []]; done. }
  assert (g1 = String c1 a1 /\ g2 = String c2 a2) as [-> ->].
  { destruct (Py.span Re.not_newline r4) as [a3 r5].
    destruct a3; [done|].
    destruct r5 as [|? []]; try done; by injection Hm as <- <- _. }
  destruct (int_of_digits (String c1 a1) H1 ltac:(done) Hmax1) as (ts & Hts & _).
  destruct (int_of_digits (String c2 a2) H2 ltac:(done) Hmax2) as (id & Hid & _).
  exists ts, id. by rewrite Hts, Hid.
Qed.

Lemma event_re_match line timestamp philo_id action :
  Spec.event line = Some (timestamp, philo_id, action) ->
  exists g1 g2,
    re_match line = Some (g1, g2, action) /\
    Py.int g1 = Ok timestamp /\ Py.int g2 = Ok philo_id.
Proof.
  unfold Spec.event. destruct (re_match line) as [[[g1 g2] g3]|]; [|done].
  destruct (Py.int g1) as [ts|] eqn:H1; [|done].
  destruct (Py.int g2) as [id|] eqn:H2; [|done].
  intros [= <- <- <-]. by exists g1, g2.
Qed.

(** [_parse_event] on a line that stands for an event, and on any other. *)
Lemma parse_event_event line timestamp philo_id action v :
  Spec.event line = Some (timestamp, philo_id, action) ->
  _parse_event line v
  = update_state timestamp philo_id action (snd (raise_max_time timestamp v)).
Proof.
  intros (g1 & g2 & Hm & H1 & H2)%event_re_match.
  unfold _parse_event. rewrite Hm.
  unfold mbind, M_bind, lift. by rewrite H1, H2.
Qed.

(** On a line that stands for no event, [_parse_event] either does nothing
    (the line has not the shape of an event) or raises [ValueError] (a
    number is too long to be read); in the latter case at most [max_time]
    has moved. *)
Lemma parse_event_none line v :
  Spec.event line = None ->
  _parse_event line v = (Ok tt, v) \/
  exists v',
    _parse_event line v = (Raise ValueError, v') /\
    output_lines v' = output_lines v /\
    eating_events v' = eating_events v /\
    fork_events v' = fork_events v /\
    philosopher_states v' = philosopher_states v /\
    max_time v <= max_time v'.
Proof.
  unfold Spec.event, _parse_event.
  destruct (re_match line) as [[[g1 g2] g3]|] eqn:Hm; [|by left].
  unfold mbind, M_bind, lift, raise_max_time, modify.
  destruct (Py.int g1) as [ts|e1] eqn:H1.
  - destruct (Py.int g2) as [id|e2] eqn:H2; [done|].
    apply int_raises in H2 as ->. intros _. right. eexists. split; [done|].
    cbn. split_and!; try done. lia.
  - apply int_raises in H1 as ->. intros _. right. exists v. by split_and!.
Qed.

End ParsedEvents.

Section StateTracker.

Import Visualizer.

Lemma update_entry_found philo_id f v p :
  philosopher_states v !! philo_id = Some p ->
  update_entry philo_id f v
  = (Ok tt, set_philosopher_states (<[philo_id := f p]> (philosopher_states v)) v).
Proof. intros H. unfold update_entry. by rewrite H. Qed.

Lemma update_entry_missing philo_id f v :
  philosopher_states v !! philo_id = None ->
  update_entry philo_id f v = (Raise KeyError, v).
Proof. intros H. unfold update_entry. by rewrite H. Qed.

Lemma is_phrase action :
  In action Tester.phrases <->
  String.eqb action "is eating" || String.eqb action "is sleeping"
  || String.eqb action "is thinking" || String.eqb action "has taken a fork"
  || String.eqb action "died" = true.
Proof.
  rewrite !orb_true_iff, !String.eqb_eq. unfold Tester.phrases. simpl.
  intuition congruence.
Qed.

(** The update block on an actor that has an entry. *)
Lemma update_state_found timestamp philo_id action v p :
  philosopher_states v !! philo_id = Some p ->
  exists v',
    update_state timestamp philo_id action v = (Ok tt, v') /\
    philosopher_states v'
    = <[philo_id := Spec.transition action timestamp p]> (philosopher_states v) /\
    max_time v' = max_time v /\ output_lines v' = output_lines v.
Proof.
  intros Hp. unfold update_state, Spec.transition.
  repeat (match goal with |- context [String.eqb action ?x] =>
            destruct (String.eqb action x) end);
    unfold mbind, M_bind, append_eating, append_fork, modify;
    repeat (erewrite update_entry_found;
            [|first [eassumption | apply lookup_insert_eq]];
            cbn [set_philosopher_states philosopher_states]);
    try (eexists; split; [reflexivity|];
         cbn [set_philosopher_states philosopher_states max_time output_lines];
         rewrite ?insert_insert_eq; by split_and!).
  eexists. split; [reflexivity|]. split_and!; try done.
  by rewrite insert_id.
Qed.

(** The update block on an actor without entry: the first subscript raises
    and no entry is made. *)
Lemma update_state_missing timestamp philo_id action v :
  philosopher_states v !! philo_id = None ->
  In action Tester.phrases ->
  fst (update_state timestamp philo_id action v) = Raise KeyError /\
  philosopher_states (snd (update_state timestamp philo_id action v))
  = philosopher_states v.
Proof.
  intros Hp Hin%is_phrase. unfold update_state.
  repeat (match goal with |- context [String.eqb action ?x] =>
            destruct (String.eqb action x) end);
    try discriminate Hin;
    unfold mbind, M_bind, append_eating, append_fork, modify;
    by rewrite update_entry_missing.
Qed.

(** The update block on a message that is none of the five phrases. *)
Lemma update_state_custom timestamp philo_id action v :
  ~ In action Tester.phrases ->
  update_state timestamp philo_id action v = (Ok tt, v).
Proof.
  intros Hin. rewrite is_phrase in Hin. apply not_true_is_false in Hin.
  rewrite !orb_false_iff in Hin. destruct Hin as ((((H1 & H2) & H3) & H4) & H5).
  unfold update_state. by rewrite H1, H2, H3, H4, H5.
Qed.

Lemma phrase_dec action : {In action Tester.phrases} + {~ In action Tester.phrases}.
Proof. apply in_dec, string_dec. Defined.

End StateTracker.

Section TrackerClaims.

Import Visualizer.

(** Whatever the line, [_parse_event] either leaves [philosopher_states]
    alone or rewrites the entry of an actor that already has one. *)
Lemma parse_event_states line v :
  philosopher_states (snd (_parse_event line v)) = philosopher_states v \/
  exists timestamp philo_id action p,
    Spec.event line = Some (timestamp, philo_id, action) /\
    philosopher_states v !! philo_id = Some p /\
    philosopher_states (snd (_parse_event line v))
    = <[philo_id := Spec.transition action timestamp p]> (philosopher_states v).
Proof.
  destruct (Spec.event line) as [[[ts id] a]|] eqn:Hev.
  - rewrite (parse_event_event _ _ _ _ _ Hev).
    set (v1 := snd (raise_max_time ts v)).
    assert (philosopher_states v1 = philosopher_states v) as Hv1 by done.
    destruct (philosopher_states v !! id) as [p|] eqn:Hp.
    + right. exists ts, id, a, p. split_and!; [done..|].
      rewrite <- Hv1 in Hp.
      destruct (update_state_found ts id a v1 p Hp) as (v' & -> & Hst & _).
      by rewrite <- Hv1.
    + left. rewrite <- Hv1 in Hp. rewrite <- Hv1.
      destruct (phrase_dec a) as [Hin|Hin].
      * by apply update_state_missing.
      * by rewrite update_state_custom.
  - left. by destruct (parse_event_none line v Hev)
      as [-> | (v' & -> & _ & _ & _ & Hst & _)].
Qed.

Lemma capture_cons line rest v :
  capture (line :: rest) v
  = match _parse_event (Py.strip line) (snd (append_line (Py.strip line) v)) with
    | (Ok _, v') => capture rest v'
    | (Raise e, v') => (Raise e, v')
    end.
Proof. reflexivity. Qed.

(** A property of [philosopher_states] kept by every rewrite of an entry is
    kept by the whole capture. *)
Lemma capture_keeps (P : gmap Z pstate -> Prop) :
  (forall d philo_id p action timestamp,
     P d -> d !! philo_id = Some p ->
     P (<[philo_id := Spec.transition action timestamp p]> d)) ->
  forall lines v,
    P (philosopher_states v) -> P (philosopher_states (snd (capture lines v))).
Proof.
  intros Hstep lines. induction lines as [|line rest IH]; intros v HP; [done|].
  rewrite capture_cons.
  set (v1 := snd (append_line (Py.strip line) v)).
  assert (P (philosopher_states (snd (_parse_event (Py.strip line) v1)))) as HP'.
  { destruct (parse_event_states (Py.strip line) v1)
      as [->|(ts & id & a & p & _ & Hp & ->)]; [done|].
    by apply Hstep. }
  destruct (_parse_event (Py.strip line) v1) as [[[]|e] v']; [by apply IH | done].
Qed.

Lemma transition_forks action timestamp p :
  forks (Spec.transition action timestamp p)
  = if String.eqb action "is sleeping" then 0
    else if String.eqb action "has taken a fork" then forks p + 1
    else forks p.
Proof.
  unfold Spec.transition.
  destruct (String.eqb_spec action "is eating") as [->|?]; [done|].
  destruct (String.eqb_spec action "is sleeping") as [->|?]; [done|].
  destruct (String.eqb_spec action "is thinking") as [->|?]; [done|].
  destruct (String.eqb_spec action "has taken a fork") as [->|?]; [done|].
  by destruct (String.eqb_spec action "died") as [->|?].
Qed.

(** What refutes C5 as stated: three forks taken in a row leave [forks] at
    3, and an eating line after a death line puts the state back to
    "eating". *)
Lemma forks_reach_three_and_death_is_overwritten :
  (fst (capture ["1 1 has taken a fork"; "2 1 has taken a fork";
                 "3 1 has taken a fork"] Spec.table_of_five) = Ok tt /\
   forks <$> philosopher_states
     (snd (capture ["1 1 has taken a fork"; "2 1 has taken a fork";
                    "3 1 has taken a fork"] Spec.table_of_five)) !! 1
   = Some 3) /\
  (fst (capture ["310 2 died"; "320 2 is eating"] Spec.table_of_five) = Ok tt /\
   state <$> philosopher_states
     (snd (capture ["310 2 died"; "320 2 is eating"] Spec.table_of_five)) !! 2
   = Some "eating").
Proof. split; split; vm_compute; reflexivity. Qed.

(** C5, amended.  An event for an actor with an entry rewrites that entry
    and nothing else: a sleeping line sets [forks] to 0, a fork line adds
    one to it (there is no cap), any other line leaves it as it was; the
    state field takes the name of the last eating, sleeping, thinking or
    death line, so a death is overwritten by a later line.  Along every
    captured sequence [forks] stays non-negative. *)
Theorem forks_and_state_follow_events :
  (forall line timestamp philo_id action v p,
     Spec.event line = Some (timestamp, philo_id, action) ->
     philosopher_states v !! philo_id = Some p ->
     exists v' p',
       _parse_event line v = (Ok tt, v') /\
       philosopher_states v' = <[philo_id := p']> (philosopher_states v) /\
       (action = "is sleeping" -> forks p' = 0) /\
       (action = "has taken a fork" -> forks p' = forks p + 1) /\
       (action <> "is sleeping" -> action <> "has taken a fork" ->
        forks p' = forks p) /\
       (action = "died" -> state p' = "died") /\
       (action = "is eating" -> state p' = "eating") /\
       (action = "is sleeping" -> state p' = "sleeping") /\
       (action = "is thinking" -> state p' = "thinking")) /\
  (forall lines v,
     (forall philo_id p, philosopher_states v !! philo_id = Some p -> 0 <= forks p) ->
     forall philo_id p,
       philosopher_states (snd (capture lines v)) !! philo_id = Some p ->
       0 <= forks p).
Proof.
  split.
  - intros line ts id a v p Hev Hp.
    rewrite (parse_event_event _ _ _ _ _ Hev).
    destruct (update_state_found ts id a (snd (raise_max_time ts v)) p Hp)
      as (v' & -> & Hst & _).
    exists v', (Spec.transition a ts p). split; [done|]. split; [done|].
    rewrite transition_forks.
    split_and!.
    + by intros ->.
    + by intros ->.
    + intros H1%String.eqb_neq H2%String.eqb_neq. by rewrite H1, H2.
    + by intros ->.
    + by intros ->.
    + by intros ->.
    + by intros ->.
  - intros lines v.
    apply (capture_keeps (fun d => forall id p, d !! id = Some p -> 0 <= forks p)).
    intros d id p a ts Hd Hp id' p'. rewrite lookup_insert.
    case_decide as Hid; [|by apply Hd].
    intros [= <-]. rewrite transition_forks. specialize (Hd id p Hp).
    destruct (String.eqb a "is sleeping"); [lia|].
    destruct (String.eqb a "has taken a fork"); lia.
Qed.

Lemma forks_and_state_follow_events_witness :
  exists v' p',
    _parse_event "5 1 has taken a fork" Spec.table_of_five = (Ok tt, v') /\
    philosopher_states v'
    = <[1 := p']> (philosopher_states Spec.table_of_five) /\
    forks p' = forks fresh + 1.
Proof.
  destruct (proj1 forks_and_state_follow_events
              "5 1 has taken a fork" 5 1 "has taken a fork"
              Spec.table_of_five fresh eq_refl eq_refl)
    as (v' & p' & Hrun & Hst & _ & Hfork & _).
  exists v', p'. split; [exact Hrun|]. split; [exact Hst|]. exact (Hfork eq_refl).
Defined.

Lemma init_loop_dom ids : forall d : gmap Z pstate,
  dom (foldl (fun d i => <[i := fresh]> d) d ids) = dom d ∪ list_to_set ids.
Proof.
  induction ids as [|i ids IH]; intros d; simpl.
  - set_solver.
  - rewrite IH, dom_insert_L. set_solver.
Qed.

Lemma init_states_dom n id : id ∈ dom (init_states n) <-> 1 <= id <= n.
Proof.
  unfold init_states. rewrite init_loop_dom, dom_empty_L, (left_id_L ∅ (∪)).
  rewrite elem_of_list_to_set, list_elem_of_In, elem_of_range. lia.
Qed.

(** What refutes C6 as stated: with entries for 1..5, an eating line of
    actor 6 raises [KeyError], and no entry for 6 is made. *)
Lemma unknown_actor_raises_key_error :
  fst (_parse_event "10 6 is eating" Spec.table_of_five) = Raise KeyError /\
  philosopher_states (snd (_parse_event "10 6 is eating" Spec.table_of_five)) !! 6
  = None.
Proof. split; vm_compute; reflexivity. Qed.

(** C6, amended.  The entries are made up front, for the ids
    [1..num_philosophers]; capturing output never adds or removes one.  An
    event is applied without raising when its actor has an entry or its
    message is none of the five phrases; one of the five phrases for an
    actor without entry raises [KeyError]. *)
Theorem entries_are_made_up_front :
  (forall n philo_id, philo_id ∈ dom (init_states n) <-> 1 <= philo_id <= n) /\
  (forall lines v,
     dom (philosopher_states (snd (capture lines v))) = dom (philosopher_states v)) /\
  (forall line timestamp philo_id action v,
     Spec.event line = Some (timestamp, philo_id, action) ->
     (philo_id ∈ dom (philosopher_states v) \/ ~ In action Tester.phrases ->
      fst (_parse_event line v) = Ok tt) /\
     (philo_id ∉ dom (philosopher_states v) -> In action Tester.phrases ->
      fst (_parse_event line v) = Raise KeyError)).
Proof.
  split_and!.
  - apply init_states_dom.
  - intros lines v.
    apply (capture_keeps (fun d => dom d = dom (philosopher_states v))); [|done].
    intros d id p a ts Hd Hp. rewrite dom_insert_L, <- Hd.
    apply elem_of_dom_2 in Hp. set_solver.
  - intros line ts id a v Hev. rewrite (parse_event_event _ _ _ _ _ Hev).
    set (v1 := snd (raise_max_time ts v)).
    assert (philosopher_states v1 = philosopher_states v) as <- by done.
    split.
    + intros [[p Hp]%elem_of_dom | Hcustom].
      * by destruct (update_state_found ts id a v1 p Hp) as (v' & -> & _).
      * by rewrite update_state_custom.
    + intros Hp%not_elem_of_dom Hin.
      by apply update_state_missing.
Qed.

Lemma entries_are_made_up_front_witness :
  fst (_parse_event "10 3 is eating" Spec.table_of_five) = Ok tt.
Proof.
  refine (proj1 (proj2 (proj2 entries_are_made_up_front)
                   "10 3 is eating" 10 3 "is eating" Spec.table_of_five eq_refl) _).
  left. apply (proj1 entries_are_made_up_front 5 3). lia.
Defined.

(** C10. A line whose message is none of the five phrases is applied
    without raising and leaves every actor's entry (state, forks, meals,
    last change) as it was, as well as the eating and fork events. *)
Theorem custom_event_leaves_actor_states
    (line : string) (timestamp philo_id : Z) (action : string) (v : visualizer) :
  Spec.event line = Some (timestamp, philo_id, action) ->
  ~ In action Tester.phrases ->
  exists v',
    _parse_event line v = (Ok tt, v') /\
    philosopher_states v' = philosopher_states v /\
    eating_events v' = eating_events v /\
    fork_events v' = fork_events v.
Proof.
  intros Hev Hcustom. rewrite (parse_event_event _ _ _ _ _ Hev).
  rewrite update_state_custom by done.
  by eexists.
Qed.

Lemma custom_event_leaves_actor_states_witness :
  exists v',
    _parse_event "7 2 is dancing" Spec.table_of_five = (Ok tt, v') /\
    philosopher_states v' = philosopher_states Spec.table_of_five /\
    eating_events v' = eating_events Spec.table_of_five /\
    fork_events v' = fork_events Spec.table_of_five.
Proof.
  apply (custom_event_leaves_actor_states "7 2 is dancing" 7 2 "is dancing");
    [reflexivity|].
  simpl. intuition discriminate.
Defined.

(** Each of the five phrases does rewrite the entry: the time of the last
    change becomes the line's timestamp. *)
Lemma phrase_event_sets_last_change line timestamp philo_id action v p :
  Spec.event line = Some (timestamp, philo_id, action) ->
  In action Tester.phrases ->
  philosopher_states v !! philo_id = Some p ->
  last_change <$> philosopher_states (snd (_parse_event line v)) !! philo_id
  = Some timestamp.
Proof.
  intros Hev Hin Hp. rewrite (parse_event_event _ _ _ _ _ Hev).
  destruct (update_state_found timestamp philo_id action
              (snd (raise_max_time timestamp v)) p Hp) as (v' & -> & Hst & _).
  cbn [snd]. rewrite Hst, lookup_insert_eq. cbn [fmap option_fmap option_map]. f_equal.
  unfold Spec.transition. simpl in Hin.
  destruct Hin as [<-|[<-|[<-|[<-|[<-|[]]]]]]; reflexivity.
Qed.

End TrackerClaims.

(** ** The supervised run *)

Section SupervisedRun.

Import Supervisor.

Variable philo_path : string.
Variable popen : list string -> option exn.
Variable args : list string.
Variable timeout : option Z.

#[local] Abbreviation step := (step philo_path popen args timeout).
#[local] Abbreviation run := (run philo_path popen args timeout).

Lemma run_app trace1 trace2 s :
  run (trace1 ++ trace2) s
  = match run trace1 s with
    | Some s' => run trace2 s'
    | None => None
    end.
Proof.
  revert s. induction trace1 as [|l trace1 IH]; intros s; simpl; [done|].
  destruct (step l s); [apply IH | done].
Qed.

(** A property kept by every step holds all along a run. *)
Lemma run_keeps (P : sys -> Prop) (allowed : label -> Prop) :
  (forall l s s', allowed l -> P s -> step l s = Some s' -> P s') ->
  forall trace s s',
    Forall allowed trace -> P s -> run trace s = Some s' -> P s'.
Proof.
  intros Hstep trace. induction trace as [|l trace IH]; intros s s' Hall HP; simpl.
  - by intros [= <-].
  - apply Forall_cons in Hall as [Hl Hall].
    destruct (step l s) as [s1|] eqn:Hs; [|done].
    apply IH; [done|]. by apply (Hstep l s).
Qed.

Ltac step_cases H :=
  repeat match type of H with
         | context [match ?x with _ => _ end] => destruct x eqn:?
         end;
  try discriminate H; injection H as <-.

Lemma code_is_status_init : code_is_status timeout init.
Proof.
  unfold code_is_status. simpl. split_and!; try done.
  intros _. split_and!; [done | by intros [|] | done].
Qed.

Ltac close_inv :=
  intros; unfold reaped in *;
  repeat match goal with
         | H : _ /\ _ |- _ => destruct H
         | H : ?a = ?a -> _ |- _ => specialize (H eq_refl)
         | H : ?P -> _, H' : ?P |- _ => specialize (H H')
         | H : Some _ = Some _ |- _ => injection H as H; subst
         | H : Returned _ _ = Returned _ _ |- _ => injection H as H; subst
         | H : _ \/ _ |- _ => destruct H
         | |- _ /\ _ => split
         end;
  try done; try congruence; eauto;
  try (match goal with s : sys |- _ => destruct (returncode s) eqn:? end; simpl in *;
       first [done | congruence | (exfalso; eauto; fail) | (intuition (try congruence); fail)]).

Lemma code_is_status_step l s s' :
  code_is_status timeout s -> step l s = Some s' -> code_is_status timeout s'.
Proof.
  unfold code_is_status, reaped.
  intros (Hnew & Hcode & Hret & Hfresh & Hterm & Hwait) Hs.
  destruct l; simpl in Hs.
  - unfold main_step, poll in Hs.
    destruct (main s) eqn:Hpc; step_cases Hs; simpl in *;
      split_and!; try done; try (by close_inv).
  - step_cases Hs. simpl. split_and!; try done; try (by close_inv).
  - unfold elapsed_step, poll in Hs.
    destruct (main s) eqn:Hpc; step_cases Hs; simpl in *;
      split_and!; try done; try (by close_inv).
  - unfold collector_step in Hs. step_cases Hs; by simpl.
  - unfold collector_fails in Hs. step_cases Hs; by simpl.
  - step_cases Hs. by simpl.
  - step_cases Hs. simpl. split_and!; try done; try (by close_inv).
  - step_cases Hs. by simpl.
Qed.

Lemma code_is_status_run trace s :
  run trace init = Some s -> code_is_status timeout s.
Proof.
  intros Hrun.
  apply (run_keeps (code_is_status timeout) (fun _ => True))
    with (trace := trace) (s := init).
  - intros l s0 s1 _. apply code_is_status_step.
  - by apply Forall_forall.
  - apply code_is_status_init.
  - done.
Qed.

Hypothesis popen_raises_exceptions :
  forall argv e, popen argv = Some e -> is_Exception e = true.

Lemma guarded_step l s s' :
  ordinary l -> guarded s -> step l s = Some s' -> guarded s'.
Proof.
  unfold guarded. intros Hl Hg Hs.
  destruct l; simpl in Hs, Hl.
  - unfold main_step in Hs. destruct (main s) eqn:Hpc; step_cases Hs; simpl;
      eauto; try done.
    all: congruence.
  - step_cases Hs. done.
  - unfold elapsed_step in Hs. destruct (main s) eqn:Hpc; step_cases Hs; done.
  - unfold collector_step in Hs. step_cases Hs; simpl; done.
  - unfold collector_fails in Hs. step_cases Hs; simpl; done.
  - step_cases Hs. done.
  - step_cases Hs. done.
  - step_cases Hs. done.
Qed.

Lemma unspawned_step l s s' e :
  popen ([philo_path] ++ args) = Some e ->
  ordinary l -> guarded s ->
  unspawned s /\ collector s = CIdle /\ writers s = false /\ proc s = NotSpawned ->
  step l s = Some s' ->
  unspawned s' /\ collector s' = CIdle /\ writers s' = false /\ proc s' = NotSpawned.
Proof.
  unfold unspawned, guarded. intros Hpopen Hl Hg (Hu & Hc & Hw & Hp) Hs.
  destruct l; simpl in Hs, Hl.
  - unfold main_step in Hs. destruct (main s) eqn:Hpc; try done.
    + rewrite Hpopen in Hs. injection Hs as <-. done.
    + rewrite Hg in Hs. injection Hs as <-. done.
  - destruct (in_try (main s)); [|done]. injection Hs as <-. done.
  - unfold elapsed_step in Hs. destruct (main s) eqn:Hpc; done.
  - unfold collector_step in Hs. by rewrite Hc in Hs.
  - unfold collector_fails in Hs. by rewrite Hc in Hs.
  - by rewrite Hw in Hs.
  - by rewrite Hp in Hs.
  - by rewrite Hw in Hs.
Qed.





(** C7, amended.  Whatever the arguments, and whichever statements of the
    [try] block fail with an exception deriving from [Exception], no
    exception leaves [run_command]; when the spawn fails, [run_command]
    returns, and what it returns is the pair of -1 and a fresh empty list.
    After a spawn that succeeds, what it returns is that same pair (a later
    statement has raised), or the live log with the child's own status, or
    with [None] on the deadline branch: so the pair of the failed spawn
    tells nothing apart from a child that ended with status -1. *)
Theorem run_command_never_raises :
  (forall trace s,
     Forall ordinary trace -> run trace init = Some s ->
     forall e, main s <> Raised e) /\
  (forall e,
     popen ([philo_path] ++ args) = Some e ->
     (exists s, run [Main; Main] init = Some s /\ view s = Some (Some (-1), [])) /\
     (forall trace s r,
        Forall ordinary trace -> run trace init = Some s ->
        view s = Some r -> r = (Some (-1), []))) /\
  (popen ([philo_path] ++ args) = None ->
   forall trace s r,
     run trace init = Some s -> view s = Some r ->
     r = (Some (-1), []) /\ main s = Returned (Some (-1)) (Fresh []) \/
     exists rc,
       r = (rc, output_lines s) /\ main s = Returned rc Live /\
       match rc with
       | Some status => proc s = Exited status
       | None => truthy timeout = true
       end).
Proof.
  split_and!.
  - intros trace s Hord Hrun e Hpc.
    assert (guarded s) as Hg.
    { apply (run_keeps guarded ordinary guarded_step trace init s Hord); [|done].
      by unfold guarded. }
    unfold guarded in Hg. by rewrite Hpc in Hg.
  - intros e Hpopen. split.
    + pose proof (popen_raises_exceptions _ _ Hpopen) as Hexc.
      exists (goto (Returned (Some (-1)) (Fresh [])) (goto (Handler e) init)).
      split; [|done]. cbn [Supervisor.run Supervisor.step].
      unfold main_step at 1. cbn [main init]. rewrite Hpopen.
      unfold main_step. cbn [main goto]. by rewrite Hexc.
    + intros trace s r Hord Hrun Hview.
      assert (guarded s /\ unspawned s /\ collector s = CIdle /\
              writers s = false /\ proc s = NotSpawned) as (_ & Hu & _).
      { apply (run_keeps
                 (fun s => guarded s /\ unspawned s /\ collector s = CIdle /\
                           writers s = false /\ proc s = NotSpawned)
                 ordinary) with (trace := trace) (s := init); try done.
        intros l s0 s1 Hl [Hg Hrest] Hs. split.
        - by apply (guarded_step l s0).
        - by apply (unspawned_step l s0 s1 e). }
      unfold unspawned in Hu. unfold view in Hview.
      repeat (match type of Hu with
              | match ?x with _ => _ end => destruct x
              end; try done).
      by injection Hview as <-.
  - intros _ trace s r Hrun Hview.
    destruct (code_is_status_run trace s Hrun)
      as (_ & _ & Hret & Hfresh & _ & Hwait).
    unfold view in Hview.
    destruct (main s) as [| | | | | | | | | | | | | | |rc o|] eqn:Hpc; try done.
    destruct o as [|lines]; injection Hview as <-.
    + right. exists rc. split_and!; [done | done |].
      destruct rc as [status|]; [by apply Hret|].
      destruct (truthy timeout); [done|].
      by destruct (Hwait eq_refl) as (_ & _ & Hne).
    + left. by destruct (Hfresh rc lines eq_refl) as [-> ->].
Qed.


End SupervisedRun.

Lemma run_command_never_raises_witness :
  exists s,
    Supervisor.run "./philo" (fun _ => Some FileNotFoundError) [] (Some 1)
      [Supervisor.Main; Supervisor.Main] Supervisor.init = Some s /\
    Supervisor.view s = Some (Some (-1), []).
Proof.
  refine (proj1 (proj1 (proj2 (run_command_never_raises
                                 "./philo" (fun _ => Some FileNotFoundError) []
                                 (Some 1) _))
                   FileNotFoundError eq_refl)).
  intros argv e [= <-]. reflexivity.
Defined.

(** What refutes C7 as stated: the pair returned for a spawn that failed is
    also the pair returned for a child that was started, wrote nothing and
    ended with status -1, the return code of a child ended by signal 1. *)
Lemma failure_marker_is_a_return_code :
  exists s s',
    Supervisor.run "./philo" (fun _ => Some FileNotFoundError) [] None
      [Supervisor.Main; Supervisor.Main] Supervisor.init = Some s /\
    Supervisor.run "./philo" Spec.spawns [] None Spec.moves_of_a_hangup
      Supervisor.init = Some s' /\
    Supervisor.proc s = Supervisor.NotSpawned /\
    Supervisor.proc s' = Supervisor.Exited (-1) /\
    Supervisor.main s' = Supervisor.Returned (Some (-1)) Supervisor.Live /\
    Supervisor.view s = Some (Some (-1), []) /\
    Supervisor.view s' = Supervisor.view s.
Proof.
  eexists _, _. split; [vm_compute; reflexivity|].
  split; [vm_compute; reflexivity|]. by split_and!.
Qed.


(** A collector that ends on an exception is joined at once, and the log
    handed back misses the line that was waiting in the pipe. *)
Lemma collector_dies_with_a_line_unread :
  exists s,
    Supervisor.run "./philo" Spec.spawns ["4"; "310"; "200"; "100"] None
      Spec.moves_of_a_broken_read Supervisor.init = Some s /\
    Supervisor.collector s = Supervisor.CDied /\
    Supervisor.written s = ["312 3 died"] /\
    Supervisor.view s = Some (Some 0, []).
Proof. eexists. split; [vm_compute; reflexivity|]. by split_and!. Qed.


(** ** The two patterns, spelled out *)

Section Patterns.

Import Re.

Lemma all_chars_app p a b :
  Spec.all_chars p (a +:+ b) = Spec.all_chars p a && Spec.all_chars p b.
Proof.
  induction a as [|c a IH]; [done|].
  rewrite app_cons. simpl. by rewrite IH, andb_assoc.
Qed.

Lemma lang_star_cls p s : Lang (Star (Cls p)) s <-> Spec.all_chars p s = true.
Proof.
  split.
  - intros H. remember (Star (Cls p)) as r eqn:Hr.
    induction H as [| | | | | | |r0 s1 s2 H1 _ H2 IH2]; try discriminate; [done|].
    injection Hr as ->. apply lang_cls in H1 as (c & -> & Hc).
    rewrite app_cons, app_empty_l. simpl. rewrite Hc. by apply IH2.
  - induction s as [|c s IH]; simpl; [constructor|].
    intros [Hc Hs]%andb_true_iff.
    change (String c s) with (String c "" +:+ s).
    constructor; [by constructor | by apply IH].
Qed.

Lemma lang_plus_cls p s :
  Lang (Plus (Cls p)) s <-> s <> "" /\ Spec.all_chars p s = true.
Proof.
  unfold Plus. rewrite lang_seq. split.
  - intros (s1 & s2 & -> & (c & -> & Hc)%lang_cls & Hs%lang_star_cls).
    rewrite app_cons, app_empty_l. simpl. by rewrite Hc, Hs.
  - intros [Hne Hs]. destruct s as [|c s]; [done|].
    simpl in Hs. apply andb_true_iff in Hs as [Hc Hs].
    exists (String c ""), s. split_and!; [done| |by apply lang_star_cls].
    apply lang_cls. eauto.
Qed.

Lemma lang_lit w s : Lang (Lit w) s <-> s = w.
Proof.
  revert s. induction w as [|c w IH]; intros s; simpl.
  - apply lang_eps.
  - rewrite lang_seq. split.
    + intros (s1 & s2 & -> & ->%lang_chr & ->%IH). done.
    + intros ->. exists (String c ""), w. split_and!; [done| |by apply IH].
      by apply lang_chr.
Qed.

Lemma lang_eol s : Lang Eol s <-> s = "" \/ s = String Py.newline "".
Proof. unfold Eol. by rewrite lang_alt, lang_eps, lang_chr. Qed.

(** The common head of the two patterns: [\d+ \d+ ] and then [tail]. *)
Lemma lang_two_numbers (tail : regex) line :
  Lang (Seq (Plus digit) (Seq (Chr " ") (Seq (Plus digit) (Seq (Chr " ") tail)))) line
  <->
  exists ts id rest,
    line = ts +:+ String " " (id +:+ String " " rest) /\
    (ts <> "" /\ Spec.all_chars Py.isdigit ts = true) /\
    (id <> "" /\ Spec.all_chars Py.isdigit id = true) /\
    Lang tail rest.
Proof.
  split.
  - intros H.
    apply lang_seq in H as (ts & r1 & -> & Hts%lang_plus_cls & H).
    apply lang_seq in H as (sp1 & r2 & -> & ->%lang_chr & H).
    apply lang_seq in H as (id & r3 & -> & Hid%lang_plus_cls & H).
    apply lang_seq in H as (sp2 & r4 & -> & ->%lang_chr & H).
    by exists ts, id, r4.
  - intros (ts & id & rest & -> & Hts & Hid & Htail).
    apply LSeq; [by apply lang_plus_cls|].
    change (String " " (id +:+ String " " rest))
      with (String " " "" +:+ id +:+ String " " "" +:+ rest).
    apply LSeq; [constructor|].
    apply LSeq; [by apply lang_plus_cls|].
    by apply LSeq; [constructor|].
Qed.

(** The event pattern of the testers, word by word. *)
Lemma tester_pattern_spec line :
  Lang Tester.pattern line <->
  exists ts id msg nl,
    line = ts +:+ String " " (id +:+ String " " (msg +:+ nl)) /\
    (ts <> "" /\ Spec.all_chars Py.isdigit ts = true) /\
    (id <> "" /\ Spec.all_chars Py.isdigit id = true) /\
    In msg Tester.phrases /\
    (nl = "" \/ nl = String Py.newline "").
Proof.
  unfold Tester.pattern. rewrite lang_two_numbers. split.
  - intros (ts & id & rest & -> & Hts & Hid & H).
    apply lang_seq in H as (msg & nl & -> & Hmsg & Hnl%lang_eol).
    exists ts, id, msg, nl. split_and!; try done; try tauto.
    rewrite !lang_alt, !lang_lit in Hmsg. unfold Tester.phrases. simpl.
    intuition.
  - intros (ts & id & msg & nl & -> & Hts & Hid & Hmsg & Hnl).
    exists ts, id, (msg +:+ nl). split_and!; try done; try tauto.
    apply LSeq; [|by apply lang_eol].
    rewrite !lang_alt, !lang_lit. unfold Tester.phrases in Hmsg. simpl in Hmsg.
    intuition.
Qed.

Lemma span_app_eq p s a b : Py.span p s = (a, b) -> s = a +:+ b.
Proof.
  revert a b. induction s as [|c s IH]; intros a b; simpl.
  - by intros [= <- <-].
  - destruct (p c); [|by intros [= <- <-]].
    destruct (Py.span p s) as [a' b'] eqn:Hs. intros [= <- <-].
    by rewrite app_cons, (IH a' b' eq_refl).
Qed.

Lemma span_stops p s a b : Py.span p s = (a, b) -> fst (Py.span p b) = "".
Proof.
  revert a b. induction s as [|c s IH]; intros a b; simpl.
  - by intros [= <- <-].
  - destruct (p c) eqn:Hc.
    + destruct (Py.span p s) as [a' b'] eqn:Hs. intros [= <- <-]. by eapply IH.
    + intros [= <- <-]. simpl. by rewrite Hc.
Qed.

Lemma span_app p a r :
  Spec.all_chars p a = true -> fst (Py.span p r) = "" ->
  Py.span p (a +:+ r) = (a, r).
Proof.
  intros Ha Hr. induction a as [|c a IH].
  - rewrite app_empty_l. destruct (Py.span p r) as [x y] eqn:Hs.
    simpl in Hr. subst x. by rewrite (span_app_eq _ _ _ _ Hs).
  - simpl in Ha. apply andb_true_iff in Ha as [Hc Ha].
    rewrite app_cons. simpl. by rewrite Hc, IH.
Qed.

(** The groups [re_match] returns are the only way to read the line along
    [^(\d+) (\d+) (.+)$]. *)
Lemma re_match_spec line g1 g2 g3 :
  Visualizer.re_match line = Some (g1, g2, g3) <->
  exists nl,
    line = g1 +:+ String " " (g2 +:+ String " " (g3 +:+ nl)) /\
    (g1 <> "" /\ Spec.all_chars Py.isdigit g1 = true) /\
    (g2 <> "" /\ Spec.all_chars Py.isdigit g2 = true) /\
    (g3 <> "" /\ Spec.all_chars not_newline g3 = true) /\
    (nl = "" \/ nl = String Py.newline "").
Proof.
  split.
  - unfold Visualizer.re_match.
    destruct (Py.span Py.isdigit line) as [a1 r1] eqn:H1.
    pose proof (span_all Py.isdigit line) as Ha1. rewrite H1 in Ha1.
    apply span_app_eq in H1 as ->.
    destruct a1 as [|c1 a1]; [done|]. destruct r1 as [|sp1 r2]; [done|].
    destruct (Ascii.eqb_spec sp1 " ") as [->|Hsp1].
    2:{ destruct sp1 as [[] [] [] [] [] [] [] []]; done. }
    destruct (Py.span Py.isdigit r2) as [a2 r3] eqn:H2.
    pose proof (span_all Py.isdigit r2) as Ha2. rewrite H2 in Ha2.
    apply span_app_eq in H2 as ->.
    destruct a2 as [|c2 a2]; [done|]. destruct r3 as [|sp2 r4]; [done|].
    destruct (Ascii.eqb_spec sp2 " ") as [->|Hsp2].
    2:{ destruct sp2 as [[] [] [] [] [] [] [] []]; done. }
    destruct (Py.span not_newline r4) as [a3 r5] eqn:H3.
    pose proof (span_all not_newline r4) as Ha3. rewrite H3 in Ha3.
    pose proof (span_stops _ _ _ _ H3) as Hstop.
    apply span_app_eq in H3 as ->.
    destruct a3 as [|c3 a3]; [done|].
    destruct r5 as [|c5 [|]]; try done; intros [= <- <- <-].
    + exists "". split_and!; try done; tauto.
    + exists (String c5 ""). split_and!; try done. right.
      simpl in Hstop. destruct (not_newline c5) eqn:Hc5; [done|].
      unfold not_newline in Hc5. apply negb_false_iff, Ascii.eqb_eq in Hc5.
      by subst.
  - intros (nl & -> & [Hne1 Ha1] & [Hne2 Ha2] & [Hne3 Ha3] & Hnl).
    unfold Visualizer.re_match.
    rewrite (span_app Py.isdigit g1 (String " " _) Ha1 eq_refl).
    destruct g1 as [|c1 g1]; [done|].
    rewrite (span_app Py.isdigit g2 (String " " _) Ha2 eq_refl).
    destruct g2 as [|c2 g2]; [done|].
    rewrite (span_app not_newline g3 nl Ha3); [|by destruct Hnl as [->| ->]].
    destruct g3 as [|c3 g3]; [done|].
    by destruct Hnl as [->| ->].
Qed.

(** [re_match] succeeds exactly on the lines of the visualizers' pattern. *)
Lemma re_match_pattern line :
  is_Some (Visualizer.re_match line) <-> Lang Visualizer.pattern line.
Proof.
  unfold Visualizer.pattern. rewrite lang_two_numbers. split.
  - intros [[[g1 g2] g3] (nl & -> & H1 & H2 & H3 & Hnl)%re_match_spec].
    exists g1, g2, (g3 +:+ nl). split_and!; try done; try tauto.
    apply LSeq; [by apply lang_plus_cls | by apply lang_eol].
  - intros (g1 & g2 & rest & -> & H1 & H2 & H).
    apply lang_seq in H as (g3 & nl & -> & H3%lang_plus_cls & Hnl%lang_eol).
    exists (g1, g2, g3). apply re_match_spec. by exists nl.
Qed.

Example check_format_accepts : Tester.check_format "310 4 died" = true.
Proof. reflexivity. Qed.

Example check_format_rejects_custom : Tester.check_format "310 4 is dancing" = false.
Proof. reflexivity. Qed.

Example check_format_rejects_double_space :
  Tester.check_format "310  4 died" = false.
Proof. reflexivity. Qed.

Example re_match_groups :
  Visualizer.re_match "12 3 has taken a fork" = Some ("12", "3", "has taken a fork").
Proof. reflexivity. Qed.

Example re_match_rejects_quota_line :
  Visualizer.re_match "All philosophers have eaten enough" = None.
Proof. reflexivity. Qed.

Example split_words : Py.split "310 2   died " = ["310"; "2"; "died"].
Proof. reflexivity. Qed.

Example int_underscore : Py.int "3_10" = Ok 310.
Proof. reflexivity. Qed.

Example int_signed : Py.int "-07" = Ok (-7).
Proof. reflexivity. Qed.

Example int_keeps_separators :
  Py.int (String (ascii_of_N 28) "5") = Raise ValueError /\
  Py.strip (String (ascii_of_N 28) "5") = "5".
Proof. split; vm_compute; reflexivity. Qed.

Example int_rejects_word : Py.int "died" = Raise ValueError.
Proof. reflexivity. Qed.

Example strip_both_ends : Py.strip "  12 1 died  " = "12 1 died".
Proof. reflexivity. Qed.

Example str_negative : Py.str (-305) = "-305".
Proof. reflexivity. Qed.

End Patterns.

(** ** More on the supervised run *)

Section SupervisedRunMore.

Import Supervisor.

Variable philo_path : string.
Variable popen : list string -> option exn.
Variable args : list string.
Variable timeout : option Z.

#[local] Abbreviation step := (step philo_path popen args timeout).
#[local] Abbreviation run := (run philo_path popen args timeout).

Ltac step_cases H :=
  repeat match type of H with
         | context [match ?x with _ => _ end] => destruct x eqn:?
         end;
  try discriminate H; injection H as <-.




(** X2. The return code handed back with the live log is the status the
    child ended with, or [None] when the child was never reaped, which
    happens only on the deadline branch; without a timeout the code is
    always the child's status. *)
Theorem returned_code_is_the_child_status
    (trace : list label) (s : sys) (rc : option Z) :
  run trace init = Some s ->
  main s = Returned rc Live ->
  match rc with
  | Some status => proc s = Exited status
  | None => truthy timeout = true
  end.
Proof.
  intros Hrun Hpc.
  destruct (code_is_status_run philo_path popen args timeout trace s Hrun)
    as (_ & _ & Hret & _ & _ & Hwait).
  destruct rc as [status|]; [by apply Hret|].
  destruct (truthy timeout); [done|].
  by destruct (Hwait eq_refl) as (_ & _ & Hne).
Qed.

Lemma after_kill_step l s s' : after_kill s -> step l s = Some s' -> after_kill s'.
Proof.
  unfold after_kill. intros Hk Hs.
  destruct l; simpl in Hs.
  - unfold main_step, poll in Hs.
    destruct (main s) eqn:Hpc; try done; step_cases Hs; simpl in *;
      try done; try congruence.
    all: by rewrite Hk.
  - destruct (main s) eqn:Hpc; try done; step_cases Hs; by simpl.
  - unfold elapsed_step, poll in Hs.
    destruct (main s) eqn:Hpc; try done; step_cases Hs; simpl in *;
      try done; try congruence.
  - unfold collector_step in Hs. step_cases Hs; by simpl.
  - unfold collector_fails in Hs. step_cases Hs; by simpl.
  - step_cases Hs. by simpl.
  - step_cases Hs. by simpl.
  - step_cases Hs. by simpl.
Qed.

(** X3. A child that is still running when [run_command] calls [kill()] is
    handed back without a return code, although the signal ends it: nothing
    polls or waits for it afterwards.  Whatever happens next, what
    [run_command] returns is [None] with the live log (or the pair of -1
    and an empty list, should a later statement raise). *)
Theorem killed_child_has_no_return_code
    (trace trace' : list label) (s s' : sys) (r : option Z * list string) :
  run trace init = Some s ->
  main s = AtKill ->
  proc s = Running ->
  run (Main :: trace') s = Some s' ->
  view s' = Some r ->
  r = (None, output_lines s') \/ r = (Some (-1), []).
Proof.
  intros Hrun Hpc Hproc Hrun' Hview.
  destruct (code_is_status_run philo_path popen args timeout trace s Hrun)
    as (_ & _ & _ & _ & Hterm & _).
  cbn [Supervisor.run Supervisor.step] in Hrun'.
  unfold main_step, poll in Hrun'. rewrite Hpc, Hproc in Hrun'.
  assert (after_kill (goto AtStop s)) as Hk.
  { unfold after_kill. cbn. apply Hterm. by rewrite Hpc. }
  assert (after_kill s') as Hk'.
  { apply (run_keeps philo_path popen args timeout after_kill (fun _ => True))
      with (trace := trace') (s := goto AtStop s); try done.
    - intros l s0 s1 _. apply after_kill_step.
    - by apply Forall_forall. }
  unfold after_kill in Hk'. unfold view in Hview.
  destruct (main s') as [| | | | | | | | | | | | | | |rc o|]; try done.
  destruct o as [|lines].
  - destruct rc as [z|]; [|left; by injection Hview as <-].
    repeat (match type of Hk' with
            | match ?x with _ => _ end => destruct x
            end; try done).
  - right. repeat (match type of Hk' with
                   | match ?x with _ => _ end => destruct x
                   end; try done).
    by injection Hview as <-.
Qed.

(** As long as the child has not ended, [run_command] without timeout stands
    before or in [wait()]. *)
Lemma before_exit_step l s s' :
  truthy timeout = false ->
  (forall argv, popen argv = None) ->
  uneventful l ->
  before_exit (main s) = true /\ (proc s = NotSpawned \/ proc s = Running) ->
  step l s = Some s' ->
  before_exit (main s') = true /\ (proc s' = NotSpawned \/ proc s' = Running).
Proof.
  intros Ht Hpopen Hl [Hb Hp] Hs.
  destruct l; simpl in Hs, Hl; try done.
  - unfold main_step, poll in Hs.
    destruct (main s) eqn:Hpc; try done; step_cases Hs; simpl in *;
      try done; try (by rewrite Hpopen in *); try (by rewrite Ht);
      try (split; [done | by right]); try (destruct Hp; congruence).
  - unfold elapsed_step, poll in Hs.
    destruct (main s) eqn:Hpc; try done.
  - unfold collector_step in Hs. step_cases Hs; by simpl.
  - unfold collector_fails in Hs. step_cases Hs; by simpl.
  - step_cases Hs. by simpl.
  - step_cases Hs. by simpl.
Qed.

(** X4. Without a timeout, [run_command] does not return before the child
    has ended: in a run where the spawn succeeds, the child never ends and
    no statement raises, there is never a result. *)
Theorem no_timeout_no_exit_no_return (trace : list label) (s : sys) :
  truthy timeout = false ->
  (forall argv, popen argv = None) ->
  Forall uneventful trace ->
  run trace init = Some s ->
  view s = None.
Proof.
  intros Ht Hpopen Hquiet Hrun.
  assert (before_exit (main s) = true /\ (proc s = NotSpawned \/ proc s = Running))
    as [Hb _].
  { apply (run_keeps philo_path popen args timeout
             (fun s => before_exit (main s) = true /\
                       (proc s = NotSpawned \/ proc s = Running))
             uneventful) with (trace := trace) (s := init); try done.
    - intros l s0 s1 Hl. by apply before_exit_step.
    - split; [done | by left]. }
  unfold view. by destruct (main s).
Qed.


End SupervisedRunMore.


Lemma returned_code_is_the_child_status_witness :
  exists s,
    Supervisor.run "./philo" Spec.spawns ["4"; "310"; "200"; "100"] None
      (Spec.first_moves ++ Spec.last_moves) Supervisor.init = Some s /\
    Supervisor.proc s = Supervisor.Exited 0.
Proof.
  eexists. split; [vm_compute; reflexivity|].
  apply (returned_code_is_the_child_status
           "./philo" Spec.spawns ["4"; "310"; "200"; "100"] None
           (Spec.first_moves ++ Spec.last_moves) _ (Some 0));
    vm_compute; reflexivity.
Defined.

Lemma killed_child_has_no_return_code_witness :
  exists s s',
    Supervisor.run "./philo" Spec.spawns ["5"; "800"; "200"; "200"] (Some 3)
      Spec.moves_to_kill Supervisor.init = Some s /\
    Supervisor.proc s = Supervisor.Running /\
    Supervisor.run "./philo" Spec.spawns ["5"; "800"; "200"; "200"] (Some 3)
      Spec.moves_after_kill s = Some s' /\
    ((@None Z, @nil string) = (None, Supervisor.output_lines s') \/
     (@None Z, @nil string) = (Some (-1), [])).
Proof.
  eexists _, _. split; [vm_compute; reflexivity|]. split; [reflexivity|].
  split; [vm_compute; reflexivity|].
  eapply (killed_child_has_no_return_code
            "./philo" Spec.spawns ["5"; "800"; "200"; "200"] (Some 3)
            Spec.moves_to_kill (tail Spec.moves_after_kill));
    vm_compute; reflexivity.
Defined.

Lemma no_timeout_no_exit_no_return_witness :
  exists s,
    Supervisor.run "./philo" Spec.spawns ["4"; "310"; "200"; "100"] None
      Spec.first_moves Supervisor.init = Some s /\
    Supervisor.view s = None.
Proof.
  eexists. split; [vm_compute; reflexivity|].
  apply (no_timeout_no_exit_no_return
           "./philo" Spec.spawns ["4"; "310"; "200"; "100"] None
           Spec.first_moves); [reflexivity | reflexivity | | vm_compute; reflexivity].
  unfold Spec.first_moves. repeat constructor.
Defined.

(** ** More on the state tracker *)

Section TrackerInvariants.

Import Visualizer.

(** What the update block does to the two event lists, whether the actor
    has an entry or not; [max_time] and the raw log are not touched. *)
Lemma update_state_events timestamp philo_id action v :
  eating_events (snd (update_state timestamp philo_id action v))
  = eating_events v
    ++ (if String.eqb action "is eating" then [(timestamp, philo_id)] else []) /\
  fork_events (snd (update_state timestamp philo_id action v))
  = fork_events v
    ++ (if String.eqb action "has taken a fork" then [(timestamp, philo_id)] else []) /\
  max_time (snd (update_state timestamp philo_id action v)) = max_time v /\
  output_lines (snd (update_state timestamp philo_id action v)) = output_lines v.
Proof.
  unfold update_state.
  destruct (String.eqb_spec action "is eating") as [->|?];
    [|destruct (String.eqb_spec action "is sleeping") as [->|?];
      [|destruct (String.eqb_spec action "is thinking") as [->|?];
        [|destruct (String.eqb_spec action "has taken a fork") as [->|?];
          [|destruct (String.eqb_spec action "died") as [->|?]]]]];
    unfold mbind, M_bind, append_eating, append_fork, modify;
    cbn [String.eqb Ascii.eqb Bool.eqb];
    try (by rewrite !app_nil_r).
  all: destruct (philosopher_states v !! philo_id) as [p|] eqn:Hp.
  all: try (rewrite update_entry_missing by done; cbn; by rewrite ?app_nil_r).
  all: repeat (erewrite update_entry_found;
               [|first [eassumption | apply lookup_insert_eq]];
               cbn [set_philosopher_states philosopher_states]).
  all: cbn; by rewrite ?app_nil_r.
Qed.

Lemma parse_event_fields line v :
  match Spec.event line with
  | Some (timestamp, philo_id, action) =>
      eating_events (snd (_parse_event line v))
      = eating_events v
        ++ (if String.eqb action "is eating" then [(timestamp, philo_id)] else []) /\
      fork_events (snd (_parse_event line v))
      = fork_events v
        ++ (if String.eqb action "has taken a fork" then [(timestamp, philo_id)] else []) /\
      max_time (snd (_parse_event line v)) = Z.max (max_time v) timestamp
  | None =>
      eating_events (snd (_parse_event line v)) = eating_events v /\
      fork_events (snd (_parse_event line v)) = fork_events v /\
      philosopher_states (snd (_parse_event line v)) = philosopher_states v /\
      max_time v <= max_time (snd (_parse_event line v))
  end /\
  output_lines (snd (_parse_event line v)) = output_lines v.
Proof.
  destruct (Spec.event line) as [[[ts id] a]|] eqn:Hev.
  - rewrite (parse_event_event _ _ _ _ _ Hev).
    destruct (update_state_events ts id a (snd (raise_max_time ts v)))
      as (He & Hf & Hm & Ho).
    by rewrite He, Hf, Hm, Ho.
  - destruct (parse_event_none line v Hev)
      as [-> | (v' & -> & Ho & He & Hf & Hst & Hm)]; [|done].
    cbn. by split_and!.
Qed.

(** A property of the table kept by appending a raw line and by
    [_parse_event] is kept by the whole capture, raise or not. *)
Lemma capture_keeps_table (P : visualizer -> Prop) :
  (forall line v, P v -> P (snd (append_line line v))) ->
  (forall line v, P v -> P (snd (_parse_event line v))) ->
  forall lines v, P v -> P (snd (capture lines v)).
Proof.
  intros Happ Hparse lines. induction lines as [|line rest IH]; intros v HP;
    [done|].
  rewrite capture_cons.
  pose proof (Hparse (Py.strip line) _ (Happ (Py.strip line) v HP)) as HP'.
  destruct (_parse_event (Py.strip line) (snd (append_line (Py.strip line) v)))
    as [[[]|e] v']; [by apply IH | done].
Qed.

Lemma init_loop_fresh ids : forall d : gmap Z pstate,
  (forall id p, d !! id = Some p -> p = fresh) ->
  forall id p, foldl (fun d i => <[i := fresh]> d) d ids !! id = Some p -> p = fresh.
Proof.
  induction ids as [|i ids IH]; intros d Hd; simpl; [done|].
  apply IH. intros id p. rewrite lookup_insert. case_decide; [by intros [= <-]|].
  apply Hd.
Qed.

Lemma init_states_fresh n id p : init_states n !! id = Some p -> p = fresh.
Proof. apply init_loop_fresh. intros ? ?. by rewrite lookup_empty. Qed.

Lemma range_NoDup lo hi : NoDup (Py.range lo hi).
Proof.
  unfold Py.range. apply NoDup_fmap_2; [|apply NoDup_ListNoDup, seq_NoDup].
  intros i j. lia.
Qed.

Lemma length_range lo hi : length (Py.range lo hi) = Z.to_nat (hi - lo).
Proof. unfold Py.range. by rewrite length_fmap, length_seq. Qed.

Lemma init_states_size n : size (init_states n) = Z.to_nat n.
Proof.
  rewrite <- size_dom. unfold init_states.
  rewrite init_loop_dom, dom_empty_L, (left_id_L ∅ (∪)).
  rewrite size_list_to_set by apply range_NoDup.
  rewrite length_range. f_equal. lia.
Qed.

(** The table after [_parse_event], by whether the actor has an entry. *)
Lemma parse_event_table line timestamp philo_id action v :
  Spec.event line = Some (timestamp, philo_id, action) ->
  philosopher_states (snd (_parse_event line v))
  = match philosopher_states v !! philo_id with
    | Some p => <[philo_id := Spec.transition action timestamp p]> (philosopher_states v)
    | None => philosopher_states v
    end.
Proof.
  intros Hev. rewrite (parse_event_event _ _ _ _ _ Hev).
  set (v1 := snd (raise_max_time timestamp v)).
  change (philosopher_states v) with (philosopher_states v1).
  destruct (philosopher_states v1 !! philo_id) as [p|] eqn:Hp.
  - destruct (update_state_found timestamp philo_id action v1 p Hp)
      as (v' & Hrun & Hst & _).
    rewrite Hrun. exact Hst.
  - destruct (phrase_dec action) as [Hin|Hin].
    + by apply update_state_missing.
    + by rewrite update_state_custom.
Qed.

Lemma meal_count_app id events events' :
  Spec.meal_count id (events ++ events')
  = Spec.meal_count id events + Spec.meal_count id events'.
Proof. unfold Spec.meal_count. rewrite List.filter_app, length_app. lia. Qed.

Lemma transition_meals action timestamp p :
  meals (Spec.transition action timestamp p)
  = meals p + (if String.eqb action "is eating" then 1 else 0).
Proof.
  unfold Spec.transition.
  destruct (String.eqb action "is eating"); [done|].
  destruct (String.eqb action "is sleeping"); [simpl; lia|].
  destruct (String.eqb action "is thinking"); [simpl; lia|].
  destruct (String.eqb action "has taken a fork"); [simpl; lia|].
  destruct (String.eqb action "died"); simpl; lia.
Qed.

(** The meal counters keep step with the eating events through a capture,
    raise or not. *)
Lemma capture_meals lines v :
  (forall id p, philosopher_states v !! id = Some p ->
                meals p = Spec.meal_count id (eating_events v)) ->
  forall id p, philosopher_states (snd (capture lines v)) !! id = Some p ->
               meals p = Spec.meal_count id (eating_events (snd (capture lines v))).
Proof.
  apply (capture_keeps_table
           (fun v => forall id p, philosopher_states v !! id = Some p ->
                                  meals p = Spec.meal_count id (eating_events v))).
  - done.
  - intros line w Hw id p.
    destruct (parse_event_fields line w) as [Hfields _].
    destruct (Spec.event line) as [[[ts id0] a]|] eqn:Hev;
      [|destruct Hfields as (-> & _ & -> & _); apply Hw].
    destruct Hfields as (-> & _ & _).
    rewrite (parse_event_table _ _ _ _ _ Hev), meal_count_app.
    destruct (philosopher_states w !! id0) as [p0|] eqn:Hp0.
    + rewrite lookup_insert. case_decide as Hid.
      * subst id0. intros [= <-]. rewrite transition_meals, (Hw id p0 Hp0).
        destruct (String.eqb a "is eating"); rewrite ?meal_count_cons;
          try case_decide; change (Spec.meal_count id []) with 0; lia.
      * intros Hp. rewrite (Hw id p Hp).
        destruct (String.eqb a "is eating"); rewrite ?meal_count_cons;
          try case_decide; change (Spec.meal_count id []) with 0; lia.
    + intros Hp. rewrite (Hw id p Hp).
      assert (id0 <> id) by congruence.
      destruct (String.eqb a "is eating"); rewrite ?meal_count_cons;
        try case_decide; change (Spec.meal_count id []) with 0; lia.
Qed.

(** X5. In a table set up by [run_simulation] the meal counter of every
    entry equals the number of eating events recorded for that actor, at
    every point of the capture, also when a line of an unknown actor has
    raised. *)
Theorem meals_equal_recorded_eating_events
    (args : list string) (v v0 : visualizer) (n : Z) (lines : list string)
    (philo_id : Z) (p : pstate) :
  run_simulation_init args v = (Ok n, v0) ->
  philosopher_states (snd (capture lines v0)) !! philo_id = Some p ->
  meals p = Spec.meal_count philo_id (eating_events (snd (capture lines v0))).
Proof.
  intros Hinit. revert philo_id p. apply capture_meals.
  unfold run_simulation_init in Hinit.
  destruct (match args with [] => Ok 5 | a :: _ => Py.int a end) as [m|e];
    [|done].
  injection Hinit as <- <-. simpl. intros id p Hp.
  by rewrite (init_states_fresh _ _ _ Hp).
Qed.

Lemma meals_equal_recorded_eating_events_witness :
  meals {| state := "eating"; forks := 0; meals := 1; last_change := 10 |}
  = Spec.meal_count 1
      (eating_events
         (snd (capture ["10 1 is eating"; "10 9 is eating"] Spec.table_of_five))).
Proof.
  exact (meals_equal_recorded_eating_events
           ["5"; "800"; "200"; "200"] new Spec.table_of_five 5
           ["10 1 is eating"; "10 9 is eating"] 1
           {| state := "eating"; forks := 0; meals := 1; last_change := 10 |}
           eq_refl eq_refl).
Defined.

(** X6. No recorded event is later than [max_time]: throughout the capture
    the timestamp of every eating and fork event is at most [max_time]. *)
Theorem recorded_events_not_after_max_time
    (args : list string) (v v0 : visualizer) (n : Z) (lines : list string)
    (e : Z * Z) :
  run_simulation_init args v = (Ok n, v0) ->
  e ∈ eating_events (snd (capture lines v0))
      ++ fork_events (snd (capture lines v0)) ->
  fst e <= max_time (snd (capture lines v0)).
Proof.
  intros Hinit. revert e.
  apply (capture_keeps_table
           (fun v => forall e, e ∈ eating_events v ++ fork_events v ->
                               fst e <= max_time v)).
  - done.
  - intros line w Hw e.
    destruct (parse_event_fields line w) as [Hfields _].
    destruct (Spec.event line) as [[[ts id0] a]|] eqn:Hev.
    2:{ destruct Hfields as (-> & -> & _ & Hm). intros Hin.
        specialize (Hw e Hin). lia. }
    destruct Hfields as (-> & -> & ->).
    rewrite !elem_of_app. intros Hin.
    assert (e ∈ eating_events w ++ fork_events w \/ fst e = ts) as [Hold| ->].
    { rewrite elem_of_app.
      destruct Hin as [[?|Hin]|[?|Hin]]; auto;
        [destruct (String.eqb a "is eating") | destruct (String.eqb a "has taken a fork")];
        try (by apply elem_of_nil in Hin);
        apply list_elem_of_singleton in Hin; subst; by right. }
    + specialize (Hw e Hold). lia.
    + lia.
  - unfold run_simulation_init in Hinit.
    destruct (match args with [] => Ok 5 | a :: _ => Py.int a end) as [m|e0];
      [|done].
    injection Hinit as <- <-. simpl. intros e He. by apply elem_of_nil in He.
Qed.

Lemma recorded_events_not_after_max_time_witness :
  10 <= max_time (snd (capture ["10 1 is eating"; "7 2 is thinking"]
                         Spec.table_of_five)).
Proof.
  apply (recorded_events_not_after_max_time
           ["5"; "800"; "200"; "200"] new Spec.table_of_five 5
           ["10 1 is eating"; "7 2 is thinking"] (10, 1) eq_refl).
  vm_compute. apply list_elem_of_here.
Defined.

(** X7. A capture that ends without exception has appended every line it
    read, stripped, to the raw log, whether or not the line parses, and has
    recorded exactly the eating and fork events those lines stand for, in
    the order read. *)
Theorem capture_records_lines_in_order (lines : list string) (v v' : visualizer) :
  capture lines v = (Ok tt, v') ->
  output_lines v' = output_lines v ++ (Py.strip <$> lines) /\
  eating_events v' = eating_events v ++ omap Spec.eating_event lines /\
  fork_events v' = fork_events v ++ omap Spec.fork_event lines.
Proof.
  revert v. induction lines as [|line rest IH]; intros v.
  - intros [= <-]. simpl. by rewrite !app_nil_r.
  - rewrite capture_cons.
    set (v1 := snd (append_line (Py.strip line) v)).
    destruct (parse_event_fields (Py.strip line) v1) as [Hfields Hlog].
    destruct (_parse_event (Py.strip line) v1) as [[[]|e] v2] eqn:Hparse; [|done].
    intros Hrest. destruct (IH v2 Hrest) as (-> & -> & ->).
    simpl in Hlog, Hfields. rewrite Hlog.
    assert (omap Spec.eating_event (line :: rest)
            = from_option (fun e => [e]) [] (Spec.eating_event line)
              ++ omap Spec.eating_event rest) as ->.
    { cbn [omap list_omap]. by destruct (Spec.eating_event line). }
    assert (omap Spec.fork_event (line :: rest)
            = from_option (fun e => [e]) [] (Spec.fork_event line)
              ++ omap Spec.fork_event rest) as ->.
    { cbn [omap list_omap]. by destruct (Spec.fork_event line). }
    assert (Spec.eating_event line
            = match Spec.event (Py.strip line) with
              | Some (ts, id, a) =>
                  if String.eqb a "is eating" then Some (ts, id) else None
              | None => None
              end) as Hee by reflexivity.
    assert (Spec.fork_event line
            = match Spec.event (Py.strip line) with
              | Some (ts, id, a) =>
                  if String.eqb a "has taken a fork" then Some (ts, id) else None
              | None => None
              end) as Hfe by reflexivity.
    rewrite Hee, Hfe.
    destruct (Spec.event (Py.strip line)) as [[[ts id] a]|].
    + destruct Hfields as (-> & -> & _). simpl.
      rewrite <- !app_assoc. split_and!; [done| |].
      * by destruct (String.eqb a "is eating").
      * by destruct (String.eqb a "has taken a fork").
    + destruct Hfields as (-> & -> & _). simpl. by rewrite <- !app_assoc.
Qed.

Lemma capture_records_lines_in_order_witness :
  eating_events (snd (capture ["  3 1 is eating "; "hello"; "5 2 is eating"]
                        Spec.table_of_five))
  = eating_events Spec.table_of_five
    ++ omap Spec.eating_event ["  3 1 is eating "; "hello"; "5 2 is eating"].
Proof.
  refine (proj1 (proj2 (capture_records_lines_in_order
                          ["  3 1 is eating "; "hello"; "5 2 is eating"]
                          Spec.table_of_five
                          (snd (capture ["  3 1 is eating "; "hello"; "5 2 is eating"]
                                  Spec.table_of_five)) _))).
  vm_compute. reflexivity.
Defined.

Lemma capture_size lines v :
  size (philosopher_states (snd (capture lines v))) = size (philosopher_states v).
Proof.
  rewrite <- !size_dom. f_equal.
  apply (capture_keeps (fun d => dom d = dom (philosopher_states v))); [|done].
  intros d id p a ts Hd Hp. rewrite dom_insert_L, <- Hd.
  apply elem_of_dom_2 in Hp. set_solver.
Qed.

(** X8. The table has as many entries as the count given on the command
    line, whatever ids the output names; so [print_statistics] raises
    [ZeroDivisionError] exactly when that count is zero or negative. *)
Theorem statistics_raise_exactly_without_philosophers
    (args : list string) (v v0 : visualizer) (n : Z) (lines : list string) :
  run_simulation_init args v = (Ok n, v0) ->
  size (philosopher_states (snd (capture lines v0))) = Z.to_nat n /\
  (print_statistics (snd (capture lines v0)) = Raise ZeroDivisionError <-> n <= 0).
Proof.
  intros Hinit.
  assert (size (philosopher_states (snd (capture lines v0))) = Z.to_nat n) as Hsize.
  { rewrite capture_size. unfold run_simulation_init in Hinit.
    destruct (match args with [] => Ok 5 | a :: _ => Py.int a end) as [m|e];
      [|done].
    injection Hinit as <- <-. apply init_states_size. }
  split; [done|]. unfold print_statistics. rewrite Hsize.
  destruct (Z.eqb_spec (Z.of_nat (Z.to_nat n)) 0) as [H0|H0]; split; try done; lia.
Qed.

Lemma statistics_raise_exactly_without_philosophers_witness :
  size (philosopher_states
          (snd (capture ["1 1 is eating"]
                  (snd (run_simulation_init ["0"; "800"; "200"; "200"] new)))))
  = Z.to_nat 0 /\
  (print_statistics
     (snd (capture ["1 1 is eating"]
             (snd (run_simulation_init ["0"; "800"; "200"; "200"] new))))
   = Raise ZeroDivisionError <-> 0 <= 0).
Proof.
  exact (statistics_raise_exactly_without_philosophers
           ["0"; "800"; "200"; "200"] new _ 0 ["1 1 is eating"] eq_refl).
Defined.

End TrackerInvariants.

(** ** The suite and its counters *)

Section TestSuite.

Import Tester.

Lemma preserves_ret {S A} (P : S -> Prop) (a : A) : preserves P (mret a : M S A).
Proof. by intros s. Qed.

Lemma preserves_bind {S A B} (P : S -> Prop) (m : M S A) (k : A -> M S B) :
  preserves P m -> (forall a, preserves P (k a)) -> preserves P (m ≫= k).
Proof.
  intros Hm Hk s Hs. unfold mbind, M_bind. specialize (Hm s Hs).
  destruct (m s) as [[a|e] s']; simpl in *; [by apply Hk | done].
Qed.

Lemma preserves_lift {S A} (P : S -> Prop) (r : result A) :
  preserves P (lift r : M S A).
Proof. by intros s. Qed.

Lemma preserves_get {S} (P : S -> Prop) : preserves P (get : M S S).
Proof. by intros s. Qed.

Lemma tallied_print test_name passed :
  preserves Spec.tallied (print_test_result test_name passed).
Proof.
  intros t (Htotal & Hpassed & Hfailed).
  unfold Spec.tallied, print_test_result, modify. simpl.
  rewrite !List.filter_app, !length_app.
  destruct passed; simpl; lia.
Qed.

Ltac keeps :=
  repeat first
    [ apply tallied_print
    | apply preserves_ret
    | apply preserves_lift
    | apply preserves_get
    | apply preserves_bind; [|intros ?] ].

Lemma tallied_format run : preserves Spec.tallied (run_basic_format_test run).
Proof.
  unfold run_basic_format_test. destruct run as [returncode output].
  destruct (format_loop 0 output true []). keeps.
Qed.

Lemma tallied_death run : preserves Spec.tallied (run_death_detection_test run).
Proof.
  unfold run_death_detection_test. destruct run as [returncode output].
  destruct (Py.any _ output); keeps.
Qed.

Lemma tallied_one run : preserves Spec.tallied (run_one_philosopher_test run).
Proof.
  unfold run_one_philosopher_test. destruct run as [returncode output].
  destruct (Py.any (Py.contains "died") output); keeps.
Qed.

Lemma tallied_one_simple run :
  preserves Spec.tallied (TesterSimple.run_one_philosopher_test run).
Proof.
  unfold TesterSimple.run_one_philosopher_test. destruct run as [returncode output].
  destruct (Py.any (Py.contains "died") output); keeps.
Qed.

Lemma tallied_meals run : preserves Spec.tallied (run_stop_after_meals_test run).
Proof.
  unfold run_stop_after_meals_test. destruct run as [returncode output]. keeps.
Qed.

Lemma tallied_error_loop run_command cases results :
  preserves Spec.tallied (error_loop run_command cases results).
Proof.
  revert results. induction cases as [|[args desc] cases IH]; intros results; simpl.
  - keeps.
  - destruct (run_command args) as [returncode output]. keeps. apply IH.
Qed.

Lemma tallied_errors run_command :
  preserves Spec.tallied (run_error_handling_test run_command).
Proof.
  unfold run_error_handling_test.
  apply preserves_bind; [apply tallied_error_loop | intros ?; keeps].
Qed.

Lemma tallied_deadlock run : preserves Spec.tallied (run_deadlock_test run).
Proof.
  unfold run_deadlock_test. destruct run as [returncode output]. keeps.
Qed.

Lemma tallied_deadlock_simple run :
  preserves Spec.tallied (TesterSimple.run_deadlock_test run).
Proof.
  unfold TesterSimple.run_deadlock_test. destruct run as [returncode output].
  apply preserves_bind; [keeps|]. intros events.
  destruct (TesterSimple.diagnose _) as [[total_meals all_ate] fair_distribution].
  destruct all_ate, fair_distribution; simpl; keeps.
Qed.

Lemma tallied_stress run : preserves Spec.tallied (run_stress_test run).
Proof.
  unfold run_stress_test. destruct run as [returncode output]. keeps.
Qed.

Lemma tallied_suite r : preserves Spec.tallied (run_all_tests r).
Proof.
  unfold run_all_tests.
  repeat (apply preserves_bind; [|intros ?]); keeps;
    auto using tallied_format, tallied_death, tallied_one, tallied_meals,
      tallied_errors, tallied_error_loop, tallied_deadlock, tallied_stress.
Qed.

Lemma tallied_suite_simple r : preserves Spec.tallied (TesterSimple.run_all_tests r).
Proof.
  unfold TesterSimple.run_all_tests.
  repeat (apply preserves_bind; [|intros ?]); keeps;
    auto using tallied_format, tallied_death, tallied_one_simple, tallied_meals,
      tallied_errors, tallied_error_loop, tallied_deadlock_simple, tallied_stress.
Qed.

Lemma filter_all {A} (f : A -> bool) l :
  length (List.filter f l) = length l <-> Forall (fun a => f a = true) l.
Proof.
  induction l as [|a l IH]; simpl.
  - split; [constructor | done].
  - pose proof (List.filter_length_le f l) as Hle.
    destruct (f a) eqn:Hfa; simpl.
    + rewrite Forall_cons, <- IH. split; [intros [= ->]; done | intros [_ ->]; done].
    + split; [lia|]. intros [Ha _]%Forall_cons. congruence.
Qed.

Lemma filter_split {A} (f : A -> bool) l :
  length l = (length (List.filter f l) + length (List.filter (fun a => negb (f a)) l))%nat.
Proof.
  induction l as [|a l IH]; simpl; [done|].
  destruct (f a); simpl; lia.
Qed.

(** The last two steps of [run_all_tests]. *)
Lemma summary_of_suite (m : M tester unit) t :
  (m ≫= fun _ => t' ← get; mret (tests_passed t' =? total_tests t')) t =
  match m t with
  | (Ok _, t') => (Ok (tests_passed t' =? total_tests t'), t')
  | (Raise e, t') => (Raise e, t')
  end.
Proof. unfold mbind, M_bind. by destruct (m t) as [[[]|e] t']. Qed.

Lemma tallied_summary t b :
  Spec.tallied t ->
  tests_passed t =? total_tests t = b ->
  total_tests t = tests_passed t + tests_failed t /\
  (b = true <-> Forall (fun e => snd e = true) (printed t)).
Proof.
  intros (Htotal & Hpassed & Hfailed) <-. split.
  - rewrite Htotal, Hpassed, Hfailed, (filter_split snd (printed t)). lia.
  - rewrite Z.eqb_eq, Htotal, Hpassed, <- filter_all. lia.
Qed.

(** X9. Both suites keep the counters in step with the verdicts written,
    also when a test raises: from a tester whose counters tally,
    [run_all_tests] leaves one whose counters tally, so [total_tests] is
    [tests_passed + tests_failed]; and when the suite ends, the summary
    announces that all tests passed exactly when no verdict written so far
    is a failure. *)
Theorem suite_counters_tally_with_verdicts (r : runs) (t : tester)
    (out : result bool * tester) :
  Spec.tallied t ->
  out = Tester.run_all_tests r t \/ out = TesterSimple.run_all_tests r t ->
  Spec.tallied (snd out) /\
  total_tests (snd out) = tests_passed (snd out) + tests_failed (snd out) /\
  (forall all_passed, fst out = Ok all_passed ->
     (all_passed = true <-> Forall (fun e => snd e = true) (printed (snd out)))).
Proof.
  intros Ht Hout.
  assert (Spec.tallied (snd out)) as Hkept.
  { destruct Hout as [-> | ->]; [by apply tallied_suite | by apply tallied_suite_simple]. }
  split; [done|]. split.
  { by apply (tallied_summary _ _ Hkept eq_refl). }
  intros all_passed Hfst.
  apply (tallied_summary _ _ Hkept).
  assert (forall (m : M tester bool) (m' : M tester unit),
    (forall t0, m t0 = match m' t0 with
                       | (Ok _, t') => (Ok (tests_passed t' =? total_tests t'), t')
                       | (Raise e, t') => (Raise e, t')
                       end) ->
    out = m t -> tests_passed (snd out) =? total_tests (snd out) = all_passed) as Hend.
  { intros m m' Hm ->. rewrite Hm in Hfst |- *.
    destruct (m' t) as [[[]|e] t']; simpl in *; congruence. }
  destruct Hout as [Hout | Hout].
  - apply (Hend (Tester.run_all_tests r)
             (_ ← run_basic_format_test (format_run r);
              _ ← run_death_detection_test (death_run r);
              _ ← run_one_philosopher_test (one_philosopher_run r);
              _ ← run_stop_after_meals_test (meals_run r);
              _ ← run_error_handling_test (error_runs r);
              _ ← run_deadlock_test (deadlock_run r);
              _ ← run_stress_test (stress_run r); mret tt)); [|done].
    intros t0. unfold Tester.run_all_tests, mbind, M_bind, mret, M_ret, get.
    repeat match goal with
           | |- context [match ?m t0 with _ => _ end] => destruct (m t0) as [[?|?] ?]
           | |- context [match ?m ?s with _ => _ end] =>
               is_var s; destruct (m s) as [[?|?] ?]
           end; reflexivity.
  - apply (Hend (TesterSimple.run_all_tests r)
             (_ ← run_basic_format_test (format_run r);
              _ ← run_death_detection_test (death_run r);
              _ ← TesterSimple.run_one_philosopher_test (one_philosopher_run r);
              _ ← run_stop_after_meals_test (meals_run r);
              _ ← run_error_handling_test (error_runs r);
              _ ← TesterSimple.run_deadlock_test (deadlock_run r);
              _ ← run_stress_test (stress_run r); mret tt)); [|done].
    intros t0. unfold TesterSimple.run_all_tests, mbind, M_bind, mret, M_ret, get.
    repeat match goal with
           | |- context [match ?m t0 with _ => _ end] => destruct (m t0) as [[?|?] ?]
           | |- context [match ?m ?s with _ => _ end] =>
               is_var s; destruct (m s) as [[?|?] ?]
           end; reflexivity.
Qed.

(** *** What the suite can raise *)

Lemma split_from_tok tok s : tok <> "" -> (1 <= length (Py.split_from tok s))%nat.
Proof.
  revert tok. induction s as [|c s IH]; intros tok Htok; simpl.
  - destruct tok; [done | simpl; lia].
  - destruct (Py.isspace c).
    + destruct tok; [done | simpl; lia].
    + apply IH. intros [_ H]%app_eq_empty. discriminate.
Qed.

Lemma split_from_mono tok tok' s :
  (tok' <> "" -> tok <> "") ->
  (length (Py.split_from tok' s) <= length (Py.split_from tok s))%nat.
Proof.
  revert tok tok'. induction s as [|c s IH]; intros tok tok' Htok; simpl.
  - destruct tok' as [|c' tok']; [simpl; lia|].
    destruct tok; [by destruct Htok | simpl; lia].
  - destruct (Py.isspace c).
    + destruct tok' as [|c' tok'].
      * destruct tok; simpl; [done | lia].
      * destruct tok; [by destruct Htok | simpl; lia].
    + apply IH. intros _ [_ H]%app_eq_empty. discriminate.
Qed.

Lemma split_from_prefix a s tok :
  (length (Py.split_from "" s) <= length (Py.split_from tok (a +:+ s)))%nat.
Proof.
  revert tok. induction a as [|c a IH]; intros tok.
  - rewrite app_empty_l. by apply split_from_mono.
  - rewrite app_cons. simpl. destruct (Py.isspace c).
    + destruct tok; simpl; [apply IH|]. etrans; [apply (IH "")|lia].
    + apply IH.
Qed.

Lemma split_from_suffix s b tok :
  (length (Py.split_from tok s) <= length (Py.split_from tok (s +:+ b)))%nat.
Proof.
  revert tok. induction s as [|c s IH]; intros tok.
  - rewrite app_empty_l. simpl. destruct tok as [|c tok]; [simpl; lia|].
    by apply split_from_tok.
  - rewrite app_cons. simpl. destruct (Py.isspace c).
    + destruct tok; simpl; [apply IH|]. specialize (IH ""). lia.
    + apply IH.
Qed.

(** A line has at least as many words as a text it contains. *)
Lemma split_contains needle line :
  Py.contains needle line = true ->
  (length (Py.split needle) <= length (Py.split line))%nat.
Proof.
  intros (a & b & ->)%contains_spec. unfold Py.split.
  etrans; [apply (split_from_suffix needle b)|]. apply split_from_prefix.
Qed.


(** A word of a line that holds [needle], taken at an index [needle] has,
    is there: reading it as a number can only fail with [ValueError]. *)
Lemma read_word_raises needle line i e :
  Py.contains needle line = true ->
  (i < length (Py.split needle))%nat ->
  (Py.index (Py.split line) i ≫= Py.int) = Raise e ->
  e = ValueError.
Proof.
  intros Hin%split_contains Hi. unfold Py.index.
  destruct (Py.split line !! i) as [w|] eqn:Hw.
  - simpl. apply int_raises.
  - apply lookup_ge_None in Hw. lia.
Qed.

Lemma next_where_any {A} (p : A -> bool) l :
  Py.any p l = true -> exists a, Py.next_where p l = Ok a /\ p a = true.
Proof.
  intros Hany. unfold Py.next_where.
  destruct (List.find p l) as [a|] eqn:Hfind.
  - exists a. split; [done|]. by apply find_some in Hfind as [_ Hp].
  - apply find_none_any in Hfind. congruence.
Qed.

Lemma may_raise_bind {S A B} (m : M S A) (k : A -> M S B) e :
  may_raise (m ≫= k) e -> may_raise m e \/ exists a, may_raise (k a) e.
Proof.
  intros [s H]. unfold mbind, M_bind in H.
  destruct (m s) as [[a|e'] s'] eqn:Hm.
  - right. exists a, s'. done.
  - left. exists s. rewrite Hm. simpl in *. by injection H as <-.
Qed.

Lemma may_raise_ret {S A} (a : A) e : ~ may_raise (mret a : M S A) e.
Proof. by intros [s H]. Qed.

Lemma may_raise_get {S} e : ~ may_raise (get : M S S) e.
Proof. by intros [s H]. Qed.

Lemma may_raise_lift {S A} (r : result A) e : may_raise (lift r : M S A) e -> r = Raise e.
Proof. by intros [s H]. Qed.

Lemma may_raise_print test_name passed e :
  ~ may_raise (print_test_result test_name passed) e.
Proof. by intros [s H]. Qed.

Ltac run_monad H :=
  unfold mbind, M_bind, mret, M_ret, lift, get, print_test_result, modify in H;
  simpl in H.

Lemma death_raises run e :
  may_raise (run_death_detection_test run) e -> e = ValueError.
Proof.
  destruct run as [returncode output]. intros [s H].
  unfold run_death_detection_test in H.
  destruct (Py.any (Py.contains "died") output) eqn:Hany; [|done].
  destruct (next_where_any _ _ Hany) as (line & Hnext & Hline).
  run_monad H. rewrite Hnext in H.
  destruct (result_bind _ _ Py.int (Py.index (Py.split line) 0)) eqn:Hread; [done|].
  injection H as <-.
  apply (read_word_raises "died" line 0); [done | simpl; lia | done].
Qed.

Lemma one_philosopher_raises run e :
  may_raise (run_one_philosopher_test run) e -> e = ValueError.
Proof.
  destruct run as [returncode output]. intros [s H].
  unfold run_one_philosopher_test in H.
  destruct (Py.any (Py.contains "died") output) eqn:Hany; [|done].
  destruct (next_where_any _ _ Hany) as (line & Hnext & Hline).
  run_monad H. rewrite Hnext in H.
  destruct (result_bind _ _ Py.int (Py.index (Py.split line) 0)) eqn:Hread; [done|].
  injection H as <-.
  apply (read_word_raises "died" line 0); [done | simpl; lia | done].
Qed.

Lemma one_philosopher_simple_raises run e :
  may_raise (TesterSimple.run_one_philosopher_test run) e -> e = ValueError.
Proof.
  destruct run as [returncode output]. intros [s H].
  unfold TesterSimple.run_one_philosopher_test in H.
  destruct (Py.any (Py.contains "died") output) eqn:Hany; [|done].
  destruct (next_where_any _ _ Hany) as (line & Hnext & Hline).
  run_monad H. rewrite Hnext in H.
  destruct (result_bind _ _ Py.int (Py.index (Py.split line) 0)) eqn:Hread; [done|].
  injection H as <-.
  apply (read_word_raises "died" line 0); [done | simpl; lia | done].
Qed.

Lemma eating_loop_raises output d e :
  eating_loop output d = Raise e -> e = ValueError.
Proof.
  revert d. induction output as [|line output IH]; intros d; simpl; [done|].
  destruct (Py.contains "is eating" line) eqn:Hline; [|apply IH].
  destruct (Py.index (Py.split line) 1 ≫= Py.int) as [id|e'] eqn:Hread; simpl.
  - apply IH.
  - intros [= <-].
    apply (read_word_raises "is eating" line 1); [done | simpl; lia | done].
Qed.

Lemma collect_eating_raises output events e :
  TesterSimple.collect_eating output events = Raise e -> e = ValueError.
Proof.
  revert events. induction output as [|line output IH]; intros events; simpl; [done|].
  destruct (Py.contains "is eating" line) eqn:Hline; [|apply IH].
  destruct (Py.index (Py.split line) 0 ≫= Py.int) as [ts|e'] eqn:Hts; simpl.
  - destruct (Py.index (Py.split line) 1 ≫= Py.int) as [id|e'] eqn:Hid; simpl.
    + apply IH.
    + intros [= <-].
      apply (read_word_raises "is eating" line 1); [done | simpl; lia | done].
  - intros [= <-].
    apply (read_word_raises "is eating" line 0); [done | simpl; lia | done].
Qed.

Lemma deadlock_raises run e : may_raise (run_deadlock_test run) e -> e = ValueError.
Proof.
  destruct run as [returncode output]. intros [s H].
  unfold run_deadlock_test in H. run_monad H.
  destruct (eating_loop output ∅) eqn:Hloop; [done|].
  injection H as <-. by apply eating_loop_raises in Hloop.
Qed.

Lemma deadlock_simple_raises run e :
  may_raise (TesterSimple.run_deadlock_test run) e -> e = ValueError.
Proof.
  destruct run as [returncode output]. unfold TesterSimple.run_deadlock_test.
  intros [H%may_raise_lift | [events H]]%may_raise_bind.
  - by apply collect_eating_raises in H.
  - destruct (TesterSimple.diagnose _) as [[total_meals all_ate] fair_distribution].
    apply may_raise_bind in H as [H | [? H]]; [|by apply may_raise_ret in H].
    destruct all_ate, fair_distribution; simpl in H;
      try (by apply may_raise_print in H).
    apply may_raise_bind in H as [H | [? H]]; by apply may_raise_print in H.
Qed.

Lemma format_raises run e : ~ may_raise (run_basic_format_test run) e.
Proof.
  destruct run as [returncode output]. intros [s H].
  unfold run_basic_format_test in H.
  by destruct (format_loop 0 output true []).
Qed.

Lemma meals_raises run e : ~ may_raise (run_stop_after_meals_test run) e.
Proof. destruct run as [returncode output]. by intros [s H]. Qed.

Lemma stress_raises run e : ~ may_raise (run_stress_test run) e.
Proof. destruct run as [returncode output]. by intros [s H]. Qed.

Lemma error_loop_raises run_command cases results e :
  ~ may_raise (error_loop run_command cases results) e.
Proof.
  revert results. induction cases as [|[args desc] cases IH]; intros results; simpl.
  - apply may_raise_ret.
  - destruct (run_command args) as [returncode output].
    intros [H | [[] H]]%may_raise_bind.
    + by apply may_raise_print in H.
    + by apply IH in H.
Qed.

Lemma errors_raises run_command e :
  ~ may_raise (run_error_handling_test run_command) e.
Proof.
  unfold run_error_handling_test. intros [H | [results H]]%may_raise_bind.
  - by apply error_loop_raises in H.
  - by apply may_raise_ret in H.
Qed.

Lemma summary_raises e :
  ~ may_raise (t ← get; mret (tests_passed t =? total_tests t) : M tester bool) e.
Proof. by intros [s H]. Qed.

Ltac settle_raise H :=
  first
    [ by apply format_raises in H
    | by apply death_raises in H
    | by apply one_philosopher_raises in H
    | by apply one_philosopher_simple_raises in H
    | by apply meals_raises in H
    | by apply error_loop_raises in H
    | by apply deadlock_raises in H
    | by apply deadlock_simple_raises in H
    | by apply stress_raises in H
    | by apply may_raise_get in H
    | by apply may_raise_ret in H ].

(** X10. The only exception a run of either suite can end with is
    [ValueError]: a line naming a death or a meal always has the words the
    tests index, so no [IndexError], and the search for the death line is
    made only when there is one, so no [StopIteration]. *)
Theorem suite_raises_only_value_error (r : runs) (t : tester) (e : exn) :
  fst (Tester.run_all_tests r t) = Raise e \/
  fst (TesterSimple.run_all_tests r t) = Raise e ->
  e = ValueError.
Proof.
  intros [H | H].
  - assert (may_raise (Tester.run_all_tests r) e) as Hraise by by exists t.
    clear H. unfold Tester.run_all_tests in Hraise.
    apply may_raise_bind in Hraise as [Hraise | [? Hraise]]; [settle_raise Hraise|].
    apply may_raise_bind in Hraise as [Hraise | [? Hraise]]; [settle_raise Hraise|].
    apply may_raise_bind in Hraise as [Hraise | [? Hraise]]; [settle_raise Hraise|].
    apply may_raise_bind in Hraise as [Hraise | [? Hraise]]; [settle_raise Hraise|].
    apply may_raise_bind in Hraise as [Hraise | [? Hraise]];
      [by apply errors_raises in Hraise|].
    apply may_raise_bind in Hraise as [Hraise | [? Hraise]]; [settle_raise Hraise|].
    apply may_raise_bind in Hraise as [Hraise | [? Hraise]]; [settle_raise Hraise|].
    by apply summary_raises in Hraise.
  - assert (may_raise (TesterSimple.run_all_tests r) e) as Hraise by by exists t.
    clear H. unfold TesterSimple.run_all_tests in Hraise.
    apply may_raise_bind in Hraise as [Hraise | [? Hraise]]; [settle_raise Hraise|].
    apply may_raise_bind in Hraise as [Hraise | [? Hraise]]; [settle_raise Hraise|].
    apply may_raise_bind in Hraise as [Hraise | [? Hraise]]; [settle_raise Hraise|].
    apply may_raise_bind in Hraise as [Hraise | [? Hraise]]; [settle_raise Hraise|].
    apply may_raise_bind in Hraise as [Hraise | [? Hraise]];
      [by apply errors_raises in Hraise|].
    apply may_raise_bind in Hraise as [Hraise | [? Hraise]]; [settle_raise Hraise|].
    apply may_raise_bind in Hraise as [Hraise | [? Hraise]]; [settle_raise Hraise|].
    by apply summary_raises in Hraise.
Qed.

Lemma suite_raises_only_value_error_witness :
  fst (Tester.run_all_tests (Spec.with_death_line "Philosopher 3 died") Tester.init)
    = Raise ValueError /\
  ValueError = ValueError.
Proof.
  split; [vm_compute; reflexivity|].
  apply (suite_raises_only_value_error
           (Spec.with_death_line "Philosopher 3 died") Tester.init ValueError).
  left. vm_compute. reflexivity.
Defined.

Lemma suite_counters_tally_with_verdicts_witness :
  Spec.tallied Tester.init /\
  total_tests (snd (Tester.run_all_tests Spec.never_started Tester.init)) =
    tests_passed (snd (Tester.run_all_tests Spec.never_started Tester.init)) +
    tests_failed (snd (Tester.run_all_tests Spec.never_started Tester.init)).
Proof.
  assert (Spec.tallied Tester.init) as Hinit by (by vm_compute).
  split; [exact Hinit|].
  exact (proj1 (proj2 (suite_counters_tally_with_verdicts
                         Spec.never_started Tester.init
                         (Tester.run_all_tests Spec.never_started Tester.init)
                         Hinit (or_introl eq_refl)))).
Defined.

(** X11. When the first death line of the death detection run does not
    begin with a number, both suites stop there with the exception of the
    conversion: the format verdict and a passed "Death detection" are
    written and counted, the five remaining tests are not run, and no
    summary is printed. *)
Theorem unreadable_death_line_aborts_suite (r : runs) (t : tester)
    (death_line : string) (e : exn) (out : result bool * tester) :
  Py.next_where (Py.contains "died") (snd (death_run r)) = Ok death_line ->
  (Py.index (Py.split death_line) 0 ≫= Py.int) = Raise e ->
  out = Tester.run_all_tests r t \/ out = TesterSimple.run_all_tests r t ->
  fst out = Raise e /\
  exists valid_format,
    printed (snd out) =
      printed t ++ [("Output format", valid_format); ("Death detection", true)] /\
    total_tests (snd out) = total_tests t + 2.
Proof.
  intros Hnext Hread Hout.
  assert (Py.any (Py.contains "died") (snd (death_run r)) = true) as Hany.
  { unfold Py.next_where in Hnext.
    destruct (List.find _ _) eqn:Hfind; [|done]. by apply find_any in Hfind. }
  destruct (format_run r) as [rc0 output0] eqn:Hformat.
  destruct (death_run r) as [rc1 output1] eqn:Hdeath. simpl in Hany, Hnext.
  destruct (format_loop 0 output0 true []) as [valid_format invalid_lines] eqn:Hloop.
  assert (fst out = Raise e /\
          printed (snd out) =
            (printed t ++ [("Output format", valid_format)])
              ++ [("Death detection", true)] /\
          total_tests (snd out) = total_tests t + 1 + 1) as (Hfst & Hprinted & Htotal).
  { destruct Hout as [-> | ->].
    - unfold Tester.run_all_tests, run_basic_format_test, run_death_detection_test.
      rewrite Hformat, Hdeath, Hloop, Hany.
      unfold mbind, M_bind, mret, M_ret, lift, print_test_result, modify in *.
      simpl. rewrite Hnext, Hread. done.
    - unfold TesterSimple.run_all_tests, run_basic_format_test,
        run_death_detection_test.
      rewrite Hformat, Hdeath, Hloop, Hany.
      unfold mbind, M_bind, mret, M_ret, lift, print_test_result, modify in *.
      simpl. rewrite Hnext, Hread. done. }
  split; [done|]. exists valid_format.
  split; [by rewrite Hprinted, <- app_assoc | lia].
Qed.

Lemma unreadable_death_line_aborts_suite_witness :
  fst (Tester.run_all_tests (Spec.with_death_line "Philosopher 3 died") Tester.init)
    = Raise ValueError /\
  exists valid_format,
    printed (snd (Tester.run_all_tests (Spec.with_death_line "Philosopher 3 died")
                    Tester.init)) =
      printed Tester.init ++ [("Output format", valid_format); ("Death detection", true)] /\
    total_tests (snd (Tester.run_all_tests (Spec.with_death_line "Philosopher 3 died")
                        Tester.init)) = total_tests Tester.init + 2.
Proof.
  apply (unreadable_death_line_aborts_suite
           (Spec.with_death_line "Philosopher 3 died") Tester.init
           "Philosopher 3 died" ValueError).
  - vm_compute. reflexivity.
  - vm_compute. reflexivity.
  - left. reflexivity.
Defined.

Lemma error_loop_verdicts run_command cases results t :
  exists t',
    error_loop run_command cases results t =
      (Ok (results ++ (Spec.error_case_passed run_command <$> cases)), t') /\
    printed t' =
      printed t ++
      ((fun c => ("Error handling: " +:+ snd c, Spec.error_case_passed run_command c))
         <$> cases) /\
    total_tests t' = total_tests t + Z.of_nat (length cases).
Proof.
  revert results t. induction cases as [|[args desc] cases IH]; intros results t.
  - exists t. simpl. rewrite !app_nil_r. split_and!; [done | done | lia].
  - cbn [error_loop fmap list_fmap].
    destruct (run_command args) as [returncode output] eqn:Hrun.
    unfold mbind, M_bind, print_test_result, modify.
    set (passed := Py.any (Py.contains "Error") output && differs returncode 0).
    destruct (IH (results ++ [passed])
                {| tests_passed := if passed then tests_passed t + 1 else tests_passed t;
                   tests_failed := if passed then tests_failed t else tests_failed t + 1;
                   total_tests := total_tests t + 1;
                   printed := printed t ++ [("Error handling: " +:+ desc, passed)] |})
      as (t' & Hloop & Hprinted & Htotal).
    exists t'. rewrite Hloop, Hprinted, Htotal. cbn [printed total_tests].
    assert (Spec.error_case_passed run_command (args, desc) = passed) as Hpassed.
    { unfold Spec.error_case_passed, passed. cbn [fst snd]. rewrite Hrun. cbn [fst snd].
      f_equal. destruct returncode as [status|]; [|done]. simpl.
      destruct (Z.eqb_spec status 0) as [->|Hne]; [done|].
      rewrite bool_decide_eq_false_2; [done | congruence]. }
    rewrite <- !app_assoc. rewrite Hpassed. split_and!; [done | done |].
    simpl length. lia.
Qed.

(** X12. The error handling test never raises and writes one verdict for
    each of its five argument lists, in order: a case is passed exactly when
    some line of its run has the word "Error" and its return code is not 0;
    a run killed at its deadline, whose return code is [None], counts as a
    non-zero exit.  The test as a whole returns whether all five passed. *)
Theorem error_handling_passes_per_case
    (run_command : list string -> run_result) (t : tester) :
  exists t',
    run_error_handling_test run_command t =
      (Ok (forallb (Spec.error_case_passed run_command) test_cases), t') /\
    printed t' =
      printed t ++
      ((fun c => ("Error handling: " +:+ snd c, Spec.error_case_passed run_command c))
         <$> test_cases) /\
    total_tests t' = total_tests t + 5.
Proof.
  destruct (error_loop_verdicts run_command test_cases [] t)
    as (t' & Hloop & Hprinted & Htotal).
  exists t'. unfold run_error_handling_test, mbind, M_bind. rewrite Hloop.
  split; [|done].
  reflexivity.
Qed.

(** X13. A program none of whose runs prints a line (one that cannot be
    started among them) is still credited with a valid output format and
    with no death during the meal test; every other verdict is a failure,
    except the stress verdict, which passes unless the return code is -1.
    The simple tester writes no timing verdict for the lone philosopher, so
    it counts 13 tests where the other counts 14. *)
Theorem silent_program_is_credited_twice (r : runs) :
  Spec.silent r ->
  exists t t',
    Tester.run_all_tests r Tester.init = (Ok false, t) /\
    printed t =
      [("Output format", true); ("Death detection", false);
       ("One philosopher takes fork", false); ("One philosopher dies", false);
       ("Death timing for one philosopher", false);
       ("All philosophers ate required meals", false);
       ("No philosopher died during meal test", true)]
      ++ Spec.error_cases_failed
      ++ [("No deadlocks", false);
          ("Handle many philosophers",
           negb (bool_decide (fst (stress_run r) = Some (-1))))] /\
    TesterSimple.run_all_tests r Tester.init = (Ok false, t') /\
    printed t' =
      [("Output format", true); ("Death detection", false);
       ("One philosopher takes fork", false); ("One philosopher dies", false);
       ("All philosophers ate required meals", false);
       ("No philosopher died during meal test", true)]
      ++ Spec.error_cases_failed
      ++ [("No deadlocks", false);
          ("Handle many philosophers",
           negb (bool_decide (fst (stress_run r) = Some (-1))))].
Proof.
  destruct r as [[rc1 o1] [rc2 o2] [rc3 o3] [rc4 o4] f [rc6 o6] [rc7 o7]].
  unfold Spec.silent. simpl. intros (-> & -> & -> & -> & Hf & -> & ->).
  unfold Tester.run_all_tests, TesterSimple.run_all_tests, run_error_handling_test,
    test_cases.
  cbn [format_run death_run one_philosopher_run meals_run error_runs deadlock_run
       stress_run error_loop].
  repeat match goal with
         | |- context [f ?args] =>
             let H := fresh "H" in
             pose proof (Hf args) as H;
             destruct (f args) as [? ?]; simpl in H; subst
         end.
  assert (negb (bool_decide (rc7 = Some (-1))) = differs rc7 (-1)) as ->.
  { destruct rc7 as [status|]; [|done]. simpl.
    destruct (Z.eqb_spec status (-1)) as [->|Hne]; [done|].
    rewrite bool_decide_eq_false_2; [done | congruence]. }
  unfold run_stress_test.
  destruct (differs rc7 (-1));
    match goal with
    | |- exists t t', ?a = _ /\ _ /\ ?b = _ /\ _ => exists (snd a), (snd b)
    end; split_and!; vm_compute; reflexivity.
Qed.

Lemma silent_program_is_credited_twice_witness :
  Spec.silent Spec.never_started /\
  exists t t',
    Tester.run_all_tests Spec.never_started Tester.init = (Ok false, t) /\
    printed t =
      [("Output format", true); ("Death detection", false);
       ("One philosopher takes fork", false); ("One philosopher dies", false);
       ("Death timing for one philosopher", false);
       ("All philosophers ate required meals", false);
       ("No philosopher died during meal test", true)]
      ++ Spec.error_cases_failed
      ++ [("No deadlocks", false);
          ("Handle many philosophers",
           negb (bool_decide (fst (stress_run Spec.never_started) = Some (-1))))] /\
    TesterSimple.run_all_tests Spec.never_started Tester.init = (Ok false, t') /\
    printed t' =
      [("Output format", true); ("Death detection", false);
       ("One philosopher takes fork", false); ("One philosopher dies", false);
       ("All philosophers ate required meals", false);
       ("No philosopher died during meal test", true)]
      ++ Spec.error_cases_failed
      ++ [("No deadlocks", false);
          ("Handle many philosophers",
           negb (bool_decide (fst (stress_run Spec.never_started) = Some (-1))))].
Proof.
  assert (Spec.silent Spec.never_started) as Hsilent by (by vm_compute).
  split; [exact Hsilent|].
  exact (silent_program_is_credited_twice Spec.never_started Hsilent).
Defined.

End TestSuite.

(** ** One grammar, three readers

    The testers check a line against their pattern, but read its fields by
    splitting it into words and by looking for phrases; the visualizers
    read it with their own pattern. *)

Section Grammar.

Lemma contains_skip a needle c s :
  a <> c ->
  Py.contains (String a needle) (String c s) = Py.contains (String a needle) s.
Proof.
  intros Hne. cbn [Py.contains Py.startswith].
  destruct (Ascii.eqb_spec a c); [done|]. reflexivity.
Qed.

Lemma contains_after_digits a needle ts rest :
  Py.isdigit a = false ->
  Spec.all_chars Py.isdigit ts = true ->
  Py.contains (String a needle) (ts +:+ rest) = Py.contains (String a needle) rest.
Proof.
  intros Ha. induction ts as [|c ts IH]; intros Hts; [done|].
  simpl in Hts. apply andb_true_iff in Hts as [Hc Hts].
  rewrite app_cons, contains_skip; [by apply IH | congruence].
Qed.

Lemma split_from_digits w : forall tok s,
  Spec.all_chars Py.isdigit w = true ->
  Py.split_from tok (w +:+ s) = Py.split_from (tok +:+ w) s.
Proof.
  induction w as [|c w IH]; intros tok s Hw.
  - by rewrite app_empty_l, app_empty_r.
  - simpl in Hw. apply andb_true_iff in Hw as [Hc Hw].
    rewrite app_cons. cbn [Py.split_from]. rewrite (digit_not_space c Hc).
    rewrite IH by done. by rewrite app_assoc', app_cons, app_empty_l.
Qed.

(** A line that begins with two runs of digits, each followed by a space,
    has them as its first two words. *)
Lemma split_two_numbers ts id rest :
  ts <> "" -> Spec.all_chars Py.isdigit ts = true ->
  id <> "" -> Spec.all_chars Py.isdigit id = true ->
  Py.split (ts +:+ String " " (id +:+ String " " rest))
  = ts :: id :: Py.split rest.
Proof.
  intros Hts1 Hts Hid1 Hid. unfold Py.split.
  rewrite split_from_digits, app_empty_l by done.
  destruct ts as [|c ts]; [done|]. cbn [Py.split_from].
  change (Py.isspace " ") with true. cbv iota.
  rewrite split_from_digits, app_empty_l by done.
  destruct id as [|d id]; [done|]. cbn [Py.split_from].
  change (Py.isspace " ") with true. by cbv iota.
Qed.

Lemma phrase_shape msg :
  In msg Tester.phrases ->
  msg <> "" /\ Spec.all_chars Re.not_newline msg = true /\
  exists a needle, msg = String a needle /\ Py.isdigit a = false /\ a <> " "%char.
Proof.
  unfold Tester.phrases. simpl.
  intros [<-|[<-|[<-|[<-|[<-|[]]]]]]; (split; [done|]); (split; [by vm_compute|]);
    eexists _, _; (split; [reflexivity|]); split; done.
Qed.

(** X14. A line the format test accepts is read alike by every reader: the
    visualizers' pattern splits it into the same first and second word the
    testers pick with [split()], and a message that is one of the five
    phrases; of the five phrases the testers look for, the line contains
    exactly that message.  So [int()] gives every reader the same timestamp
    and id, or fails for all of them; on a line of at most 4300 characters
    it succeeds, and [_parse_event] applies the event. *)
Theorem accepted_line_reads_the_same_everywhere (line : string) :
  Tester.check_format line = true ->
  exists g1 g2 action,
    In action Tester.phrases /\
    Visualizer.re_match line = Some (g1, g2, action) /\
    Py.index (Py.split line) 0 = Ok g1 /\
    Py.index (Py.split line) 1 = Ok g2 /\
    (forall phrase, In phrase Tester.phrases ->
       Py.contains phrase line = bool_decide (phrase = action)) /\
    ((String.length line <= 4300)%nat ->
     exists timestamp philo_id,
       Py.int g1 = Ok timestamp /\ Py.int g2 = Ok philo_id /\
       forall v,
         Visualizer._parse_event line v
         = Visualizer.update_state timestamp philo_id action
             (snd (Visualizer.raise_max_time timestamp v))).
Proof.
  unfold Tester.check_format. intros Hm%matches_spec.
  apply tester_pattern_spec in Hm
    as (ts & id & msg & nl & -> & [Hts1 Hts] & [Hid1 Hid] & Hmsg & Hnl).
  destruct (phrase_shape msg Hmsg) as (Hmsg1 & Hmsg2 & _).
  assert (Visualizer.re_match
            (ts +:+ String " " (id +:+ String " " (msg +:+ nl)))
          = Some (ts, id, msg)) as Hre.
  { apply re_match_spec. exists nl. by split_and!. }
  exists ts, id, msg. split_and!; try done.
  - by rewrite split_two_numbers.
  - by rewrite split_two_numbers.
  - intros phrase Hphrase.
    destruct (phrase_shape phrase Hphrase) as (_ & _ & a & needle & -> & Ha & Hsp).
    rewrite contains_after_digits, contains_skip by done.
    rewrite contains_after_digits, contains_skip by done.
    clear -Hphrase Hmsg Hnl.
    unfold Tester.phrases in *. simpl in Hphrase, Hmsg.
    destruct Hnl as [-> | ->];
      destruct Hmsg as [<-|[<-|[<-|[<-|[<-|[]]]]]];
      destruct Hphrase as [Hp|[Hp|[Hp|[Hp|[Hp|[]]]]]];
      rewrite <- Hp; by vm_compute.
  - intros Hlen. rewrite length_app_string in Hlen. cbn [String.length] in Hlen.
    rewrite length_app_string in Hlen.
    pose proof (count_digits_length ts). pose proof (count_digits_length id).
    destruct (re_match_event _ _ _ _ Hre) as (timestamp & philo_id & Hits & Hiid & Hev).
    { unfold Py.max_str_digits. lia. }
    { unfold Py.max_str_digits. lia. }
    exists timestamp, philo_id. split_and!; [done | done |].
    intros v. by apply parse_event_event.
Qed.

Lemma accepted_line_reads_the_same_everywhere_witness :
  exists g1 g2 action,
    In action Tester.phrases /\
    Visualizer.re_match "200 3 is eating" = Some (g1, g2, action) /\
    Py.index (Py.split "200 3 is eating") 0 = Ok g1 /\
    Py.index (Py.split "200 3 is eating") 1 = Ok g2 /\
    (forall phrase, In phrase Tester.phrases ->
       Py.contains phrase "200 3 is eating" = bool_decide (phrase = action)) /\
    ((String.length "200 3 is eating" <= 4300)%nat ->
     exists timestamp philo_id,
       Py.int g1 = Ok timestamp /\ Py.int g2 = Ok philo_id /\
       forall v,
         Visualizer._parse_event "200 3 is eating" v
         = Visualizer.update_state timestamp philo_id action
             (snd (Visualizer.raise_max_time timestamp v))).
Proof.
  apply (accepted_line_reads_the_same_everywhere "200 3 is eating").
  vm_compute. reflexivity.
Defined.

End Grammar.

(** ** Meal intervals and the timeline *)

Section ProcessedEvents.

Import Visualizer.

Lemma insert_by_time_count id e events :
  Spec.meal_count id (insert_by_time e events) = Spec.meal_count id (e :: events).
Proof.
  induction events as [|x rest IH]; [done|].
  cbn [insert_by_time]. destruct (fst e <=? fst x); [done|].
  destruct e as [t i], x as [t' i'].
  rewrite !meal_count_cons, IH, meal_count_cons. lia.
Qed.

Lemma sort_by_time_count id events :
  Spec.meal_count id (sort_by_time events) = Spec.meal_count id events.
Proof.
  induction events as [|[t i] rest IH]; [done|].
  cbn [sort_by_time foldr]. fold (sort_by_time rest).
  by rewrite insert_by_time_count, !meal_count_cons, IH.
Qed.

Lemma insert_by_time_perm e events : insert_by_time e events ≡ₚ e :: events.
Proof.
  induction events as [|x rest IH]; [done|].
  cbn [insert_by_time]. destruct (fst e <=? fst x); [done|].
  rewrite IH. apply Permutation_swap.
Qed.

Lemma sort_by_time_perm events : sort_by_time events ≡ₚ events.
Proof.
  induction events as [|e rest IH]; [done|].
  cbn [sort_by_time foldr]. fold (sort_by_time rest).
  by rewrite insert_by_time_perm, IH.
Qed.

Lemma insert_by_time_sorted e events :
  Spec.by_time events -> Spec.by_time (insert_by_time e events).
Proof.
  unfold Spec.by_time. induction events as [|x rest IH]; cbn [insert_by_time].
  - intros _. simpl. by split.
  - intros [Hx Hrest]. fold (fmap (M:=list) fst rest) in *.
    destruct (Z.leb_spec (fst e) (fst x)) as [Hle|Hgt].
    + split; [|by split]. constructor; [done|].
      eapply Forall_impl; [exact Hx|]. intros y Hy. simpl in *. lia.
    + split; [|by apply IH].
      change (Forall (Z.le x.1) (fst <$> insert_by_time e rest)).
      rewrite insert_by_time_perm. constructor; [lia | done].
Qed.

Lemma sort_by_time_sorted events : Spec.by_time (sort_by_time events).
Proof.
  induction events as [|e rest IH]; [done|].
  cbn [sort_by_time foldr]. by apply insert_by_time_sorted.
Qed.

Lemma meal_times_cons id t i rest :
  Spec.meal_times id ((t, i) :: rest)
  = (if decide (i = id) then [t] else []) ++ Spec.meal_times id rest.
Proof.
  unfold Spec.meal_times. simpl. case_decide as Hd.
  - subst. by rewrite Z.eqb_refl.
  - apply Z.eqb_neq in Hd. by rewrite Hd.
Qed.

Lemma meal_times_app id events events' :
  Spec.meal_times id (events ++ events')
  = Spec.meal_times id events ++ Spec.meal_times id events'.
Proof. unfold Spec.meal_times. by rewrite List.filter_app, fmap_app. Qed.

Lemma meal_times_length id events :
  Z.of_nat (length (Spec.meal_times id events)) = Spec.meal_count id events.
Proof. unfold Spec.meal_times, Spec.meal_count. by rewrite length_fmap. Qed.

Lemma elem_of_meal_times id events t :
  t ∈ Spec.meal_times id events <-> (t, id) ∈ events.
Proof.
  unfold Spec.meal_times. rewrite list_elem_of_fmap. split.
  - intros ([t' i] & -> & Hin). apply list_elem_of_In, filter_In in Hin as [Hin Hi].
    simpl in *. apply Z.eqb_eq in Hi as ->. by apply list_elem_of_In.
  - intros Hin. exists (t, id). split; [done|].
    apply list_elem_of_In, filter_In. split; [by apply list_elem_of_In|].
    simpl. apply Z.eqb_refl.
Qed.

Lemma meal_times_sorted id events :
  Spec.by_time events -> Spec.ascending (Spec.meal_times id events).
Proof.
  unfold Spec.by_time. induction events as [|[t i] rest IH]; [done|].
  intros [Ht Hrest]. fold (fmap (M:=list) fst rest) in *.
  rewrite meal_times_cons. case_decide; [|by apply IH]. simpl.
  split; [|by apply IH]. apply Forall_forall. intros t' Ht'.
  apply elem_of_meal_times in Ht'. rewrite Forall_forall in Ht.
  apply Ht. apply list_elem_of_fmap. by exists (t', id).
Qed.

Lemma gaps_snoc times t :
  Spec.gaps (times ++ [t])
  = Spec.gaps times ++ match last times with Some a => [t - a] | None => [] end.
Proof.
  induction times as [|a [|b rest] IH]; [done | done |].
  change (Spec.gaps ((a :: b :: rest) ++ [t]))
    with ((b - a) :: Spec.gaps ((b :: rest) ++ [t])).
  rewrite IH. reflexivity.
Qed.

Lemma gaps_length times : length (Spec.gaps times) = pred (length times).
Proof.
  induction times as [|a [|b rest] IH]; [done | done |].
  change (Spec.gaps (a :: b :: rest)) with ((b - a) :: Spec.gaps (b :: rest)).
  simpl in *. by rewrite IH.
Qed.

Lemma gaps_nonneg times :
  Spec.ascending times -> Forall (fun interval => 0 <= interval) (Spec.gaps times).
Proof.
  induction times as [|a [|b rest] IH]; [constructor | constructor |].
  intros [Ha Hrest].
  change (Spec.gaps (a :: b :: rest)) with ((b - a) :: Spec.gaps (b :: rest)).
  constructor; [|by apply IH]. apply Forall_cons in Ha as [Hab _]. lia.
Qed.

(** The gaps telescope. *)
Lemma gaps_sum a times :
  foldr Z.add 0 (Spec.gaps (a :: times)) = default a (last (a :: times)) - a.
Proof.
  revert a. induction times as [|b rest IH]; intros a; [simpl; lia|].
  change (Spec.gaps (a :: b :: rest)) with ((b - a) :: Spec.gaps (b :: rest)).
  cbn [foldr]. rewrite IH.
  change (last (a :: b :: rest)) with (last (b :: rest)).
  destruct (last (b :: rest)) as [z|] eqn:Hlast; simpl; [lia|].
  by apply last_None in Hlast.
Qed.

Lemma sorted_bounds times : forall a t,
  Spec.ascending (a :: times) -> t ∈ a :: times ->
  a <= t <= default a (last (a :: times)).
Proof.
  induction times as [|b rest IH]; intros a t Hs Ht.
  - apply list_elem_of_singleton in Ht as ->. simpl. lia.
  - destruct Hs as [Ha Hs].
    change (last (a :: b :: rest)) with (last (b :: rest)).
    pose proof (IH b b Hs ltac:(by left)) as Hb.
    pose proof (IH b t Hs) as Ht'.
    apply Forall_cons in Ha as [Hab Ha].
    destruct (last (b :: rest)) as [z|] eqn:Hlast; [|by apply last_None in Hlast].
    simpl in *. apply elem_of_cons in Ht as [->|Ht]; [lia|].
    specialize (Ht' Ht). lia.
Qed.

(** What the loop of [_process_events] has made of the events read so far:
    under each id the gaps between its meals, and its last meal time. *)
Lemma interval_loop_spec rest : forall pre meal_intervals last_meal_time,
  (forall id,
     meal_intervals !! id = Spec.unless_empty (Spec.gaps (Spec.meal_times id pre)) /\
     last_meal_time !! id = last (Spec.meal_times id pre)) ->
  forall id,
    interval_loop rest meal_intervals last_meal_time !! id
    = Spec.unless_empty (Spec.gaps (Spec.meal_times id (pre ++ rest))).
Proof.
  induction rest as [|[time philo_id] rest IH]; intros pre mi lm Hinv id.
  - rewrite app_nil_r. apply Hinv.
  - cbn [interval_loop].
    rewrite (IH (pre ++ [(time, philo_id)])); [by rewrite <- app_assoc|].
    clear id. intros id. rewrite meal_times_app, meal_times_cons.
    destruct (Hinv id) as [Hmi Hlm].
    change (Spec.meal_times id []) with (@nil Z). rewrite app_nil_r.
    case_decide as Hid.
    + subst id. rewrite lookup_insert_eq, gaps_snoc, last_snoc. split; [|done].
      rewrite Hlm. destruct (last (Spec.meal_times philo_id pre)) as [a|] eqn:Hlast.
      * rewrite lookup_insert_eq, Hmi.
        destruct (Spec.gaps (Spec.meal_times philo_id pre)) as [|g gs]; done.
      * by rewrite app_nil_r.
    + rewrite app_nil_r, lookup_insert_ne by done. split; [|done].
      destruct (lm !! philo_id); [|done]. by rewrite lookup_insert_ne.
Qed.

(** X15. The intervals [_process_events] files under a philosopher are the
    gaps between that philosopher's meals in order of time: there is one
    fewer than meals, none is negative, and they add up to the time from
    the first of those meals to the last.  A philosopher with fewer than
    two meals has no key in [meal_intervals]. *)
Theorem meal_intervals_span_first_to_last_meal (v : visualizer) (id : Z) :
  let meal_intervals := snd (_process_events v) in
  let events := eating_events v in
  (meal_intervals !! id = None <-> Spec.meal_count id events <= 1) /\
  (forall intervals, meal_intervals !! id = Some intervals ->
     Z.of_nat (length intervals) = Spec.meal_count id events - 1 /\
     Forall (fun interval => 0 <= interval) intervals /\
     exists first latest,
       (first, id) ∈ events /\ (latest, id) ∈ events /\
       (forall t, (t, id) ∈ events -> first <= t <= latest) /\
       foldr Z.add 0 intervals = latest - first).
Proof.
  cbn zeta. unfold _process_events. cbn [snd].
  rewrite (interval_loop_spec (sort_by_time (eating_events v)) [] ∅ ∅)
    by (intros ?; by rewrite !lookup_empty).
  rewrite app_nil_l.
  pose proof (meal_times_length id (sort_by_time (eating_events v))) as Hlen.
  rewrite sort_by_time_count in Hlen.
  pose proof (meal_times_sorted id _ (sort_by_time_sorted (eating_events v))) as Hsorted.
  assert (forall t, t ∈ Spec.meal_times id (sort_by_time (eating_events v))
                    <-> (t, id) ∈ eating_events v) as Hin.
  { intros t. by rewrite elem_of_meal_times, sort_by_time_perm. }
  pose proof (gaps_length (Spec.meal_times id (sort_by_time (eating_events v)))) as Hgaps.
  destruct (Spec.meal_times id (sort_by_time (eating_events v))) as [|a times] eqn:Htimes.
  { simpl in *. split; [split; [lia | done] | done]. }
  split.
  - destruct times as [|b times]; simpl in *; [split; [lia | done]|].
    split; [done | lia].
  - intros intervals Hsome.
    assert (intervals = Spec.gaps (a :: times)) as ->.
    { destruct (Spec.gaps (a :: times)); [done | by injection Hsome]. }
    split; [simpl in *; lia|]. split; [by apply gaps_nonneg|].
    exists a, (default a (last (a :: times))). split_and!.
    + apply Hin. by left.
    + apply Hin. destruct (last (a :: times)) as [z|] eqn:Hlast.
      * simpl. by apply last_Some_elem_of in Hlast.
      * by apply last_None in Hlast.
    + intros t Ht%Hin. by apply sorted_bounds.
    + apply gaps_sum.
Qed.

End ProcessedEvents.

Section Charts.

Import Visualizer.

Lemma recent_events_split events :
  exists older,
    events = older ++ recent_events events /\
    length (recent_events events) = Nat.min 20 (length events).
Proof.
  unfold recent_events. destruct (Nat.ltb_spec 20 (length events)) as [Hlt|Hge].
  - exists (take (length events - 20) events). split.
    + by rewrite take_drop.
    + rewrite length_drop. lia.
  - exists []. split; [done | lia].
Qed.

Lemma ascending_app a b :
  Spec.ascending (a ++ b) -> forall x y, x ∈ a -> y ∈ b -> x <= y.
Proof.
  induction a as [|c a IH]; intros Hs x y Hx Hy.
  - by apply elem_of_nil in Hx.
  - destruct Hs as [Hc Hs]. apply elem_of_cons in Hx as [->|Hx].
    + rewrite Forall_forall in Hc. apply Hc, elem_of_app. by right.
    + by apply IH.
Qed.

(** What the timeline loop files under a key: what was there, then the ids
    of the events whose time rounds down to the key. *)
Lemma timeline_loop_spec rest : forall tl t,
  (forall k, tl !! k <> Some []) ->
  timeline_loop rest tl !! t
  = Spec.unless_empty
      (default [] (tl !! t)
       ++ (snd <$> List.filter (fun e => fst e `div` 1000 * 1000 =? t) rest)).
Proof.
  induction rest as [|[time philo_id] rest IH]; intros tl t Hne.
  - simpl. rewrite app_nil_r. specialize (Hne t).
    destruct (tl !! t) as [[|x l]|]; done.
  - cbn [timeline_loop List.filter fst]. rewrite IH.
    + destruct (Z.eqb_spec (time `div` 1000 * 1000) t) as [->|Hk].
      * rewrite lookup_insert_eq. simpl. by rewrite <- app_assoc.
      * by rewrite lookup_insert_ne.
    + intros k. rewrite lookup_insert. case_decide; [|apply Hne].
      intros [= Happ]. by apply app_eq_nil in Happ as [_ Happ].
Qed.

Lemma whole_second time t :
  time `div` 1000 * 1000 = t <-> t `mod` 1000 = 0 /\ t <= time < t + 1000.
Proof.
  pose proof (Z.div_mod time 1000 ltac:(lia)) as Hdm.
  pose proof (Z.mod_pos_bound time 1000 ltac:(lia)) as Hb.
  split.
  - intros <-. rewrite Z.mod_mul by lia. lia.
  - intros [Hmod Ht].
    pose proof (Z.div_mod t 1000 ltac:(lia)) as Hdt. rewrite Hmod in Hdt.
    assert (time `div` 1000 = t `div` 1000); [|lia].
    symmetry. apply Z.div_unique with (r := time - t); lia.
Qed.

(** X16. The timeline of the ASCII visualization is made from the last 20
    eating events, which after [_process_events] are the 20 latest; it
    files each of them under the whole second at or below its time (the
    time is rounded down, never up): the keys are multiples of 1000, and
    under the key [t] stand, in order, the ids of the listed events with a
    time from [t] up to [t + 999]. *)
Theorem timeline_files_meals_under_whole_seconds (v0 : visualizer) :
  let v := fst (_process_events v0) in
  let recent := recent_events (eating_events v) in
  (exists older,
     eating_events v = older ++ recent /\
     length recent = Nat.min 20 (length (eating_events v0)) /\
     forall e e', e ∈ older -> e' ∈ recent -> fst e <= fst e') /\
  (forall t ids,
     timeline v !! t = Some ids ->
     t `mod` 1000 = 0 /\ ids <> [] /\
     ids = snd <$> List.filter (fun e => bool_decide (t <= fst e < t + 1000)) recent) /\
  (forall time philo_id,
     (time, philo_id) ∈ recent ->
     exists ids,
       timeline v !! (time - time `mod` 1000) = Some ids /\ philo_id ∈ ids).
Proof.
  cbn zeta. unfold timeline, _process_events. cbn [fst eating_events].
  set (sorted := sort_by_time (eating_events v0)).
  assert (forall t,
    timeline_loop (recent_events sorted) ∅ !! t
    = Spec.unless_empty
        (snd <$> List.filter (fun e => fst e `div` 1000 * 1000 =? t)
                   (recent_events sorted))) as Hspec.
  { intros t. rewrite timeline_loop_spec by (intros k; by rewrite lookup_empty).
    by rewrite lookup_empty. }
  split_and!.
  - destruct (recent_events_split sorted) as (older & Hsplit & Hlen).
    exists older. split_and!; [done | |].
    + rewrite Hlen. unfold sorted.
      by rewrite (Permutation_length (sort_by_time_perm (eating_events v0))).
    + intros e e' He He'.
      pose proof (sort_by_time_sorted (eating_events v0)) as Hsorted.
      fold sorted in Hsorted. rewrite Hsplit in Hsorted.
      unfold Spec.by_time in Hsorted. rewrite fmap_app in Hsorted.
      apply (ascending_app _ _ Hsorted); by apply list_elem_of_fmap_2.
  - intros t ids. rewrite Hspec. intros Hids.
    assert (ids = snd <$> List.filter (fun e => fst e `div` 1000 * 1000 =? t)
                            (recent_events sorted)) as Heq.
    { destruct (snd <$> _) eqn:E; [done | by injection Hids]. }
    assert (ids <> []) as Hne.
    { intros ->. by destruct (snd <$> _). }
    assert (t `mod` 1000 = 0) as Hmod.
    { destruct (List.filter _ (recent_events sorted)) as [|e l] eqn:Hf;
        [by subst|].
      assert (In e (List.filter (fun e => fst e `div` 1000 * 1000 =? t)
                      (recent_events sorted))) as Hin by (rewrite Hf; by left).
      apply filter_In in Hin as [_ He]. apply Z.eqb_eq in He.
      by apply whole_second in He as [? _]. }
    split_and!; [done | done |].
    rewrite Heq. f_equal. apply List.filter_ext. intros e.
    destruct (Z.eqb_spec (fst e `div` 1000 * 1000) t) as [He|He].
    + apply whole_second in He as [_ He]. by rewrite bool_decide_eq_true_2.
    + rewrite bool_decide_eq_false_2; [done|]. intros Hb. apply He.
      by apply whole_second.
  - intros time philo_id Hin. rewrite Hspec.
    set (ids := snd <$> List.filter _ (recent_events sorted)).
    assert (philo_id ∈ ids) as Hid.
    { apply list_elem_of_fmap. exists (time, philo_id). split; [done|].
      apply list_elem_of_In, filter_In. split; [by apply list_elem_of_In|].
      simpl. apply Z.eqb_eq.
      pose proof (Z.div_mod time 1000 ltac:(lia)). lia. }
    exists ids. split; [|done].
    destruct ids; [by apply elem_of_nil in Hid | done].
Qed.

End Charts.

(** ** The two testers side by side *)

Section TwoTesters.

Import Tester.

(** X18. On the same output the lone philosopher tests of the two testers
    return the same value, or raise the same exception, and count the same
    number of passed checks.  When a death is reported they leave the same
    counters and verdicts; when none is, both return [False], and
    philosopher_tester.py writes one more failed verdict, "Death timing for
    one philosopher", which the simple tester leaves out. *)
Theorem one_philosopher_tests_agree (run : run_result) (t : tester) :
  let out := Tester.run_one_philosopher_test run t in
  let out' := TesterSimple.run_one_philosopher_test run t in
  fst out = fst out' /\
  tests_passed (snd out) = tests_passed (snd out') /\
  (Py.any (Py.contains "died") (snd run) = true -> snd out = snd out') /\
  (Py.any (Py.contains "died") (snd run) = false ->
   fst out = Ok false /\
   printed (snd out)
   = printed (snd out') ++ [("Death timing for one philosopher", false)] /\
   tests_failed (snd out) = tests_failed (snd out') + 1 /\
   total_tests (snd out) = total_tests (snd out') + 1).
Proof.
  destruct run as [returncode output]. cbn zeta. cbn [snd].
  unfold Tester.run_one_philosopher_test, TesterSimple.run_one_philosopher_test.
  destruct (Py.any (Py.contains "died") output) eqn:Hdied.
  - unfold mbind, M_bind, mret, M_ret, lift, print_test_result, modify. simpl.
    destruct (Py.next_where (Py.contains "died") output) as [death_line|e];
      [|by split_and!].
    destruct (result_bind _ _ Py.int (Py.index (Py.split death_line) 0))
      as [death_time|e]; [|by split_and!].
    simpl. by split_and!.
  - unfold mbind, M_bind, mret, M_ret, lift, print_test_result, modify. simpl.
    rewrite andb_false_r. by split_and!.
Qed.

End TwoTesters.
